(** * Sales ETL pipeline: validator and transformer

    A shallow embedding of [scripts/validator.py], [scripts/transformer.py]
    and [config/pipeline_config.py].

    - A pandas [DataFrame] is a header (the ordered column names) and a list
      of records; a record is a finite map from column name to cell.
    - [float64] cells are IEEE binary64 values (Rocq's primitive floats);
      [int64]/[Int64] cells are integers.
    - [self.metrics] is a dictionary (a finite map keyed by metric name).
    - The S3 bucket is a finite map from object key to the frame stored
      there; CSV text is not modelled, an object is the frame it encodes.
    - Exceptions are values of [exn]; methods that mutate [self.metrics] or
      the bucket are state-passing functions that return the new state along
      with the outcome.  Logging is dropped. *)

From Stdlib Require Import ZArith QArith Qcanon String Ascii List Floats Uint63 Lia.
From stdpp Require Import base numbers strings option gmap list.

Set Warnings "-inexact-float".
Local Open Scope string_scope.
Local Open Scope Z_scope.

(** ** Exceptions and the result of a call *)

Inductive exn :=
| KeyError (key : string)
| ValueError (missing : list string)
| TypeError
| DateParseError
| MergeError
| ZeroDivisionError
| ClientError (key : string).

Inductive result (A : Type) :=
| Ok (a : A)
| Raise (e : exn).
Arguments Ok {A} a.
Arguments Raise {A} e.

Definition rbind {A B} (r : result A) (k : A -> result B) : result B :=
  match r with
  | Ok a => k a
  | Raise e => Raise e
  end.

Notation "'let!' x ':=' e 'in' k" := (rbind e (fun x => k))
  (at level 10, x pattern, e at level 200, k at level 200, only parsing).

(** [traverse f l] applies [f] to every element in order and stops at the
    first exception. *)
Fixpoint traverse {A B} (f : A -> result B) (l : list A) : result (list B) :=
  match l with
  | [] => Ok []
  | a :: l' => let! b := f a in let! bs := traverse f l' in Ok (b :: bs)
  end.

(** ** Calendar dates

    A [Timestamp] at midnight.  [valid_date] holds of the dates a
    nanosecond-resolution [Timestamp] can hold (1677-09-22 to 2262-04-11). *)

Record date := { year : Z; month : Z; day : Z }.

Definition is_leap (y : Z) : bool :=
  ((y mod 4 =? 0) && negb (y mod 100 =? 0)) || (y mod 400 =? 0).

Definition days_in_month (y m : Z) : Z :=
  if m =? 2 then (if is_leap y then 29 else 28)
  else if (m =? 4) || (m =? 6) || (m =? 9) || (m =? 11) then 30
  else 31.

Definition date_leb (a b : date) : bool :=
  (year a <? year b) ||
  ((year a =? year b) &&
   ((month a <? month b) || ((month a =? month b) && (day a <=? day b)))).

Definition Timestamp_min : date := {| year := 1677; month := 9; day := 22 |}.
Definition Timestamp_max : date := {| year := 2262; month := 4; day := 11 |}.

Definition valid_date (d : date) : bool :=
  (1 <=? month d) && (month d <=? 12) &&
  (1 <=? day d) && (day d <=? days_in_month (year d) (month d)) &&
  date_leb Timestamp_min d && date_leb d Timestamp_max.

Definition digit (a : ascii) : option Z :=
  let n := Z.of_N (N_of_ascii a) in
  if (48 <=? n) && (n <=? 57) then Some (n - 48) else None.

Definition digit_char (d : Z) : ascii := ascii_of_N (Z.to_N (48 + d)).

Definition pad2 (n : Z) : string :=
  String (digit_char (n / 10)) (String (digit_char (n mod 10)) EmptyString).

Definition pad4 (n : Z) : string :=
  String (digit_char (n / 1000))
    (String (digit_char (n / 100 mod 10)) (pad2 (n mod 100))).

(** [strftime('%Y-%m-%d')] *)
Definition strftime_ymd (d : date) : string :=
  pad4 (year d) +:+ "-" +:+ pad2 (month d) +:+ "-" +:+ pad2 (day d).

(** The ISO-8601 calendar form [YYYY-MM-DD], the one the pipeline writes. *)
Definition parse_iso_date (s : string) : option date :=
  match s with
  | String y1 (String y2 (String y3 (String y4 (String "-"
      (String m1 (String m2 (String "-" (String d1 (String d2
        EmptyString))))))))) =>
      y1 ← digit y1; y2 ← digit y2; y3 ← digit y3; y4 ← digit y4;
      m1 ← digit m1; m2 ← digit m2; d1 ← digit d1; d2 ← digit d2;
      let d := {| year := 1000 * y1 + 100 * y2 + 10 * y3 + y4;
                  month := 10 * m1 + m2; day := 10 * d1 + d2 |} in
      if valid_date d then Some d else None
  | _ => None
  end.

(** Days since 1970-01-01 (proleptic Gregorian). *)
Definition days_from_civil (d : date) : Z :=
  let y := if month d <=? 2 then year d - 1 else year d in
  let era := y / 400 in
  let yoe := y - era * 400 in
  let mp := (month d + 9) mod 12 in
  let doy := (153 * mp + 2) / 5 + day d - 1 in
  let doe := yoe * 365 + yoe / 4 - yoe / 100 + doy in
  era * 146097 + doe - 719468.

(** [dt.dayofweek]: Monday is 0, Sunday is 6. *)
Definition dayofweek (d : date) : Z := (days_from_civil d + 3) mod 7.

Definition dayofyear (d : date) : Z :=
  days_from_civil d
  - days_from_civil {| year := year d; month := 1; day := 1 |} + 1.

(** Number of ISO weeks of a year: 53 when 1 January is a Thursday, or a
    Wednesday in a leap year. *)
Definition iso_weeks_in_year (y : Z) : Z :=
  let jan1 := dayofweek {| year := y; month := 1; day := 1 |} in
  if (jan1 =? 3) || ((jan1 =? 2) && is_leap y) then 53 else 52.

(** [dt.isocalendar().week] *)
Definition isoweek (d : date) : Z :=
  let w := (dayofyear d - (dayofweek d + 1) + 10) / 7 in
  if w <? 1 then iso_weeks_in_year (year d - 1)
  else if iso_weeks_in_year (year d) <? w then 1
  else w.

Definition quarter (d : date) : Z := (month d - 1) / 3 + 1.

Definition month_names : list string :=
  ["January"; "February"; "March"; "April"; "May"; "June"; "July";
   "August"; "September"; "October"; "November"; "December"].

Definition day_names : list string :=
  ["Monday"; "Tuesday"; "Wednesday"; "Thursday"; "Friday"; "Saturday";
   "Sunday"].

(** [strftime('%B')] and [strftime('%A')] *)
Definition month_name (d : date) : string :=
  default "" (month_names !! Z.to_nat (month d - 1)).
Definition day_name (d : date) : string :=
  default "" (day_names !! Z.to_nat (dayofweek d)).

(** ** Cells *)

Inductive scalar :=
| SStr (s : string)
| SInt (z : Z)
| SFloat (f : float)
| SBool (b : bool)
| SDate (d : date)
| SRank (q : Qc)
| SNA.

(** [SRank q] is a fractional rank: pandas stores the binary64 nearest to
    the fraction [q]; the model keeps the fraction itself. *)

Definition isna (v : scalar) : bool :=
  match v with
  | SNA => true
  | SFloat f => is_nan f
  | _ => false
  end.

(** Equality of cells as hash keys ([drop_duplicates], [groupby], [isin]):
    missing values are equal to one another. *)
Definition key_eqb (a b : scalar) : bool :=
  match a, b with
  | SStr s, SStr t => String.eqb s t
  | SInt x, SInt y => Z.eqb x y
  | SFloat f, SFloat g => (f =? g)%float || (is_nan f && is_nan g)
  | SBool x, SBool y => Bool.eqb x y
  | SDate x, SDate y =>
      (year x =? year y) && (month x =? month y) && (day x =? day y)
  | SRank p, SRank q => bool_decide (p = q)
  | SNA, SNA => true
  | SNA, SFloat f | SFloat f, SNA => is_nan f
  | _, _ => false
  end.

(** ** binary64 helpers *)

(** Conversion of an [int64] to [float64] (correctly rounded). *)
Definition Z_to_float (z : Z) : float :=
  if z <? 0 then (- of_uint63 (Uint63.of_Z (- z)))%float
  else of_uint63 (Uint63.of_Z z).

Definition two52 : float := 4503599627370496%float.

(** C's [rint]: the nearest integer, ties to even, sign kept. *)
Definition rint (x : float) : float :=
  if (abs x <? two52)%float then
    let r := (abs x + two52 - two52)%float in
    if get_sign x then (- r)%float else r
  else x.

(** [numpy.round(x, 2)]: scale, [rint], scale back. *)
Definition round2 (x : float) : float := (rint (x * 100) / 100)%float.

(** The integer a float denotes, when it denotes one. *)
Definition float_to_Z (f : float) : option Z :=
  match Prim2SF f with
  | S754_zero _ => Some 0
  | S754_finite s m e =>
      let mag :=
        if 0 <=? e then Some (Z.pos m * 2 ^ e)
        else if Z.pos m mod 2 ^ (- e) =? 0 then Some (Z.pos m / 2 ^ (- e))
        else None in
      (fun z => if s then - z else z) <$> mag
  | _ => None
  end.

(** The numeric reading of a cell as a [float64]; a missing value reads as
    NaN, text does not read at all. *)
Definition num (v : scalar) : result float :=
  match v with
  | SInt z => Ok (Z_to_float z)
  | SFloat f => Ok f
  | SNA => Ok nan
  | _ => Raise TypeError
  end.

(** Order and equality of numeric cells: two integers compare exactly,
    anything else compares as [float64] (so NaN compares false). *)
Definition num_ltb (a b : scalar) : bool :=
  match a, b with
  | SInt x, SInt y => x <? y
  | _, _ =>
      match num a, num b with
      | Ok f, Ok g => (f <? g)%float
      | _, _ => false
      end
  end.

Definition num_leb (a b : scalar) : bool :=
  match a, b with
  | SInt x, SInt y => x <=? y
  | _, _ =>
      match num a, num b with
      | Ok f, Ok g => (f <=? g)%float
      | _, _ => false
      end
  end.

Definition num_eqb (a b : scalar) : bool :=
  match a, b with
  | SInt x, SInt y => x =? y
  | _, _ =>
      match num a, num b with
      | Ok f, Ok g => (f =? g)%float
      | _, _ => false
      end
  end.

(** The comparison operators of a Series against a Series or a constant,
    cell by cell; text on either side raises. *)
Definition lt_scalar (a b : scalar) : result bool :=
  let! _ := num a in let! _ := num b in Ok (num_ltb a b).
Definition le_scalar (a b : scalar) : result bool :=
  let! _ := num a in let! _ := num b in Ok (num_leb a b).
Definition gt_scalar (a b : scalar) : result bool := lt_scalar b a.
Definition ge_scalar (a b : scalar) : result bool := le_scalar b a.

(** [a * b] on numeric cells: the product is a [float64]. *)
Definition mul_scalar (a b : scalar) : result scalar :=
  let! x := num a in let! y := num b in Ok (SFloat (x * y)).

(** [Series.round(2)] on one cell: integers are left as they are. *)
Definition round_scalar (v : scalar) : result scalar :=
  match v with
  | SInt z => Ok (SInt z)
  | _ => let! x := num v in Ok (SFloat (round2 x))
  end.

(** [Series.sum()] and [Series.mean()], missing values skipped: the sum
    runs over the values in row order (the blocking and the compensation
    pandas applies to long sums are not modelled); the mean of no value is
    NaN. *)
Definition nansum (l : list float) : float :=
  fold_left (fun acc x => if is_nan x then acc else (acc + x)%float) l 0%float.

Definition nancount (l : list float) : Z :=
  Z.of_nat (length (filter (fun x => is_nan x = false) l)).

Definition nanmean (l : list float) : float :=
  (nansum l / Z_to_float (nancount l))%float.

(** ** Frames *)

Record DataFrame := {
  columns : list string;
  rows : list (gmap string scalar)
}.

Definition cell (r : gmap string scalar) (c : string) : scalar :=
  default SNA (r !! c).

(** [len(df)] *)
Definition len (df : DataFrame) : Z := Z.of_nat (length (rows df)).

(** [df[c]]: the column as a list of cells, [KeyError] when absent. *)
Definition getitem (df : DataFrame) (c : string) : result (list scalar) :=
  if decide (c ∈ columns df) then Ok ((fun r => cell r c) <$> rows df)
  else Raise (KeyError c).

(** [df[c] = s]: overwrite the column in place or append it at the end. *)
Definition setitem (df : DataFrame) (c : string) (s : list scalar) : DataFrame :=
  {| columns := if decide (c ∈ columns df) then columns df
                else columns df ++ [c];
     rows := zip_with (fun r v => <[c := v]> r) (rows df) s |}.

(** [df[cs]]: the listed columns, in the listed order. *)
Definition getitems (df : DataFrame) (cs : list string) : result DataFrame :=
  match filter (fun c => c ∉ columns df) cs with
  | [] => Ok {| columns := cs;
                rows := filter (fun kv => kv.1 ∈ cs) <$> rows df |}
  | c :: _ => Raise (KeyError c)
  end.

(** [df[mask]]: the rows whose mask entry is [True]. *)
Fixpoint boolean_index {A} (l : list A) (mask : list bool) : list A :=
  match l, mask with
  | a :: l', b :: mask' =>
      if b then a :: boolean_index l' mask' else boolean_index l' mask'
  | _, _ => []
  end.

Definition loc (df : DataFrame) (mask : list bool) : DataFrame :=
  {| columns := columns df; rows := boolean_index (rows df) mask |}.

(** [df.dropna(subset=cs)]; [df.dropna()] is [dropna df (columns df)]. *)
Definition dropna (df : DataFrame) (cs : list string) : result DataFrame :=
  match filter (fun c => c ∉ columns df) cs with
  | [] => Ok {| columns := columns df;
                rows := filter (fun r => forallb (fun c => negb (isna (cell r c))) cs = true)
                          (rows df) |}
  | c :: _ => Raise (KeyError c)
  end.

(** [df.drop_duplicates(subset=[c], keep='first')] *)
Fixpoint keep_first (c : string) (seen : list scalar)
    (rs : list (gmap string scalar)) : list (gmap string scalar) :=
  match rs with
  | [] => []
  | r :: rs' =>
      if existsb (key_eqb (cell r c)) seen then keep_first c seen rs'
      else r :: keep_first c (cell r c :: seen) rs'
  end.

Definition drop_duplicates (df : DataFrame) (c : string) : result DataFrame :=
  let! _ := getitem df c in
  Ok {| columns := columns df; rows := keep_first c [] (rows df) |}.

(** [s.isin(values)] *)
Definition isin (values : list scalar) (v : scalar) : bool :=
  existsb (key_eqb v) values.

(** ** State: the object's metrics dictionary and the bucket *)

Record state := {
  metrics : gmap string scalar;
  s3 : gmap string DataFrame
}.

Definition M (A : Type) : Type := state -> state * result A.

Definition ret {A} (a : A) : M A := fun s => (s, Ok a).
Definition raise {A} (e : exn) : M A := fun s => (s, Raise e).
Definition lift {A} (r : result A) : M A := fun s => (s, r).
Definition bind {A B} (m : M A) (k : A -> M B) : M B :=
  fun s => match m s with
           | (s', Ok a) => k a s'
           | (s', Raise e) => (s', Raise e)
           end.

Notation "'do!' x ':=' e 'in' k" := (bind e (fun x => k))
  (at level 10, x pattern, e at level 200, k at level 200, only parsing).

(** [self.metrics[k] = v] *)
Definition set_metric (k : string) (v : scalar) : M unit :=
  fun s => ({| metrics := <[k := v]> (metrics s); s3 := s3 s |}, Ok tt).

(** [self.metrics[k]] *)
Definition get_metric (k : string) : M scalar :=
  fun s => match metrics s !! k with
           | Some v => (s, Ok v)
           | None => (s, Raise (KeyError k))
           end.

(** [s3_client.get_object] followed by [pd.read_csv] *)
Definition read_from_s3 (key : string) : M DataFrame :=
  fun s => match s3 s !! key with
           | Some df => (s, Ok df)
           | None => (s, Raise (ClientError key))
           end.

(** [df.to_csv] followed by [s3_client.put_object] *)
Definition write_to_s3 (df : DataFrame) (key : string) : M unit :=
  fun s => ({| metrics := metrics s; s3 := <[key := df]> (s3 s) |}, Ok tt).

(** Python arithmetic on the numbers held in the metrics dictionary. *)
Definition py_add (a b : scalar) : result scalar :=
  match a, b with
  | SInt x, SInt y => Ok (SInt (x + y))
  | _, _ => let! x := num a in let! y := num b in Ok (SFloat (x + y))
  end.

Definition py_sub (a b : scalar) : result scalar :=
  match a, b with
  | SInt x, SInt y => Ok (SInt (x - y))
  | _, _ => let! x := num a in let! y := num b in Ok (SFloat (x - y))
  end.

(** True division of Python [int]s: a zero divisor raises.  (The quotient
    of the two conversions is the correctly rounded quotient for operands
    below 2^53, which row counts are.) *)
Definition py_truediv (a b : scalar) : result float :=
  match a, b with
  | SInt x, SInt y =>
      if y =? 0 then Raise ZeroDivisionError
      else Ok (Z_to_float x / Z_to_float y)%float
  | _, _ => Raise TypeError
  end.

(** ** Configuration ([pipeline_config.py]) *)

Definition RAW_ZONE : string := "raw-zone".
Definition PROCESSED_ZONE : string := "processed-zone".

Definition REQUIRED_COLUMNS : list string :=
  ["transaction_id"; "date"; "region"; "product"; "quantity"; "price";
   "customer_id"].

Definition MIN_QUANTITY : Z := 1.
Definition MAX_QUANTITY : Z := 1000.
Definition MIN_PRICE : float := 0.01%float.
Definition MAX_PRICE : float := 100000.00%float.

Definition VALID_REGIONS : list string :=
  ["North"; "South"; "East"; "West"; "Central"].

(** ** Stage 1: [DataValidator] ([validator.py]) *)

Section Validator.

(** Library behaviour the source relies on and the model leaves open:
    [pandas.to_numeric] on a text cell, [pandas.to_datetime] on anything
    but an ISO calendar date, the builtin [round(x, 2)], and the wall-clock
    duration of a run. *)
Variable str_to_number : string -> option (Z + float).
Variable flex_datetime : scalar -> option date.
Variable builtin_round2 : float -> float.
Variable elapsed : float.

(** [DataValidator.__init__] *)
Definition validator_init : gmap string scalar :=
  list_to_map
    [("total_records", SInt 0); ("valid_records", SInt 0);
     ("duplicates_removed", SInt 0); ("null_values_removed", SInt 0);
     ("invalid_quantity", SInt 0); ("invalid_price", SInt 0);
     ("invalid_region", SInt 0); ("schema_errors", SInt 0)].

Definition validate_schema (df : DataFrame) : M DataFrame :=
  let missing_cols : gset string :=
    list_to_set REQUIRED_COLUMNS ∖ list_to_set (columns df) in
  if decide (missing_cols = ∅) then
    lift (getitems df REQUIRED_COLUMNS)
  else
    do! n := get_metric "schema_errors" in
    do! n' := lift (py_add n (SInt 1)) in
    do! _ := set_metric "schema_errors" n' in
    raise (ValueError (elements missing_cols)).

Definition remove_duplicates (df : DataFrame) : M DataFrame :=
  let initial_count := len df in
  do! df := lift (drop_duplicates df "transaction_id") in
  let duplicates := initial_count - len df in
  do! _ := set_metric "duplicates_removed" (SInt duplicates) in
  ret df.

Definition remove_nulls (df : DataFrame) : M DataFrame :=
  let initial_count := len df in
  do! df := lift (dropna df (columns df)) in
  let nulls := initial_count - len df in
  do! _ := set_metric "null_values_removed" (SInt nulls) in
  ret df.

(** [pd.to_numeric(s, errors='coerce')], cell by cell. *)
Definition to_numeric (v : scalar) : scalar :=
  match v with
  | SInt _ | SFloat _ => v
  | SBool b => SInt (if b then 1 else 0)
  | SStr s =>
      match str_to_number s with
      | Some (inl z) => SInt z
      | Some (inr f) => SFloat f
      | None => SFloat nan
      end
  | _ => SFloat nan
  end.

(** [.astype('Int64')]: a float that is not a whole [int64] cannot be
    cast and the call raises. *)
Definition astype_Int64 (v : scalar) : result scalar :=
  match v with
  | SInt z => Ok (SInt z)
  | SFloat f =>
      if is_nan f then Ok SNA
      else match float_to_Z f with
           | Some z =>
               if (- 2 ^ 63 <=? z) && (z <? 2 ^ 63) then Ok (SInt z)
               else Raise TypeError
           | None => Raise TypeError
           end
  | SNA => Ok SNA
  | _ => Raise TypeError
  end.

Definition validate_data_types (df : DataFrame) : M DataFrame :=
  do! quantity := lift (getitem df "quantity") in
  do! quantity := lift (traverse astype_Int64 (to_numeric <$> quantity)) in
  let df := setitem df "quantity" quantity in
  do! price := lift (getitem df "price") in
  let df := setitem df "price" (to_numeric <$> price) in
  lift (dropna df ["quantity"; "price"]).

Definition validate_business_rules (df : DataFrame) : M DataFrame :=
  do! quantity := lift (getitem df "quantity") in
  do! q_low := lift (traverse (fun q => lt_scalar q (SInt MIN_QUANTITY)) quantity) in
  do! q_high := lift (traverse (fun q => gt_scalar q (SInt MAX_QUANTITY)) quantity) in
  let invalid_qty := loc df (zip_with orb q_low q_high) in
  do! _ := set_metric "invalid_quantity" (SInt (len invalid_qty)) in
  do! price := lift (getitem df "price") in
  do! p_low := lift (traverse (fun p => lt_scalar p (SFloat MIN_PRICE)) price) in
  do! p_high := lift (traverse (fun p => gt_scalar p (SFloat MAX_PRICE)) price) in
  let invalid_price := loc df (zip_with orb p_low p_high) in
  do! _ := set_metric "invalid_price" (SInt (len invalid_price)) in
  do! region := lift (getitem df "region") in
  let r_ok := isin (SStr <$> VALID_REGIONS) <$> region in
  let invalid_region := loc df (negb <$> r_ok) in
  do! _ := set_metric "invalid_region" (SInt (len invalid_region)) in
  do! q_ge := lift (traverse (fun q => ge_scalar q (SInt MIN_QUANTITY)) quantity) in
  do! q_le := lift (traverse (fun q => le_scalar q (SInt MAX_QUANTITY)) quantity) in
  do! p_ge := lift (traverse (fun p => ge_scalar p (SFloat MIN_PRICE)) price) in
  do! p_le := lift (traverse (fun p => le_scalar p (SFloat MAX_PRICE)) price) in
  ret (loc df (zip_with andb (zip_with andb (zip_with andb (zip_with andb
                 q_ge q_le) p_ge) p_le) r_ok)).

(** [pd.to_datetime(v, errors='coerce')]: [SNA] is [NaT]. *)
Definition to_datetime (v : scalar) : scalar :=
  match v with
  | SDate d => SDate d
  | SNA => SNA
  | SStr s =>
      match parse_iso_date s with
      | Some d => SDate d
      | None => from_option SDate SNA (flex_datetime v)
      end
  | _ => from_option SDate SNA (flex_datetime v)
  end.

(** [.dt.strftime('%Y-%m-%d')] on a datetime column *)
Definition dt_strftime (v : scalar) : result scalar :=
  match v with
  | SDate d => Ok (SStr (strftime_ymd d))
  | SNA => Ok SNA
  | _ => Raise TypeError
  end.

Definition validate_dates (df : DataFrame) : M DataFrame :=
  do! dates := lift (getitem df "date") in
  let df := setitem df "date" (to_datetime <$> dates) in
  do! df := lift (dropna df ["date"]) in
  do! dates := lift (getitem df "date") in
  do! strs := lift (traverse dt_strftime dates) in
  ret (setitem df "date" strs).

Definition process_file (input_key output_key : string)
    : M (gmap string scalar) :=
  do! df := read_from_s3 input_key in
  do! _ := set_metric "total_records" (SInt (len df)) in
  do! df := validate_schema df in
  do! df := remove_duplicates df in
  do! df := remove_nulls df in
  do! df := validate_data_types df in
  do! df := validate_dates df in
  do! df := validate_business_rules df in
  do! _ := set_metric "valid_records" (SInt (len df)) in
  do! _ := write_to_s3 df output_key in
  do! total := get_metric "total_records" in
  do! valid := get_metric "valid_records" in
  do! rejected := lift (py_sub total valid) in
  do! total := get_metric "total_records" in
  do! ratio := lift (py_truediv rejected total) in
  let rejection_rate := (ratio * 100)%float in
  do! _ := set_metric "processing_time_seconds" (SFloat elapsed) in
  do! _ := set_metric "rejection_rate_percent"
             (SFloat (builtin_round2 rejection_rate)) in
  fun s => (s, Ok (metrics s)).

End Validator.

(** ** Grouped operations

    [groupby(key)] drops the rows whose key is missing and makes one group
    per distinct key.  (pandas also sorts the groups by key; no operation
    below observes that order.) *)

Fixpoint unique_keys (seen ks : list scalar) : list scalar :=
  match ks with
  | [] => []
  | k :: ks' =>
      if isna k || existsb (key_eqb k) seen then unique_keys seen ks'
      else k :: unique_keys (k :: seen) ks'
  end.

(** The values of [vs] on the rows of group [k]. *)
Definition group_values {A} (ks : list scalar) (vs : list A) (k : scalar)
    : list A :=
  snd <$> filter (fun kv => key_eqb kv.1 k = true) (zip ks vs).

Definition count_if {A} (p : A -> bool) (l : list A) : Z :=
  Z.of_nat (length (filter (fun a => p a = true) l)).

(** [groupby(key)[val].transform(agg)]: every row receives the aggregate of
    its group; a row without a key receives NaN. *)
Definition group_transform (agg : list float -> float)
    (ks : list scalar) (vs : list float) : list scalar :=
  (fun k => if isna k then SFloat nan else SFloat (agg (group_values ks vs k)))
    <$> ks.

(** [groupby(key)[val].rank(pct=True)]: ascending, ties share the average
    of the ranks they span, and the rank is divided by the number of values
    in the group.  With [less] values below [v] and [equal] values tied with
    it (itself included) the average rank is [less + (equal + 1) / 2]. *)
Definition pct_rank (grp : list scalar) (v : scalar) : Qc :=
  let less := count_if (fun w => num_ltb w v) grp in
  let equal := count_if (fun w => num_eqb w v) grp in
  Q2Qc (Qmake (2 * less + equal + 1) (Z.to_pos (2 * Z.of_nat (length grp)))).

Definition group_rank_pct (ks vs : list scalar) : list scalar :=
  zip_with (fun k v =>
    if isna k || isna v then SFloat nan
    else SRank (pct_rank
           (filter (fun w => isna w = false) (group_values ks vs k)) v))
    ks vs.

(** [df.merge(right[[c]], left_on=k, right_index=True, how='left')] where
    [right] is indexed by key and has the single column [c].  Every left row
    is kept, in order, once per matching right row (once with NaN when
    there is none).  A column name present on both sides is suffixed [_x]
    on the left and [_y] on the right; a suffixed name that is already
    taken is a [MergeError]. *)
Definition merge_left (df : DataFrame) (k c : string)
    (right : list (scalar * scalar)) : result DataFrame :=
  let! _ := getitem df k in
  let overlap := bool_decide (c ∈ columns df) in
  let lname := if overlap then c +:+ "_x" else c in
  let rname := if overlap then c +:+ "_y" else c in
  if overlap && bool_decide (lname ∈ columns df ∨ rname ∈ columns df) then
    Raise MergeError
  else
    Ok {| columns :=
            ((fun n => if decide (n = c) then lname else n) <$> columns df)
            ++ [rname];
          rows :=
            r ← rows df;
            let r0 := if overlap then <[lname := cell r c]> (delete c r)
                      else r in
            match filter (fun kv => key_eqb (cell r k) kv.1 = true) right with
            | [] => [<[rname := SFloat nan]> r0]
            | ms => (fun kv => <[rname := kv.2]> r0) <$> ms
            end |}.

(** ** Stage 2: [DataTransformer] ([transformer.py]) *)

Definition PRODUCT_CATEGORIES : gmap string string :=
  list_to_map
    [("Laptop", "Computing"); ("Desktop", "Computing");
     ("Monitor", "Peripherals"); ("Keyboard", "Peripherals");
     ("Mouse", "Peripherals"); ("Headset", "Audio"); ("Webcam", "Video");
     ("Router", "Networking"); ("Switch", "Networking");
     ("Cable", "Accessories")].

(** A dictionary iterated in insertion order. *)
Definition REVENUE_TIERS : list (string * (float * float)) :=
  [("Low", (0, 100)); ("Medium", (100, 500)); ("High", (500, 2000));
   ("Premium", (2000, infinity))]%float.

Section Transformer.

(** Library behaviour left open: [pandas.to_datetime] on anything but an
    ISO calendar date, [Series.quantile], the group median, and the
    wall-clock duration of a run. *)
Variable flex_datetime : scalar -> option date.
Variable quantile : list float -> float -> float.
Variable median : list float -> float.
Variable elapsed : float.

(** [DataTransformer.__init__] *)
Definition transformer_init : gmap string scalar :=
  list_to_map
    [("records_processed", SInt 0); ("columns_added", SInt 0);
     ("avg_revenue", SInt 0); ("total_revenue", SInt 0);
     ("transformation_time", SInt 0)].

Definition calculate_revenue (df : DataFrame) : M DataFrame :=
  do! quantity := lift (getitem df "quantity") in
  do! price := lift (getitem df "price") in
  do! product := lift (traverse (fun qp => mul_scalar qp.1 qp.2)
                         (zip quantity price)) in
  let df := setitem df "revenue" product in
  do! revenue := lift (getitem df "revenue") in
  do! rounded := lift (traverse round_scalar revenue) in
  let df := setitem df "revenue" rounded in
  do! revenue := lift (getitem df "revenue") in
  do! values := lift (traverse num revenue) in
  do! _ := set_metric "total_revenue" (SFloat (nansum values)) in
  do! _ := set_metric "avg_revenue" (SFloat (nanmean values)) in
  ret df.

(** [pd.to_datetime(v)] with the default [errors='raise'] *)
Definition to_datetime_raise (v : scalar) : result scalar :=
  if isna v then Ok SNA
  else
    match v with
    | SDate d => Ok (SDate d)
    | SStr s =>
        match parse_iso_date s with
        | Some d => Ok (SDate d)
        | None => from_option (fun d => Ok (SDate d)) (Raise DateParseError)
                    (flex_datetime v)
        end
    | _ => from_option (fun d => Ok (SDate d)) (Raise DateParseError)
             (flex_datetime v)
    end.

(** A [.dt] accessor on one cell of a datetime column. *)
Definition dt (f : date -> scalar) (v : scalar) : result scalar :=
  match v with
  | SDate d => Ok (f d)
  | SNA => Ok SNA
  | _ => Raise TypeError
  end.

(** [df[c] = f(df[a])], cell by cell. *)
Definition assign (df : DataFrame) (c a : string)
    (f : scalar -> result scalar) : result DataFrame :=
  let! col := getitem df a in
  let! s := traverse f col in
  Ok (setitem df c s).

Definition extract_date_components (df : DataFrame) : result DataFrame :=
  let! df := assign df "date" "date" to_datetime_raise in
  let! df := assign df "year" "date" (dt (fun d => SInt (year d))) in
  let! df := assign df "month" "date" (dt (fun d => SInt (month d))) in
  let! df := assign df "month_name" "date" (dt (fun d => SStr (month_name d))) in
  let! df := assign df "quarter" "date" (dt (fun d => SInt (quarter d))) in
  let! df := assign df "day_of_week" "date" (dt (fun d => SInt (dayofweek d))) in
  let! df := assign df "day_name" "date" (dt (fun d => SStr (day_name d))) in
  let! df := assign df "week_of_year" "date" (dt (fun d => SInt (isoweek d))) in
  let! df := assign df "is_business_day" "day_of_week"
               (fun v => let! b := lt_scalar v (SInt 5) in Ok (SBool b)) in
  assign df "date" "date" (dt (fun d => SStr (strftime_ymd d))).

Fixpoint first_tier (tiers : list (string * (float * float)))
    (revenue : float) : string :=
  match tiers with
  | [] => "Premium"
  | (category, (min_val, max_val)) :: tiers' =>
      if (min_val <=? revenue)%float && (revenue <? max_val)%float
      then category
      else first_tier tiers' revenue
  end.

Definition get_revenue_category (revenue : float) : string :=
  first_tier REVENUE_TIERS revenue.

Definition categorize_revenue (df : DataFrame) : result DataFrame :=
  assign df "revenue_category" "revenue"
    (fun v => let! x := num v in Ok (SStr (get_revenue_category x))).

(** [Series.map(dict)]: a key the dictionary lacks maps to NaN. *)
Definition map_dict (d : gmap string string) (v : scalar) : scalar :=
  match v with
  | SStr s => from_option SStr (SFloat nan) (d !! s)
  | _ => SFloat nan
  end.

Definition fillna (x : scalar) (v : scalar) : scalar :=
  if isna v then x else v.

Definition add_product_categories (df : DataFrame) : result DataFrame :=
  let! product := getitem df "product" in
  let df := setitem df "product_category"
              (map_dict PRODUCT_CATEGORIES <$> product) in
  let! category := getitem df "product_category" in
  let unmapped := count_if isna category in
  if 0 <? unmapped then
    Ok (setitem df "product_category" (fillna (SStr "Other") <$> category))
  else Ok df.

Definition get_customer_segment (total_revenue : float) : string :=
  if (total_revenue <? 500)%float then "Bronze"
  else if (total_revenue <? 2000)%float then "Silver"
  else if (total_revenue <? 5000)%float then "Gold"
  else "Platinum".

(** [customer_stats]: per customer, the revenue total, the purchase count
    and the segment of the total. *)
Definition customer_stats (ids : list scalar) (revenue : list float)
    (txn : list scalar) : list (scalar * (float * Z * string)) :=
  (fun k =>
     let total := nansum (group_values ids revenue k) in
     let purchase_count :=
       count_if (fun t => negb (isna t)) (group_values ids txn k) in
     (k, (total, purchase_count, get_customer_segment total)))
  <$> unique_keys [] ids.

Definition add_customer_segments (df : DataFrame) : result DataFrame :=
  let! ids := getitem df "customer_id" in
  let! revenue := getitem df "revenue" in
  let! txn := getitem df "transaction_id" in
  let! revenue := traverse num revenue in
  let stats := customer_stats ids revenue txn in
  let! df := merge_left df "customer_id" "customer_segment"
               ((fun ks => (ks.1, SStr ks.2.2)) <$> stats) in
  let! _ := getitem df "customer_segment" in
  Ok df.

Definition add_price_indicators (df : DataFrame) : result DataFrame :=
  let! product := getitem df "product" in
  let! price := getitem df "price" in
  let! _ := traverse num price in
  let df := setitem df "price_percentile" (group_rank_pct product price) in
  let! revenue := getitem df "revenue" in
  let! revenue := traverse num revenue in
  let revenue_90th := quantile revenue 0.9%float in
  Ok (setitem df "is_high_value"
        ((fun x => SBool (revenue_90th <=? x)%float) <$> revenue)).

Definition add_quantity_indicators (df : DataFrame) : result DataFrame :=
  let! product := getitem df "product" in
  let! quantity := getitem df "quantity" in
  let! values := traverse num quantity in
  let product_medians := group_transform median product values in
  let! bulk := traverse (fun qm => let! b := gt_scalar qm.1 qm.2 in Ok (SBool b))
                 (zip quantity product_medians) in
  let df := setitem df "is_bulk_purchase" bulk in
  let! product := getitem df "product" in
  let! quantity := getitem df "quantity" in
  let! _ := traverse num quantity in
  Ok (setitem df "quantity_percentile" (group_rank_pct product quantity)).

Definition add_regional_indicators (df : DataFrame) : result DataFrame :=
  let! region := getitem df "region" in
  let! revenue := getitem df "revenue" in
  let! values := traverse num revenue in
  let regional_avg := group_transform nanmean region values in
  let! rounded := traverse round_scalar regional_avg in
  let df := setitem df "regional_avg_revenue" rounded in
  let! revenue := getitem df "revenue" in
  let! avg := getitem df "regional_avg_revenue" in
  let! above := traverse (fun ra => let! b := gt_scalar ra.1 ra.2 in Ok (SBool b))
                  (zip revenue avg) in
  Ok (setitem df "above_regional_avg" above).

Definition transform_data (df : DataFrame) : M DataFrame :=
  let initial_columns := Z.of_nat (length (columns df)) in
  do! df := calculate_revenue df in
  do! df := lift (extract_date_components df) in
  do! df := lift (categorize_revenue df) in
  do! df := lift (add_product_categories df) in
  do! df := lift (add_customer_segments df) in
  do! df := lift (add_price_indicators df) in
  do! df := lift (add_quantity_indicators df) in
  do! df := lift (add_regional_indicators df) in
  let final_columns := Z.of_nat (length (columns df)) in
  do! _ := set_metric "columns_added" (SInt (final_columns - initial_columns)) in
  do! _ := set_metric "records_processed" (SInt (len df)) in
  ret df.

Definition transformer_process_file (input_key output_key : string)
    : M (gmap string scalar) :=
  do! df := read_from_s3 input_key in
  do! df := transform_data df in
  do! _ := write_to_s3 df output_key in
  do! _ := set_metric "transformation_time" (SFloat elapsed) in
  fun s => (s, Ok (metrics s)).

End Transformer.

(** ** The business rules, as the specification words them *)

Definition quantity_in_bounds (r : gmap string scalar) : bool :=
  match cell r "quantity" with
  | SInt q => (MIN_QUANTITY <=? q) && (q <=? MAX_QUANTITY)
  | _ => false
  end.

Definition price_in_bounds (r : gmap string scalar) : bool :=
  match num (cell r "price") with
  | Ok p => (MIN_PRICE <=? p)%float && (p <=? MAX_PRICE)%float
  | Raise _ => false
  end.

Definition region_valid (r : gmap string scalar) : bool :=
  match cell r "region" with
  | SStr s => bool_decide (s ∈ VALID_REGIONS)
  | _ => false
  end.

(** A record as the business-rule step receives it from the steps before:
    the quantity is an [Int64], the price is a number. *)
Definition typed_record (r : gmap string scalar) : Prop :=
  (exists q, cell r "quantity" = SInt q)
  /\ (exists p, num (cell r "price") = Ok p /\ is_nan p = false).

(** ** A validated batch, and the transformer read row by row

    The validator's output as the catalog types it ([EXPECTED_DTYPES]):
    text identifiers, region and product, an integer quantity and a float
    price within the bounds, and a date in the form the validator writes. *)

Definition valid_record (r : gmap string scalar) : Prop :=
  (exists t, cell r "transaction_id" = SStr t)
  /\ (exists d, valid_date d = true /\ r !! "date" = Some (SStr (strftime_ymd d)))
  /\ region_valid r = true
  /\ (exists p, cell r "product" = SStr p)
  /\ quantity_in_bounds r = true
  /\ (exists x, cell r "price" = SFloat x)
  /\ price_in_bounds r = true
  /\ (exists c, cell r "customer_id" = SStr c).

Definition validated (df : DataFrame) : Prop :=
  columns df = REQUIRED_COLUMNS /\ Forall valid_record (rows df).

(** The column [c] of a frame, and the frame with column [c] computed from
    each record. *)
Definition col (df : DataFrame) (c : string) : list scalar :=
  (fun r => cell r c) <$> rows df.

Definition setcol (df : DataFrame) (c : string)
    (f : gmap string scalar -> scalar) : DataFrame :=
  {| columns := if decide (c ∈ columns df) then columns df
                else columns df ++ [c];
     rows := (fun r => <[c := f r]> r) <$> rows df |}.

(** The numeric reading of a cell, NaN when it has none. *)
Definition numf (v : scalar) : float :=
  match num v with
  | Ok x => x
  | Raise _ => nan
  end.

Definition revenue_of (r : gmap string scalar) : float :=
  round2 (numf (cell r "quantity") * numf (cell r "price")).

Definition date_of (r : gmap string scalar) : option date :=
  match cell r "date" with
  | SDate d => Some d
  | SStr s => parse_iso_date s
  | _ => None
  end.

Definition date_cell (f : date -> scalar) (r : gmap string scalar) : scalar :=
  from_option f SNA (date_of r).

(** Shapes of cells and records the proofs keep track of. *)
Definition has_cell (c : string) (P : scalar -> Prop)
    (r : gmap string scalar) : Prop :=
  P (cell r c).

Definition is_SDate (v : scalar) : Prop := exists d, v = SDate d.
Definition is_SInt (v : scalar) : Prop := exists z, v = SInt z.
Definition is_SFloat (v : scalar) : Prop := exists x, v = SFloat x.
Definition is_SStr (v : scalar) : Prop := exists t, v = SStr t.
Definition is_num (v : scalar) : Prop := exists x, num v = Ok x.
Definition is_iso_date (v : scalar) : Prop :=
  exists d, valid_date d = true /\ v = SStr (strftime_ymd d).

(** The text a cell holds. *)
Definition text (c : string) (r : gmap string scalar) : string :=
  match cell r c with
  | SStr t => t
  | _ => ""
  end.

(** Records whose cell [c] reads as a number. *)
Definition numeric (c : string) : gmap string scalar -> Prop :=
  has_cell c is_num.

(** Records whose date is in the form the validator writes. *)
Definition iso_dated : gmap string scalar -> Prop :=
  has_cell "date" is_iso_date.

(** The enriched batch, step by step.  [transform_data_validated] below
    shows that this is what [transform_data] returns on a validated batch. *)

Section Enriched.

Variable quantile : list float -> float -> float.
Variable median : list float -> float.

Definition with_revenue (df : DataFrame) : DataFrame :=
  setcol df "revenue" (fun r => SFloat (revenue_of r)).

Definition with_date_components (df : DataFrame) : DataFrame :=
  let df := setcol df "date" (date_cell SDate) in
  let df := setcol df "year" (date_cell (fun d => SInt (year d))) in
  let df := setcol df "month" (date_cell (fun d => SInt (month d))) in
  let df := setcol df "month_name" (date_cell (fun d => SStr (month_name d))) in
  let df := setcol df "quarter" (date_cell (fun d => SInt (quarter d))) in
  let df := setcol df "day_of_week" (date_cell (fun d => SInt (dayofweek d))) in
  let df := setcol df "day_name" (date_cell (fun d => SStr (day_name d))) in
  let df := setcol df "week_of_year" (date_cell (fun d => SInt (isoweek d))) in
  let df := setcol df "is_business_day"
              (fun r => SBool (num_ltb (cell r "day_of_week") (SInt 5))) in
  setcol df "date" (date_cell (fun d => SStr (strftime_ymd d))).

Definition with_revenue_category (df : DataFrame) : DataFrame :=
  setcol df "revenue_category"
    (fun r => SStr (get_revenue_category (numf (cell r "revenue")))).

Definition with_product_category (df : DataFrame) : DataFrame :=
  setcol df "product_category"
    (fun r => fillna (SStr "Other") (map_dict PRODUCT_CATEGORIES (cell r "product"))).

(** The revenue total of customer [k] over the batch. *)
Definition customer_total (df : DataFrame) (k : scalar) : float :=
  nansum (group_values (col df "customer_id") (numf <$> col df "revenue") k).

Definition with_customer_segment (df : DataFrame) : DataFrame :=
  setcol df "customer_segment"
    (fun r => SStr (get_customer_segment
                      (customer_total df (cell r "customer_id")))).

(** The fractional rank of the record's [c] among the records of its
    product. *)
Definition product_rank (df : DataFrame) (c : string)
    (r : gmap string scalar) : scalar :=
  if isna (cell r "product") || isna (cell r c) then SFloat nan
  else SRank (pct_rank
         (filter (fun w => isna w = false)
            (group_values (col df "product") (col df c) (cell r "product")))
         (cell r c)).

Definition with_price_indicators (df : DataFrame) : DataFrame :=
  let revenue_90th := quantile (numf <$> col df "revenue") 0.9%float in
  setcol (setcol df "price_percentile" (product_rank df "price"))
    "is_high_value"
    (fun r => SBool (revenue_90th <=? numf (cell r "revenue"))%float).

Definition product_median (df : DataFrame) (k : scalar) : scalar :=
  if isna k then SFloat nan
  else SFloat (median (group_values (col df "product")
                         (numf <$> col df "quantity") k)).

Definition with_quantity_indicators (df : DataFrame) : DataFrame :=
  setcol (setcol df "is_bulk_purchase"
            (fun r => SBool (num_ltb (product_median df (cell r "product"))
                               (cell r "quantity"))))
    "quantity_percentile" (product_rank df "quantity").

(** The mean revenue of region [k] over the batch. *)
Definition regional_mean (df : DataFrame) (k : scalar) : float :=
  nanmean (group_values (col df "region") (numf <$> col df "revenue") k).

Definition regional_avg_cell (df : DataFrame) (r : gmap string scalar) : scalar :=
  if isna (cell r "region") then SFloat (round2 nan)
  else SFloat (round2 (regional_mean df (cell r "region"))).

Definition with_regional_indicators (df : DataFrame) : DataFrame :=
  setcol (setcol df "regional_avg_revenue" (regional_avg_cell df))
    "above_regional_avg"
    (fun r => SBool (num_ltb (cell r "regional_avg_revenue") (cell r "revenue"))).

Definition enriched (df : DataFrame) : DataFrame :=
  with_regional_indicators
    (with_quantity_indicators
       (with_price_indicators
          (with_customer_segment
             (with_product_category
                (with_revenue_category
                   (with_date_components (with_revenue df))))))).

End Enriched.

(** What the derived columns of an output batch [out] hold: the revenue
    of a record, the segment of its customer's batch total, the rounded
    mean revenue of its region and the flag against that rounded mean, and
    the fractional rank within its product. *)
Definition revenue_rule (r : gmap string scalar) : Prop :=
  exists q p,
    cell r "quantity" = SInt q /\ cell r "price" = SFloat p
    /\ cell r "revenue" = SFloat (round2 (Z_to_float q * p)).

Definition segment_rule (out : DataFrame) (r : gmap string scalar) : Prop :=
  cell r "customer_segment" =
    SStr (get_customer_segment (customer_total out (cell r "customer_id"))).

Definition regional_rule (out : DataFrame) (r : gmap string scalar) : Prop :=
  let avg := round2 (regional_mean out (cell r "region")) in
  cell r "regional_avg_revenue" = SFloat avg
  /\ cell r "above_regional_avg" = SBool (avg <? numf (cell r "revenue"))%float.

Definition rank_rule (c pc : string) (out : DataFrame)
    (r : gmap string scalar) : Prop :=
  cell r pc = product_rank out c r.

(** The columns the transformer adds, in the order it adds them. *)
Definition DERIVED_COLUMNS : list string :=
  ["revenue"; "year"; "month"; "month_name"; "quarter"; "day_of_week";
   "day_name"; "week_of_year"; "is_business_day"; "revenue_category";
   "product_category"; "customer_segment"; "price_percentile";
   "is_high_value"; "is_bulk_purchase"; "quantity_percentile";
   "regional_avg_revenue"; "above_regional_avg"].

(** [r'] holds what [r] holds, except possibly in the columns [cs]. *)
Definition agree_except (cs : list string) (r r' : gmap string scalar) : Prop :=
  forall c, c ∉ cs -> r' !! c = r !! c.

(** During the date step the date cell holds a timestamp; the last
    assignment writes back the text it was parsed from. *)
Definition mid_date (r r1 : gmap string scalar) : Prop :=
  (forall c, c ∉ DERIVED_COLUMNS -> c ≠ "date" -> r1 !! c = r !! c)
  /\ exists d, cell r1 "date" = SDate d
               /\ r !! "date" = Some (SStr (strftime_ymd d)).

(** ** Order of binary64 values

    [SFcompare] orders the numbers by sign, then exponent, then mantissa;
    [sf_key] maps a number to a triple of integers that the lexicographic
    order sorts the same way. *)

Definition key3 : Type := Z * Z * Z.

Definition lt3 (a b : key3) : Prop :=
  a.1.1 < b.1.1 \/
  (a.1.1 = b.1.1 /\ (a.1.2 < b.1.2 \/ (a.1.2 = b.1.2 /\ a.2 < b.2))).

Definition cmp3 (a b : key3) : comparison :=
  match a.1.1 ?= b.1.1 with
  | Eq => match a.1.2 ?= b.1.2 with
          | Eq => a.2 ?= b.2
          | c => c
          end
  | c => c
  end.

Definition sf_key (x : spec_float) : option key3 :=
  match x with
  | S754_nan => None
  | S754_zero _ => Some (0, 0, 0)
  | S754_infinity s => Some (if s then -2 else 2, 0, 0)
  | S754_finite s m e =>
      Some (if s then (-1, - e, Z.neg m) else (1, e, Z.pos m))
  end.

Definition fkey (f : float) : option key3 := sf_key (Prim2SF f).

(** ** Fractional ranks

    The numerator of a rank over twice the group size, the keys that order
    integer cells and float cells, and what the specification asks of a
    percentile column [pc] ranking column [c]. *)

(** The cells [v] and [w] compare the way their keys do. *)
Definition keyed (key : scalar -> key3) (v w : scalar) : Prop :=
  num_ltb v w = match cmp3 (key v) (key w) with Lt => true | _ => false end
  /\ num_eqb v w = match cmp3 (key v) (key w) with Eq => true | _ => false end
  /\ num_leb v w = match cmp3 (key v) (key w) with Gt => false | _ => true end.

Definition rank_num (grp : list scalar) (v : scalar) : Z :=
  2 * count_if (fun w => num_ltb w v) grp + count_if (fun w => num_eqb w v) grp + 1.

Definition is_number (v : scalar) : Prop :=
  exists x, v = SFloat x /\ is_nan x = false.

Definition int_key (v : scalar) : key3 :=
  match v with
  | SInt z => (z, 0, 0)
  | _ => (0, 0, 0)
  end.

Definition float_key (v : scalar) : key3 :=
  match v with
  | SFloat x => default (0, 0, 0) (fkey x)
  | _ => (0, 0, 0)
  end.

Definition percentile_props (c pc : string) (out : DataFrame) : Prop :=
  forall r1 r2, r1 ∈ rows out -> r2 ∈ rows out ->
    exists q1 q2,
      cell r1 pc = SRank q1 /\ cell r2 pc = SRank q2
      /\ (0 < q1 /\ q1 <= 1)%Qc
      /\ (cell r1 "product" = cell r2 "product" ->
          (num_eqb (cell r1 c) (cell r2 c) = true -> q1 = q2)
          /\ (num_leb (cell r1 c) (cell r2 c) = true -> (q1 <= q2)%Qc)).

(** The segment bands as the specification words them: below 500, from
    500 up to 2000, from 2000 up to 5000, and 5000 or more. *)
Definition in_band (total : float) (segment : string) : Prop :=
  ((total <? 500)%float = true /\ segment = "Bronze")
  \/ ((500 <=? total)%float = true /\ (total <? 2000)%float = true
      /\ segment = "Silver")
  \/ ((2000 <=? total)%float = true /\ (total <? 5000)%float = true
      /\ segment = "Gold")
  \/ ((5000 <=? total)%float = true /\ segment = "Platinum").

(** ** The steps of the validator on one record, and what the proofs keep track of *)

(** No cell of the record among the columns [cs] is missing. *)
Definition complete (cs : list string) (r : gmap string scalar) : bool :=
  forallb (fun c => negb (isna (cell r c))) cs.
Arguments complete : simpl never.

(** No two records of the list have the same cell [c] (as hash keys). *)
Inductive distinct_on (c : string) : list (gmap string scalar) -> Prop :=
| distinct_nil : distinct_on c []
| distinct_cons r rs :
    Forall (fun r' => key_eqb (cell r c) (cell r' c) = false) rs ->
    distinct_on c rs -> distinct_on c (r :: rs).

(** What the type step and the date step do to one record: the quantity
    cast to [Int64] and the price read as a number; the date rewritten in
    the form [YYYY-MM-DD], for a record whose date is one. *)
Definition retyped (str_to_number : string -> option (Z + float))
    (r : gmap string scalar) : result (gmap string scalar) :=
  let! q := astype_Int64 (to_numeric str_to_number (cell r "quantity")) in
  Ok (<["price" := to_numeric str_to_number (cell r "price")]>
        (<["quantity" := q]> r)).

Definition redated (flex_datetime : scalar -> option date)
    (r : gmap string scalar) : option (gmap string scalar) :=
  match to_datetime flex_datetime (cell r "date") with
  | SDate d => Some (<["date" := SStr (strftime_ymd d)]> r)
  | _ => None
  end.

(** ** The validator, record by record

    What [process_file] writes for the batch [raw], read off its steps:
    the records cut down to the required columns, the first of each
    transaction id, those without a missing cell, retyped, those with a
    quantity and a price, redated, and those within the business rules. *)

Definition project (r : gmap string scalar) : gmap string scalar :=
  filter (fun kv => kv.1 ∈ REQUIRED_COLUMNS) r.

Definition in_rules (r : gmap string scalar) : bool :=
  quantity_in_bounds r && price_in_bounds r && region_valid r.

Definition without_duplicates (raw : DataFrame) : list (gmap string scalar) :=
  keep_first "transaction_id" [] (project <$> rows raw).

Definition without_nulls (raw : DataFrame) : list (gmap string scalar) :=
  filter (fun r => complete REQUIRED_COLUMNS r = true) (without_duplicates raw).

Definition cleaned (str_to_number : string -> option (Z + float))
    (flex_datetime : scalar -> option date) (raw : DataFrame)
    : result DataFrame :=
  let! rs := traverse (retyped str_to_number) (without_nulls raw) in
  Ok {| columns := REQUIRED_COLUMNS;
        rows :=
          filter (fun r => in_rules r = true)
            (omap (redated flex_datetime)
               (filter (fun r => complete ["quantity"; "price"] r = true) rs)) |}.
(** A record as the validator leaves it. *)
Definition clean_record (r : gmap string scalar) : Prop :=
  complete REQUIRED_COLUMNS r = true
  /\ typed_record r
  /\ in_rules r = true
  /\ exists d, r !! "date" = Some (SStr (strftime_ymd d)).

(** A record as [read_csv] delivers it from a file of text identifiers
    and decimal prices: the identifiers and the product are text or
    missing, the price is a float or missing, and a date that reads as one
    is a date a [Timestamp] can hold. *)
Definition as_read (flex_datetime : scalar -> option date)
    (r : gmap string scalar) : Prop :=
  (forall c, c ∈ ["transaction_id"; "product"; "customer_id"] ->
     isna (cell r c) = true \/ is_SStr (cell r c))
  /\ (isna (cell r "price") = true \/ is_SFloat (cell r "price"))
  /\ (forall d, to_datetime flex_datetime (cell r "date") = SDate d ->
        valid_date d = true).

(** The date columns of a record, against the record's own date. *)
Definition date_rule (r : gmap string scalar) : Prop :=
  exists d,
    valid_date d = true
    /\ r !! "date" = Some (SStr (strftime_ymd d))
    /\ cell r "year" = SInt (year d)
    /\ cell r "month" = SInt (month d)
    /\ cell r "month_name" = SStr (month_name d)
    /\ cell r "quarter" = SInt (quarter d)
    /\ cell r "day_of_week" = SInt (dayofweek d)
    /\ cell r "day_name" = SStr (day_name d)
    /\ cell r "week_of_year" = SInt (isoweek d)
    /\ cell r "is_business_day" = SBool (dayofweek d <? 5).

(** The category of a product cell: the catalogue's, or [Other]. *)
Definition category_of (v : scalar) : string :=
  match v with
  | SStr p => default "Other" (PRODUCT_CATEGORIES !! p)
  | _ => "Other"
  end.

(** ** The scripts' entry points

    [print_metrics_summary] only logs, but its f-strings read the metrics:
    a key that is not there is a [KeyError], and a value that is not a
    number cannot take a numeric format ([:,], [:.2f]). *)

Definition format_number (v : scalar) : result unit :=
  match v with
  | SStr _ => Raise (ValueError [])
  | SNA => Raise TypeError
  | _ => Ok tt
  end.

Definition show_number (k : string) : M unit :=
  do! v := get_metric k in lift (format_number v).

Definition show_value (k : string) : M unit :=
  do! _ := get_metric k in ret tt.

Definition print_metrics_summary : M unit :=
  do! _ := show_number "total_records" in
  do! _ := show_number "valid_records" in
  do! _ := show_number "duplicates_removed" in
  do! _ := show_number "null_values_removed" in
  do! _ := show_number "invalid_quantity" in
  do! _ := show_number "invalid_price" in
  do! _ := show_number "invalid_region" in
  do! _ := show_value "rejection_rate_percent" in
  show_number "processing_time_seconds".

Definition transformer_print_metrics_summary : M unit :=
  do! _ := show_number "records_processed" in
  do! _ := show_value "columns_added" in
  do! _ := show_number "total_revenue" in
  do! _ := show_number "avg_revenue" in
  show_number "transformation_time".

Section Scripts.

Variable str_to_number : string -> option (Z + float).
Variable flex_datetime : scalar -> option date.
Variable builtin_round2 : float -> float.
Variable quantile : list float -> float -> float.
Variable median : list float -> float.
Variable elapsed : float.
(** [datetime.now().strftime('%Y-%m-%d')] *)
Variable today : string.

(** [sys.argv[1]] when there is one, today's date otherwise. *)
Definition date_str (argv : list string) : string :=
  match argv with
  | _ :: d :: _ => d
  | _ => today
  end.

(** [main] of [validator.py]: a fresh validator on the bucket; the exit
    code is 0 when the run and the summary went through and 1 on any
    exception. *)
Definition validator_main (argv : list string) (bucket : gmap string DataFrame)
    : gmap string DataFrame * Z :=
  let input_key := RAW_ZONE +:+ "/" +:+ date_str argv +:+ ".csv" in
  let output_key := PROCESSED_ZONE +:+ "/" +:+ date_str argv +:+ ".csv" in
  let run :=
    do! metrics := process_file str_to_number flex_datetime builtin_round2 elapsed
                     input_key output_key in
    print_metrics_summary in
  match run {| metrics := validator_init; s3 := bucket |} with
  | (s, Ok _) => (s3 s, 0)
  | (s, Raise _) => (s3 s, 1)
  end.

(** [main] of [transformer.py]: it reads and overwrites the same key. *)
Definition transformer_main (argv : list string) (bucket : gmap string DataFrame)
    : gmap string DataFrame * Z :=
  let input_key := PROCESSED_ZONE +:+ "/" +:+ date_str argv +:+ ".csv" in
  let output_key := PROCESSED_ZONE +:+ "/" +:+ date_str argv +:+ ".csv" in
  let run :=
    do! metrics := transformer_process_file flex_datetime quantile median elapsed
                     input_key output_key in
    transformer_print_metrics_summary in
  match run {| metrics := transformer_init; s3 := bucket |} with
  | (s, Ok _) => (s3 s, 0)
  | (s, Raise _) => (s3 s, 1)
  end.

End Scripts.

(** A computation that leaves the bucket alone, whatever its outcome. *)
Definition keeps_bucket {A} (m : M A) : Prop :=
  forall s, s3 (m s).1 = s3 s.

(** The segments, lowest first. *)
Definition segment_rank (segment : string) : Z :=
  if String.eqb segment "Bronze" then 0
  else if String.eqb segment "Silver" then 1
  else if String.eqb segment "Gold" then 2
  else 3.

(** The class of a cell as a hash key: missing values form one class. *)
Definition key_class (v : scalar) : scalar + option key3 :=
  match v with
  | SFloat f => inr (fkey f)
  | SNA => inr None
  | _ => inl v
  end.

(** ** Example batches *)

Definition mk_record (transaction_id date region product : string)
    (quantity : Z) (price : float) (customer_id : string)
    : gmap string scalar :=
  list_to_map
    [("transaction_id", SStr transaction_id); ("date", SStr date);
     ("region", SStr region); ("product", SStr product);
     ("quantity", SInt quantity); ("price", SFloat price);
     ("customer_id", SStr customer_id)].

(** The header-only batch: the required columns and no record. *)
Definition empty_batch : DataFrame :=
  {| columns := REQUIRED_COLUMNS; rows := [] |}.

(** The scenario of the specification: T1, an exact duplicate of T1, and
    T2, as [read_csv] delivers them. *)
Definition scenario_raw : DataFrame :=
  {| columns := REQUIRED_COLUMNS;
     rows := [mk_record "T1" "2024-01-01" "North" "Laptop" 2 500.00 "C1";
              mk_record "T1" "2024-01-01" "North" "Laptop" 2 500.00 "C1";
              mk_record "T2" "2024-01-02" "West" "Cable" 5 2.00 "C2"] |}.

(** The batch the validator writes for it. *)
Definition scenario_valid : DataFrame :=
  {| columns := REQUIRED_COLUMNS;
     rows := [mk_record "T1" "2024-01-01" "North" "Laptop" 2 500.00 "C1";
              mk_record "T2" "2024-01-02" "West" "Cable" 5 2.00 "C2"] |}.

(** Three sales of one region with revenues 10.00, 10.01 and 10.01: the
    mean is 10.0066..., which rounds to 10.01. *)
Definition regional_batch : DataFrame :=
  {| columns := REQUIRED_COLUMNS;
     rows := [mk_record "T1" "2024-01-01" "North" "Mouse" 1 10.00 "C1";
              mk_record "T2" "2024-01-01" "North" "Mouse" 1 10.01 "C2";
              mk_record "T3" "2024-01-01" "North" "Mouse" 1 10.01 "C3"] |}.

(** Quantities at the upper bound, one above it, and a record that breaks
    the quantity and the region rule at once. *)
Definition boundary_batch : DataFrame :=
  {| columns := REQUIRED_COLUMNS;
     rows := [mk_record "T1" "2024-01-01" "North" "Mouse" 1000 10.00 "C1";
              mk_record "T2" "2024-01-01" "North" "Mouse" 1001 10.00 "C2";
              mk_record "T3" "2024-01-01" "Mars" "Mouse" 0 10.00 "C3"] |}.

Definition validator_state (raw : DataFrame) : state :=
  {| metrics := validator_init; s3 := {[ "raw-zone/2024-01-02.csv" := raw ]} |}.

Definition transformer_state (bucket : gmap string DataFrame) : state :=
  {| metrics := transformer_init; s3 := bucket |}.

(** Instances of the library parameters, to run the model on examples. *)
Definition no_flex_datetime : scalar -> option date := fun _ => None.
Definition const_quantile : list float -> float -> float := fun _ _ => 0%float.
Definition const_median : list float -> float := fun _ => 0%float.

(** * Properties *)

(** ** The two monads *)

Lemma rbind_Ok {A B} (r : result A) (k : A -> result B) (b : B) :
  rbind r k = Ok b -> exists a, r = Ok a /\ k a = Ok b.
Proof. destruct r as [a|e]; simpl; [eauto | discriminate]. Qed.

Lemma bind_Ok {A B} (m : M A) (k : A -> M B) s s' (b : B) :
  bind m k s = (s', Ok b) ->
  exists s1 a, m s = (s1, Ok a) /\ k a s1 = (s', Ok b).
Proof.
  unfold bind. destruct (m s) as [s1 [a|e]]; [eauto | discriminate].
Qed.

Lemma lift_Ok {A} (r : result A) s s' (a : A) :
  lift r s = (s', Ok a) -> s' = s /\ r = Ok a.
Proof. unfold lift. intros [= <- ->]. done. Qed.

Lemma ret_Ok {A} (x : A) s s' (a : A) :
  ret x s = (s', Ok a) -> s' = s /\ a = x.
Proof. unfold ret. intros [= <- ->]. done. Qed.

Lemma set_metric_Ok k v s s' u :
  set_metric k v s = (s', Ok u) ->
  s' = {| metrics := <[k := v]> (metrics s); s3 := s3 s |}.
Proof. unfold set_metric. by intros [= <-]. Qed.

(** Take a successful run apart, one call at a time. *)
Ltac inv_ok H :=
  repeat match type of H with
  | bind _ _ _ = (_, Ok _) =>
      let s1 := fresh "s" in let a := fresh "a" in let H1 := fresh "Hstep" in
      apply bind_Ok in H as (s1 & a & H1 & H); inv_ok H1
  | lift _ _ = (_, Ok _) => apply lift_Ok in H as [-> H]
  | ret _ _ = (_, Ok _) => apply ret_Ok in H as [-> ->]
  | set_metric _ _ _ = (_, Ok _) => apply set_metric_Ok in H as ->
  | rbind _ _ = Ok _ =>
      let a := fresh "a" in let H1 := fresh "Hstep" in
      apply rbind_Ok in H as (a & H1 & H); inv_ok H1
  | Ok _ = Ok _ => injection H as <-
  end.

Lemma traverse_Forall2 {A B} (f : A -> result B) l l' :
  traverse f l = Ok l' <-> Forall2 (fun a b => f a = Ok b) l l'.
Proof.
  revert l'. induction l as [|a l IH]; intros l'; simpl.
  - split; [intros [= <-]; constructor | by inversion 1].
  - split.
    + intros H. inv_ok H. constructor; [done | by apply IH].
    + inversion 1 as [|? b ? bs Hb Hbs]; subst.
      rewrite Hb. simpl. apply IH in Hbs. by rewrite Hbs.
Qed.

Lemma traverse_length {A B} (f : A -> result B) l l' :
  traverse f l = Ok l' -> length l' = length l.
Proof.
  intros H%traverse_Forall2. symmetry. by eapply Forall2_length.
Qed.

Lemma traverse_fmap {A B} (f : A -> result B) (g : A -> B) l :
  Forall (fun a => f a = Ok (g a)) l -> traverse f l = Ok (g <$> l).
Proof.
  intros H. apply traverse_Forall2.
  induction H; simpl; constructor; auto.
Qed.

(** ** Frames *)

Lemma getitem_Ok df c col :
  getitem df c = Ok col ->
  c ∈ columns df /\ col = (fun r => cell r c) <$> rows df.
Proof. unfold getitem. case_decide; [by intros [= <-] | done]. Qed.

Lemma getitem_length df c col :
  getitem df c = Ok col -> length col = length (rows df).
Proof. intros [_ ->]%getitem_Ok. by rewrite length_fmap. Qed.

(** ** Order of binary64 values *)

Lemma cmp3_spec a b : CompareSpec (a = b) (lt3 a b) (lt3 b a) (cmp3 a b).
Proof.
  destruct a as [[a1 a2] a3], b as [[b1 b2] b3]. unfold cmp3, lt3. simpl.
  destruct (Z.compare_spec a1 b1); [|constructor; lia..].
  destruct (Z.compare_spec a2 b2); [|constructor; lia..].
  destruct (Z.compare_spec a3 b3); constructor; [congruence | lia..].
Qed.

Lemma SFcompare_key x y :
  SFcompare x y =
    match sf_key x, sf_key y with
    | Some a, Some b => Some (cmp3 a b)
    | _, _ => None
    end.
Proof.
  destruct x as [[]|[]| |[] mx ex], y as [[]|[]| |[] my ey]; try reflexivity;
    simpl; unfold cmp3; simpl.
  destruct (Z.compare_spec ex ey), (Z.compare_spec (- ex) (- ey));
    try lia; reflexivity.
Qed.

Lemma ltb_key f g :
  (f <? g)%float =
    match fkey f, fkey g with
    | Some a, Some b => match cmp3 a b with Lt => true | _ => false end
    | _, _ => false
    end.
Proof.
  rewrite FloatAxioms.ltb_spec. unfold SFltb, fkey. rewrite SFcompare_key.
  by destruct (sf_key (Prim2SF f)), (sf_key (Prim2SF g)).
Qed.

Lemma leb_key f g :
  (f <=? g)%float =
    match fkey f, fkey g with
    | Some a, Some b => match cmp3 a b with Gt => false | _ => true end
    | _, _ => false
    end.
Proof.
  rewrite FloatAxioms.leb_spec. unfold SFleb, fkey. rewrite SFcompare_key.
  by destruct (sf_key (Prim2SF f)), (sf_key (Prim2SF g)).
Qed.

Lemma eqb_key f g :
  (f =? g)%float =
    match fkey f, fkey g with
    | Some a, Some b => match cmp3 a b with Eq => true | _ => false end
    | _, _ => false
    end.
Proof.
  rewrite FloatAxioms.eqb_spec. unfold SFeqb, fkey. rewrite SFcompare_key.
  by destruct (sf_key (Prim2SF f)), (sf_key (Prim2SF g)).
Qed.

Lemma cmp3_refl a : cmp3 a a = Eq.
Proof. destruct (cmp3_spec a a) as [|H|H]; [done|..]; unfold lt3 in H; lia. Qed.

Lemma is_nan_key f : is_nan f = true <-> fkey f = None.
Proof.
  unfold is_nan. rewrite eqb_key. destruct (fkey f) as [a|]; [|done].
  by rewrite cmp3_refl.
Qed.

Lemma not_nan_key f : is_nan f = false -> exists a, fkey f = Some a.
Proof.
  intros H. destruct (fkey f) as [a|] eqn:E; [eauto|].
  apply is_nan_key in E. congruence.
Qed.

(** For numbers, [c <= p] is the negation of [p < c]. *)
Lemma leb_negb_ltb f g :
  is_nan f = false -> is_nan g = false ->
  (f <=? g)%float = negb (g <? f)%float.
Proof.
  intros [a Ha]%not_nan_key [b Hb]%not_nan_key.
  rewrite leb_key, ltb_key, Ha, Hb.
  destruct (cmp3_spec a b) as [E|H|H], (cmp3_spec b a) as [E'|H'|H'];
    try done; subst; unfold lt3 in *; lia.
Qed.

(** ** Lists *)

Lemma traverse_fmap_fmap {A B C} (f : B -> result C) (g : A -> B)
    (h : A -> C) (l : list A) :
  Forall (fun a => f (g a) = Ok (h a)) l ->
  traverse f (g <$> l) = Ok (h <$> l).
Proof.
  intros H. apply traverse_Forall2.
  induction H; simpl; constructor; auto.
Qed.

Lemma zip_with_fmap_same {A B C D} (op : B -> C -> D) (f : A -> B)
    (g : A -> C) (l : list A) :
  zip_with op (f <$> l) (g <$> l) = (fun a => op (f a) (g a)) <$> l.
Proof. induction l as [|a l IH]; [done|]. csimpl. by rewrite IH. Qed.

Lemma boolean_index_fmap {A} (p : A -> bool) (l : list A) :
  boolean_index l (p <$> l) = filter (fun a => p a = true) l.
Proof.
  induction l as [|a l IH]; [done|]. csimpl. rewrite IH.
  destruct (p a) eqn:E.
  - by rewrite filter_cons_True.
  - rewrite filter_cons_False; [done | congruence].
Qed.

Lemma filter_ext_Forall {A} (p q : A -> bool) (l : list A) :
  Forall (fun a => p a = q a) l ->
  filter (fun a => p a = true) l = filter (fun a => q a = true) l.
Proof.
  induction 1 as [|a l E _ IH]; [done|].
  rewrite !filter_cons, IH, E. by repeat case_decide.
Qed.

Lemma count_if_ext_Forall {A} (p q : A -> bool) (l : list A) :
  Forall (fun a => p a = q a) l -> count_if p l = count_if q l.
Proof. intros H. unfold count_if. by rewrite (filter_ext_Forall p q). Qed.

(** ** Stage 1 *)

Lemma missing_cols_empty (cols : list string) :
  list_to_set REQUIRED_COLUMNS ∖ list_to_set cols = (∅ : gset string)
  <-> Forall (fun c => c ∈ cols) REQUIRED_COLUMNS.
Proof.
  rewrite Forall_forall. split.
  - intros H c Hc. destruct (decide (c ∈ cols)) as [|Hn]; [done|].
    exfalso. apply (not_elem_of_empty (C := gset string) c).
    rewrite <- H. apply elem_of_difference.
    split; [by apply elem_of_list_to_set | by apply not_elem_of_list_to_set].
  - intros H. apply set_eq. intros c.
    rewrite elem_of_difference, elem_of_list_to_set, not_elem_of_list_to_set.
    split; [intros [Hc Hn]; by apply H in Hc | by intros ?%not_elem_of_empty].
Qed.

Lemma getitems_present df cs :
  Forall (fun c => c ∈ columns df) cs ->
  getitems df cs =
    Ok {| columns := cs; rows := filter (fun kv => kv.1 ∈ cs) <$> rows df |}.
Proof.
  intros H. unfold getitems.
  replace (filter (fun c => c ∉ columns df) cs) with (@nil string); [done|].
  symmetry. induction H as [|c cs Hc _ IH]; [done|].
  rewrite filter_cons_False; [done | by intros ?].
Qed.

Lemma project_lookup (cs : list string) (r : gmap string scalar) (c : string) :
  filter (fun kv => kv.1 ∈ cs) r !! c = if decide (c ∈ cs) then r !! c else None.
Proof.
  case_decide as Hc.
  - destruct (r !! c) as [v|] eqn:Hr.
    + by apply map_lookup_filter_Some.
    + apply map_lookup_filter_None. by left.
  - apply map_lookup_filter_None. right. intros v _. done.
Qed.

(** C8. The schema check raises exactly when a required column is absent;
    the run then stops there (only the record count and the schema-error
    counter have changed, and nothing has been written to the bucket).
    When every required column is present the check returns the batch cut
    down to the required columns, in the catalog's order: a record keeps
    its required cells and loses every other one. *)
Theorem validate_schema_spec :
  forall str_to_number flex_datetime builtin_round2 elapsed
         input_key output_key (df : DataFrame)
         (bucket : gmap string DataFrame) (s0 : state),
    let absent := exists c, c ∈ REQUIRED_COLUMNS /\ c ∉ columns df in
    let s := {| metrics := validator_init; s3 := <[input_key := df]> bucket |} in
    ((exists e, (validate_schema df s0).2 = Raise e) <-> absent)
    /\ (absent ->
        exists missing,
          process_file str_to_number flex_datetime builtin_round2 elapsed
            input_key output_key s =
          ({| metrics := <["schema_errors" := SInt 1]>
                           (<["total_records" := SInt (len df)]> validator_init);
              s3 := s3 s |},
           Raise (ValueError missing)))
    /\ (~ absent ->
        exists df',
          validate_schema df s0 = (s0, Ok df')
          /\ columns df' = REQUIRED_COLUMNS
          /\ Forall2 (fun r r' => forall c,
                        r' !! c = if decide (c ∈ REQUIRED_COLUMNS) then r !! c
                                  else None)
               (rows df) (rows df')).
Proof.
  intros. 
  assert (absent <-> ~ Forall (fun c => c ∈ columns df) REQUIRED_COLUMNS) as Habs.
  { unfold absent. rewrite <- Exists_exists. split.
    - apply Exists_not_Forall.
    - apply not_Forall_Exists, _. }
  assert (~ absent <-> Forall (fun c => c ∈ columns df) REQUIRED_COLUMNS) as Hpres.
  { rewrite Habs. split; [apply dec_stable | tauto]. }
  split; [|split].
  - unfold validate_schema. case_decide as Hm.
    + apply missing_cols_empty in Hm.
      rewrite getitems_present by done. simpl. split.
      * intros [e [=]].
      * intros Ha. by apply Habs in Ha.
    + rewrite missing_cols_empty in Hm. split; [by intros _; apply Habs|].
      intros _. unfold bind, get_metric, lift, set_metric, raise.
      destruct (metrics s0 !! "schema_errors") as [n|]; simpl; [|eauto].
      destruct (py_add n (SInt 1)); simpl; eauto.
  - intros Ha. apply Habs in Ha. rewrite <- missing_cols_empty in Ha.
    eexists. unfold process_file, bind at 1. unfold read_from_s3. simpl.
    rewrite lookup_insert_eq.
    unfold bind at 1. simpl. unfold bind at 1, validate_schema.
    rewrite decide_False by done.
    reflexivity.
  - intros Hp. apply Hpres in Hp. eexists. unfold validate_schema.
    rewrite decide_True by by apply missing_cols_empty.
    rewrite getitems_present by done. split; [done|]. split; [done|].
    simpl. apply Forall2_fmap_r, Forall_Forall2_diag, Forall_forall.
    intros r _ c. apply project_lookup.
Qed.

Lemma getitem_present df c :
  c ∈ columns df -> getitem df c = Ok ((fun r => cell r c) <$> rows df).
Proof. intros H. unfold getitem. by rewrite decide_True. Qed.

Lemma bind_lift {A B} (r : result A) (a : A) (k : A -> M B) s :
  r = Ok a -> bind (lift r) k s = k a s.
Proof. by intros ->. Qed.

Lemma bind_set_metric {B} k v (f : unit -> M B) s :
  bind (set_metric k v) f s =
    f tt {| metrics := <[k := v]> (metrics s); s3 := s3 s |}.
Proof. reflexivity. Qed.

Lemma len_loc_fmap df (p : gmap string scalar -> bool) :
  len (loc df (p <$> rows df)) = count_if p (rows df).
Proof. unfold len, loc, count_if. simpl. by rewrite boolean_index_fmap. Qed.

Lemma num_ltb_float_r v c x : num v = Ok x -> num_ltb v (SFloat c) = (x <? c)%float.
Proof. destruct v; simpl; intros [= <-]; done. Qed.

Lemma num_ltb_float_l v c x : num v = Ok x -> num_ltb (SFloat c) v = (c <? x)%float.
Proof. destruct v; simpl; intros [= <-]; done. Qed.

Lemma num_leb_float_r v c x : num v = Ok x -> num_leb v (SFloat c) = (x <=? c)%float.
Proof. destruct v; simpl; intros [= <-]; done. Qed.

Lemma num_leb_float_l v c x : num v = Ok x -> num_leb (SFloat c) v = (c <=? x)%float.
Proof. destruct v; simpl; intros [= <-]; done. Qed.

Lemma isin_strings (l : list string) (v : scalar) :
  isin (SStr <$> l) v =
    match v with SStr s => bool_decide (s ∈ l) | _ => false end.
Proof.
  unfold isin. induction l as [|t l IH]; csimpl.
  - by destruct v.
  - rewrite IH. destruct v as [s| | | | | |]; try done. simpl.
    destruct (String.eqb_spec s t) as [->|Hne]; simpl.
    + by rewrite bool_decide_eq_true_2 by left.
    + apply bool_decide_ext. rewrite elem_of_cons. split; [tauto|].
      by intros [->|?].
Qed.


(** C2. On the empty batch the validator writes the (empty) cleaned batch
    and then divides by the record count, which is zero: the run ends in
    [ZeroDivisionError], no metrics are returned and the rejection rate is
    never set. *)
Theorem process_file_empty_batch_divides_by_zero :
  forall str_to_number flex_datetime builtin_round2 elapsed,
    let run := process_file str_to_number flex_datetime builtin_round2 elapsed
                 "raw-zone/d.csv" "processed-zone/d.csv"
                 {| metrics := validator_init;
                    s3 := {[ "raw-zone/d.csv" := empty_batch ]} |} in
    run.2 = Raise ZeroDivisionError
    /\ metrics run.1 !! "rejection_rate_percent" = None
    /\ metrics run.1 !! "valid_records" = Some (SInt 0)
    /\ s3 run.1 !! "processed-zone/d.csv" = Some empty_batch.
Proof.
  intros. vm_compute. repeat split.
Qed.

(** ** Stage 2, row by row *)

Lemma getitem_col df c : c ∈ columns df -> getitem df c = Ok (col df c).
Proof. apply getitem_present. Qed.

Lemma setitem_fmap df c (f : gmap string scalar -> scalar) :
  setitem df c (f <$> rows df) = setcol df c f.
Proof.
  unfold setitem, setcol. f_equal.
  by rewrite zip_with_fmap_r, zip_with_diag.
Qed.

Lemma elem_of_columns_setcol df c f c' :
  c' ∈ columns (setcol df c f) <-> c' = c \/ c' ∈ columns df.
Proof.
  unfold setcol. simpl. case_decide as H.
  - split; [by right | by intros [->|?]].
  - rewrite elem_of_app, list_elem_of_singleton. tauto.
Qed.

Lemma cell_insert_eq (r : gmap string scalar) c v : cell (<[c := v]> r) c = v.
Proof. unfold cell. by rewrite lookup_insert_eq. Qed.

Lemma cell_insert_ne (r : gmap string scalar) c c' v :
  c ≠ c' -> cell (<[c := v]> r) c' = cell r c'.
Proof. intros H. unfold cell. by rewrite lookup_insert_ne. Qed.

Lemma col_setcol_eq df c f : col (setcol df c f) c = f <$> rows df.
Proof.
  unfold col, setcol. simpl. rewrite <- list_fmap_compose.
  apply list_fmap_ext. intros i r _. apply cell_insert_eq.
Qed.

Lemma col_setcol_ne df c f c' : c ≠ c' -> col (setcol df c f) c' = col df c'.
Proof.
  intros H. unfold col, setcol. simpl. rewrite <- list_fmap_compose.
  apply list_fmap_ext. intros i r _. by apply cell_insert_ne.
Qed.

Lemma Forall_rows_setcol (P : gmap string scalar -> Prop) df c f :
  Forall P (rows (setcol df c f)) <-> Forall (fun r => P (<[c := f r]> r)) (rows df).
Proof. unfold setcol. simpl. by rewrite Forall_fmap. Qed.

Lemma setcol_setcol df c f g :
  setcol (setcol df c f) c g = setcol df c (fun r => g (<[c := f r]> r)).
Proof.
  unfold setcol. simpl. f_equal.
  - destruct (decide (c ∈ columns df)) as [Hc|Hc].
    + by rewrite decide_True.
    + rewrite decide_True; [done|].
      apply elem_of_app. right. by apply list_elem_of_singleton.
  - rewrite <- list_fmap_compose. apply list_fmap_ext. intros i r _. simpl.
    by rewrite insert_insert_eq.
Qed.

Lemma setitem_setcol_same df c f (g : gmap string scalar -> scalar) :
  setitem (setcol df c f) c (g <$> rows df) = setcol df c g.
Proof.
  unfold setitem, setcol. simpl. f_equal.
  - destruct (decide (c ∈ columns df)) as [Hc|Hc].
    + by rewrite decide_True.
    + rewrite decide_True; [done|].
      apply elem_of_app. right. by apply list_elem_of_singleton.
  - rewrite zip_with_fmap_same. apply list_fmap_ext. intros i r _. simpl.
    by rewrite insert_insert_eq.
Qed.

Lemma traverse_col (f : scalar -> result scalar) (g : gmap string scalar -> scalar)
    df c :
  Forall (fun r => f (cell r c) = Ok (g r)) (rows df) ->
  traverse f (col df c) = Ok (g <$> rows df).
Proof. apply traverse_fmap_fmap. Qed.

Lemma assign_setcol df c a f (g : gmap string scalar -> scalar) :
  a ∈ columns df ->
  Forall (fun r => f (cell r a) = Ok (g r)) (rows df) ->
  assign df c a f = Ok (setcol df c g).
Proof.
  intros Ha Hf. unfold assign. rewrite getitem_col by done. simpl.
  rewrite (traverse_col _ g) by done. simpl. by rewrite setitem_fmap.
Qed.

Lemma num_numf v x : num v = Ok x -> numf v = x.
Proof. unfold numf. by intros ->. Qed.

Lemma numeric_numf c r : numeric c r -> num (cell r c) = Ok (numf (cell r c)).
Proof. intros [x H]. by rewrite (num_numf _ _ H). Qed.

Lemma calculate_revenue_setcol df s :
  "quantity" ∈ columns df -> "price" ∈ columns df ->
  Forall (numeric "quantity") (rows df) -> Forall (numeric "price") (rows df) ->
  calculate_revenue df s =
    ({| metrics :=
          <["avg_revenue" := SFloat (nanmean (revenue_of <$> rows df))]>
          (<["total_revenue" := SFloat (nansum (revenue_of <$> rows df))]>
           (metrics s));
        s3 := s3 s |},
     Ok (with_revenue df)).
Proof.
  intros Hq Hp Hnq Hnp. unfold calculate_revenue.
  rewrite (bind_lift _ _ _ _ (getitem_col _ _ Hq)).
  rewrite (bind_lift _ _ _ _ (getitem_col _ _ Hp)).
  assert (Forall (fun r => numeric "quantity" r /\ numeric "price" r) (rows df)) as Hn.
  { apply Forall_and. done. }
  erewrite bind_lift; cycle 1.
  { unfold col. rewrite (zip_with_fmap_same pair).
    apply (traverse_fmap_fmap _ _
             (fun r => SFloat (numf (cell r "quantity") * numf (cell r "price")))).
    eapply Forall_impl; [exact Hn|]. intros r [Hq' Hp']. unfold mul_scalar. simpl.
    by rewrite (numeric_numf _ _ Hq'), (numeric_numf _ _ Hp'). }
  rewrite setitem_fmap.
  erewrite bind_lift; cycle 1.
  { apply getitem_col, elem_of_columns_setcol. by left. }
  rewrite col_setcol_eq.
  erewrite bind_lift; cycle 1.
  { apply (traverse_fmap_fmap _ _ (fun r => SFloat (revenue_of r))).
    apply Forall_true. intros r. reflexivity. }
  rewrite setitem_setcol_same.
  erewrite bind_lift; cycle 1.
  { apply getitem_col, elem_of_columns_setcol. by left. }
  rewrite col_setcol_eq.
  erewrite bind_lift; cycle 1.
  { apply (traverse_fmap_fmap _ _ revenue_of). apply Forall_true. by intros r. }
  by rewrite !bind_set_metric.
Qed.

(** ** Dates: what [strftime] writes, [to_datetime] reads back *)

Lemma digit_digit_char k : 0 <= k <= 9 -> digit (digit_char k) = Some k.
Proof.
  intros Hk. unfold digit, digit_char.
  rewrite N_ascii_embedding by lia.
  rewrite Z2N.id by lia.
  replace (48 <=? 48 + k) with true by (symmetry; apply Z.leb_le; lia).
  replace (48 + k <=? 57) with true by (symmetry; apply Z.leb_le; lia).
  simpl. f_equal. lia.
Qed.

Lemma valid_date_bounds d :
  valid_date d = true ->
  1677 <= year d <= 2262 /\ 1 <= month d <= 12 /\ 1 <= day d <= 31.
Proof.
  unfold valid_date, date_leb, days_in_month, Timestamp_min, Timestamp_max.
  cbn [year month day]. intros H.
  destruct (month d =? 2), (is_leap (year d)),
    ((month d =? 4) || (month d =? 6) || (month d =? 9) || (month d =? 11));
    lia.
Qed.

Lemma parse_strftime d :
  valid_date d = true -> parse_iso_date (strftime_ymd d) = Some d.
Proof.
  intros Hv. destruct (valid_date_bounds d Hv) as (Hy & Hm & Hd).
  destruct d as [y m dd]. simpl in *.
  unfold strftime_ymd, pad4, pad2, parse_iso_date. simpl.
  rewrite !digit_digit_char by (Z.div_mod_to_equations; lia). simpl.
  replace (1000 * (y / 1000) + 100 * (y / 100 mod 10)
           + 10 * (y mod 100 / 10) + y mod 100 mod 10) with y by
    (Z.div_mod_to_equations; lia).
  replace (10 * (m / 10) + m mod 10) with m by (Z.div_mod_to_equations; lia).
  replace (10 * (dd / 10) + dd mod 10) with dd by (Z.div_mod_to_equations; lia).
  by rewrite Hv.
Qed.

Arguments strftime_ymd : simpl never.
Arguments parse_iso_date : simpl never.

Ltac cell_simpl :=
  repeat (rewrite cell_insert_eq || rewrite cell_insert_ne by done).

Section TransformerSteps.

Variable flex_datetime : scalar -> option date.
Variable quantile : list float -> float -> float.
Variable median : list float -> float.

Lemma Forall_setcol_has_cell c P df c' f :
  c' ≠ c ->
  Forall (has_cell c P) (rows df) ->
  Forall (has_cell c P) (rows (setcol df c' f)).
Proof.
  intros Hne H. apply Forall_rows_setcol. eapply Forall_impl; [exact H|].
  intros r Hr. unfold has_cell. by rewrite cell_insert_ne.
Qed.

Lemma assign_dt df c F :
  "date" ∈ columns df ->
  Forall (has_cell "date" is_SDate) (rows df) ->
  assign df c "date" (dt F) = Ok (setcol df c (date_cell F)).
Proof.
  intros Hc H. apply assign_setcol; [done|].
  eapply Forall_impl; [exact H|]. intros r [d Hr].
  unfold date_cell, date_of. by rewrite Hr.
Qed.

Ltac date_inv :=
  repeat first
    [ assumption
    | apply elem_of_columns_setcol; right
    | apply Forall_setcol_has_cell; [done|] ].

Lemma extract_date_components_setcol df :
  "date" ∈ columns df ->
  Forall iso_dated (rows df) ->
  extract_date_components flex_datetime df = Ok (with_date_components df).
Proof.
  intros Hc Hd. unfold extract_date_components, with_date_components.
  rewrite (assign_setcol _ _ _ _ (date_cell SDate)); [simpl | done |]; cycle 1.
  { eapply Forall_impl; [exact Hd|]. intros r (d & Hv & Hr).
    unfold date_cell, date_of, to_datetime_raise. rewrite Hr. simpl.
    by rewrite parse_strftime. }
  set (df1 := setcol df "date" (date_cell SDate)).
  assert (Forall (has_cell "date" is_SDate) (rows df1)) as H1.
  { apply Forall_rows_setcol. eapply Forall_impl; [exact Hd|].
    intros r (d & Hv & Hr). unfold has_cell. rewrite cell_insert_eq.
    unfold date_cell, date_of. rewrite Hr, parse_strftime by done. by exists d. }
  assert ("date" ∈ columns df1) as Hc1 by (apply elem_of_columns_setcol; by left).
  clearbody df1.
  do 7 (rewrite assign_dt by date_inv; cbn [rbind]).
  rewrite (assign_setcol _ _ _ _
             (fun r => SBool (num_ltb (cell r "day_of_week") (SInt 5))));
    [cbn [rbind] | |]; cycle 1.
  { do 2 (apply elem_of_columns_setcol; right).
    apply elem_of_columns_setcol. by left. }
  { eapply (Forall_impl (has_cell "day_of_week" is_SInt)).
    - do 2 (apply Forall_setcol_has_cell; [done|]).
      apply Forall_rows_setcol.
      eapply (Forall_impl (has_cell "date" is_SDate)); [date_inv|].
      intros r [d Hr]. unfold has_cell. rewrite cell_insert_eq.
      unfold date_cell, date_of. rewrite Hr. by eexists.
    - intros r [z Hz]. by rewrite Hz. }
  by rewrite assign_dt by date_inv.
Qed.

End TransformerSteps.

Lemma setcol_ext df c (f g : gmap string scalar -> scalar) :
  Forall (fun r => f r = g r) (rows df) -> setcol df c f = setcol df c g.
Proof.
  intros H. unfold setcol. f_equal. apply Forall_fmap_ext_1.
  eapply Forall_impl; [exact H|]. by intros r ->.
Qed.

(** Writing a column computed from the records as they were before the
    last column was written. *)
Lemma setitem_setcol_fmap df c f c' (g G : gmap string scalar -> scalar) :
  (forall r, G (<[c := f r]> r) = g r) ->
  setitem (setcol df c f) c' (g <$> rows df) = setcol (setcol df c f) c' G.
Proof.
  intros H. unfold setitem, setcol. cbn [rows columns]. f_equal.
  rewrite zip_with_fmap_same, <- list_fmap_compose.
  apply list_fmap_ext. intros i r _. simpl. by rewrite H.
Qed.

Lemma categorize_revenue_setcol df :
  "revenue" ∈ columns df -> Forall (numeric "revenue") (rows df) ->
  categorize_revenue df = Ok (with_revenue_category df).
Proof.
  intros Hc Hn. apply assign_setcol; [done|].
  eapply Forall_impl; [exact Hn|]. intros r Hr.
  by rewrite (numeric_numf _ _ Hr).
Qed.

Lemma count_if_zero {A} (p : A -> bool) (l : list A) :
  count_if p l = 0 -> Forall (fun a => p a = false) l.
Proof.
  unfold count_if. induction l as [|a l IH]; [done|].
  rewrite filter_cons. destruct (p a) eqn:E.
  - rewrite decide_True by done. simpl. lia.
  - rewrite decide_False by done. intros H. constructor; auto.
Qed.

Lemma add_product_categories_setcol df :
  "product" ∈ columns df ->
  add_product_categories df = Ok (with_product_category df).
Proof.
  intros Hc. unfold add_product_categories, with_product_category.
  rewrite getitem_col by done. cbn [rbind].
  change (map_dict PRODUCT_CATEGORIES <$> col df "product")
    with (map_dict PRODUCT_CATEGORIES <$> ((fun r => cell r "product") <$> rows df)).
  rewrite <- list_fmap_compose, setitem_fmap.
  rewrite getitem_col by (apply elem_of_columns_setcol; by left).
  cbn [rbind]. rewrite col_setcol_eq.
  destruct (0 <? _) eqn:E.
  - rewrite <- list_fmap_compose. by rewrite setitem_setcol_same.
  - f_equal. apply setcol_ext.
    assert (count_if isna
              (map_dict PRODUCT_CATEGORIES ∘ (fun r => cell r "product") <$> rows df) = 0)
      as Hz.
    { apply Z.ltb_ge in E. unfold count_if in *. lia. }
    apply count_if_zero in Hz. apply Forall_fmap in Hz.
    eapply Forall_impl; [exact Hz|]. intros r Hr. simpl in *.
    unfold fillna. by rewrite Hr.
Qed.

(** ** Text keys: key equality is equality *)

Lemma key_eqb_SStr a b : key_eqb (SStr a) (SStr b) = true <-> SStr a = SStr b.
Proof.
  simpl. rewrite String.eqb_eq. split; [by intros -> | by intros [= ->]].
Qed.

Lemma existsb_key_eqb_SStr t (seen : list string) :
  existsb (key_eqb (SStr t)) (SStr <$> seen) = bool_decide (t ∈ seen).
Proof.
  induction seen as [|u seen IH]; [done|]. csimpl. rewrite IH.
  destruct (String.eqb_spec t u) as [->|Hne]; simpl.
  - symmetry. apply bool_decide_eq_true. by left.
  - apply bool_decide_ext. rewrite elem_of_cons. split; [tauto|].
    by intros [->|?].
Qed.

Lemma filter_unique_keys {B} (g : scalar -> B) (ids seen : list string) t :
  filter (fun kv => key_eqb (SStr t) kv.1 = true)
    ((fun k => (k, g k)) <$> unique_keys (SStr <$> seen) (SStr <$> ids)) =
  if decide (t ∈ ids /\ t ∉ seen) then [(SStr t, g (SStr t))] else [].
Proof.
  revert seen. induction ids as [|u ids IH]; intros seen.
  - case_decide as H; [|done]. by destruct H as [?%elem_of_nil _].
  - cbn [fmap list_fmap unique_keys isna orb].
    change (list_fmap _ _ SStr ?l) with (SStr <$> l).
    rewrite existsb_key_eqb_SStr.
    destruct (decide (u ∈ seen)) as [Hu|Hu].
    + rewrite bool_decide_eq_true_2 by done. rewrite IH.
      apply decide_ext. rewrite elem_of_cons. split; [tauto|].
      intros [[->|?] Hn]; [done | tauto].
    + rewrite bool_decide_eq_false_2 by done.
      rewrite fmap_cons, filter_cons. cbn [fst].
      change (SStr u :: (SStr <$> seen)) with (SStr <$> (u :: seen)).
      rewrite IH.
      destruct (decide (key_eqb (SStr t) (SStr u) = true)) as [Heq|Hne].
      * apply key_eqb_SStr in Heq. injection Heq as ->.
        rewrite decide_False by (intros [_ Hn]; apply Hn; by left).
        rewrite decide_True; [done|]. split; [by left | done].
      * assert (t ≠ u) as Hne'.
        { intros ->. apply Hne. by apply key_eqb_SStr. }
        apply decide_ext. rewrite !elem_of_cons. split.
        -- intros [Hin Hn]. split; [by right | tauto].
        -- intros [[?|Hin] Hn]; [done|]. split; [done|]. by intros [?|?].
Qed.

Lemma bind_singleton {A B} (f : A -> B) (l : list A) :
  (a ← l; [f a]) = f <$> l.
Proof. induction l as [|a l IH]; [done|]. csimpl. by rewrite IH. Qed.

Lemma list_bind_ext_Forall {A B} (f g : A -> list B) (l : list A) :
  Forall (fun a => f a = g a) l -> (a ← l; f a) = (a ← l; g a).
Proof. induction 1 as [|a l E _ IH]; [done|]. csimpl. by rewrite E, IH. Qed.

Lemma col_text df c :
  Forall (has_cell c is_SStr) (rows df) -> col df c = SStr <$> (text c <$> rows df).
Proof.
  intros H. unfold col. rewrite <- list_fmap_compose. apply Forall_fmap_ext_1.
  eapply Forall_impl; [exact H|]. intros r [t Hr]. unfold text. simpl. by rewrite Hr.
Qed.

Lemma traverse_num_col df c :
  Forall (numeric c) (rows df) -> traverse num (col df c) = Ok (numf <$> col df c).
Proof.
  intros H. unfold col. rewrite <- list_fmap_compose.
  apply traverse_fmap_fmap. eapply Forall_impl; [exact H|].
  intros r Hr. by apply numeric_numf.
Qed.

Lemma add_customer_segments_setcol df :
  "customer_id" ∈ columns df -> "revenue" ∈ columns df ->
  "transaction_id" ∈ columns df -> "customer_segment" ∉ columns df ->
  Forall (numeric "revenue") (rows df) ->
  Forall (has_cell "customer_id" is_SStr) (rows df) ->
  add_customer_segments df = Ok (with_customer_segment df).
Proof.
  intros Hc Hr Ht Hs Hn Hid. unfold add_customer_segments.
  rewrite !getitem_col by done. cbn [rbind].
  rewrite traverse_num_col by done. cbn [rbind].
  unfold merge_left. rewrite getitem_col by done. cbn [rbind].
  rewrite bool_decide_eq_false_2 by done. cbn [andb rbind].
  unfold getitem. cbn [columns].
  rewrite decide_True by (apply elem_of_app; right; by apply list_elem_of_singleton).
  cbn [rbind]. f_equal. unfold with_customer_segment, setcol.
  rewrite decide_False by done. f_equal.
  - f_equal. rewrite <- (list_fmap_id (columns df)) at 2.
    apply list_fmap_ext. intros i n _. simpl. by case_decide.
  - etrans; [|apply bind_singleton]. apply list_bind_ext_Forall.
    apply Forall_forall. intros r Hin.
    rewrite Forall_forall in Hid. destruct (Hid r Hin) as [t Hrt].
    unfold customer_stats. rewrite <- list_fmap_compose.
    rewrite (col_text df "customer_id") by by apply Forall_forall.
    rewrite Hrt.
    set (g := fun k => SStr (get_customer_segment
                  (nansum (group_values (SStr <$> (text "customer_id" <$> rows df))
                             (numf <$> col df "revenue") k)))).
    pose proof (filter_unique_keys g (text "customer_id" <$> rows df) [] t) as Hf.
    change (SStr <$> []) with (@nil scalar) in Hf.
    rewrite (list_fmap_ext _ (fun k => (k, g k))) by done.
    rewrite Hf. clear Hf.
    rewrite decide_True; cycle 1.
    { split; [|apply not_elem_of_nil].
      apply list_elem_of_fmap. exists r. split; [|done]. unfold text. by rewrite Hrt. }
    cbn [fmap list_fmap snd]. unfold customer_total.
    by rewrite (col_text df "customer_id") by by apply Forall_forall.
Qed.

Lemma group_rank_pct_col df c :
  group_rank_pct (col df "product") (col df c) = product_rank df c <$> rows df.
Proof.
  unfold group_rank_pct, product_rank.
  generalize (group_values (col df "product") (col df c)). intros G.
  unfold col. by rewrite zip_with_fmap_same.
Qed.

Lemma product_rank_insert df c c' v r :
  c' ≠ "product" -> c' ≠ c ->
  product_rank df c (<[c' := v]> r) = product_rank df c r.
Proof. intros H1 H2. unfold product_rank. by cell_simpl. Qed.

Section TransformerSteps2.

Variable quantile : list float -> float -> float.
Variable median : list float -> float.

Lemma add_price_indicators_setcol df :
  "product" ∈ columns df -> "price" ∈ columns df -> "revenue" ∈ columns df ->
  Forall (numeric "price") (rows df) -> Forall (numeric "revenue") (rows df) ->
  add_price_indicators quantile df = Ok (with_price_indicators quantile df).
Proof.
  intros Hp Hc Hr Hnp Hnr. unfold add_price_indicators, with_price_indicators.
  rewrite !getitem_col by done. cbn [rbind].
  rewrite traverse_num_col by done. cbn [rbind].
  rewrite group_rank_pct_col, setitem_fmap.
  rewrite getitem_col by (apply elem_of_columns_setcol; by right).
  cbn [rbind]. rewrite col_setcol_ne by done.
  rewrite traverse_num_col by done. cbn [rbind]. f_equal.
  unfold col at 2. rewrite <- !list_fmap_compose.
  apply setitem_setcol_fmap. intros r. simpl. by cell_simpl.
Qed.

Lemma product_median_col df :
  group_transform median (col df "product") (numf <$> col df "quantity") =
  (fun r => product_median median df (cell r "product")) <$> rows df.
Proof.
  unfold group_transform, product_median.
  generalize (group_values (col df "product") (numf <$> col df "quantity")).
  intros G. unfold col. by rewrite <- list_fmap_compose.
Qed.

Lemma add_quantity_indicators_setcol df :
  "product" ∈ columns df -> "quantity" ∈ columns df ->
  Forall (numeric "quantity") (rows df) ->
  add_quantity_indicators median df = Ok (with_quantity_indicators median df).
Proof.
  intros Hp Hq Hn. unfold add_quantity_indicators, with_quantity_indicators.
  rewrite !getitem_col by done. cbn [rbind].
  rewrite traverse_num_col by done. cbn [rbind].
  rewrite product_median_col.
  unfold col at 1. rewrite (zip_with_fmap_same pair).
  rewrite (traverse_fmap_fmap _ _
             (fun r => SBool (num_ltb (product_median median df (cell r "product"))
                                (cell r "quantity")))); cycle 1.
  { eapply Forall_impl; [exact Hn|]. intros r [x Hx]. simpl.
    unfold gt_scalar, lt_scalar, product_median. rewrite Hx.
    by destruct (isna _). }
  cbn [rbind]. rewrite setitem_fmap.
  rewrite !getitem_col by (apply elem_of_columns_setcol; by right).
  cbn [rbind]. rewrite !col_setcol_ne by done.
  rewrite traverse_num_col by done. cbn [rbind]. f_equal.
  rewrite group_rank_pct_col.
  apply setitem_setcol_fmap. intros r. by apply product_rank_insert.
Qed.

End TransformerSteps2.

Lemma regional_avg_col df :
  traverse round_scalar
    (group_transform nanmean (col df "region") (numf <$> col df "revenue")) =
  Ok (regional_avg_cell df <$> rows df).
Proof.
  unfold group_transform, regional_avg_cell, regional_mean.
  generalize (group_values (col df "region") (numf <$> col df "revenue")).
  intros G. unfold col. rewrite <- list_fmap_compose.
  apply traverse_fmap_fmap, Forall_true.
  intros r. simpl. by destruct (isna _).
Qed.

Lemma add_regional_indicators_setcol df :
  "region" ∈ columns df -> "revenue" ∈ columns df ->
  Forall (numeric "revenue") (rows df) ->
  add_regional_indicators df = Ok (with_regional_indicators df).
Proof.
  intros Hg Hr Hn. unfold add_regional_indicators, with_regional_indicators.
  rewrite !getitem_col by done. cbn [rbind].
  rewrite traverse_num_col by done. cbn [rbind].
  rewrite regional_avg_col. cbn [rbind]. rewrite setitem_fmap.
  rewrite getitem_col by (apply elem_of_columns_setcol; by right).
  rewrite getitem_col by (apply elem_of_columns_setcol; by left).
  cbn [rbind]. rewrite col_setcol_ne, col_setcol_eq by done.
  unfold col. rewrite (zip_with_fmap_same pair).
  rewrite (traverse_fmap_fmap _ _
             (fun r => SBool (num_ltb (regional_avg_cell df r) (cell r "revenue"))));
    cycle 1.
  { eapply Forall_impl; [exact Hn|]. intros r [x Hx]. simpl.
    unfold gt_scalar, lt_scalar, regional_avg_cell. rewrite Hx.
    by destruct (isna _). }
  cbn [rbind]. f_equal. apply setitem_setcol_fmap.
  intros r. by cell_simpl.
Qed.

(** ** The whole transformation on a validated batch *)

Lemma length_rows_setcol df c f : length (rows (setcol df c f)) = length (rows df).
Proof. unfold setcol. simpl. by rewrite length_fmap. Qed.

Lemma numeric_revenue_with_revenue df :
  Forall (numeric "revenue") (rows (with_revenue df)).
Proof.
  apply Forall_rows_setcol, Forall_true. intros r.
  unfold numeric, has_cell. rewrite cell_insert_eq. by eexists.
Qed.

Lemma valid_record_shapes r :
  valid_record r ->
  numeric "quantity" r /\ numeric "price" r /\ iso_dated r
  /\ has_cell "customer_id" is_SStr r.
Proof.
  intros (_ & (d & Hv & Hd) & _ & _ & Hq & (x & Hx) & _ & (c & Hc)).
  unfold numeric, iso_dated, has_cell. repeat split.
  - unfold quantity_in_bounds in Hq. destruct (cell r "quantity"); try done.
    by eexists.
  - rewrite Hx. by eexists.
  - exists d. split; [done|]. unfold cell. by rewrite Hd.
  - by exists c.
Qed.

Ltac peel :=
  unfold with_regional_indicators, with_quantity_indicators,
    with_price_indicators, with_customer_segment, with_product_category,
    with_revenue_category, with_date_components;
  repeat (apply Forall_setcol_has_cell; [done|]).

Ltac in_columns := apply (bool_decide_unpack _); vm_compute; exact I.

Section TransformData.

Variable flex_datetime : scalar -> option date.
Variable quantile : list float -> float -> float.
Variable median : list float -> float.

Theorem transform_data_validated df s :
  validated df ->
  transform_data flex_datetime quantile median df s =
    ({| metrics :=
          <["records_processed" := SInt (len df)]>
          (<["columns_added" := SInt 18]>
          (<["avg_revenue" := SFloat (nanmean (revenue_of <$> rows df))]>
          (<["total_revenue" := SFloat (nansum (revenue_of <$> rows df))]>
           (metrics s))));
        s3 := s3 s |},
     Ok (enriched quantile median df)).
Proof.
  intros [Hcols Hrows]. destruct df as [cols rws]. simpl in Hcols, Hrows. subst cols.
  set (df := {| columns := REQUIRED_COLUMNS; rows := rws |}).
  assert (Forall (numeric "quantity") (rows df)
          /\ Forall (numeric "price") (rows df)
          /\ Forall iso_dated (rows df)
          /\ Forall (has_cell "customer_id" is_SStr) (rows df))
    as (Hq & Hp & Hd & Hid).
  { repeat split; (eapply Forall_impl; [exact Hrows|]);
      intros r Hr; apply valid_record_shapes in Hr; tauto. }
  pose proof (numeric_revenue_with_revenue df) as Hrev.
  unfold transform_data, bind at 1.
  rewrite calculate_revenue_setcol by first [done | in_columns].
  erewrite bind_lift; cycle 1.
  { apply extract_date_components_setcol; [in_columns|]. unfold iso_dated in *. by peel. }
  erewrite bind_lift; cycle 1.
  { apply categorize_revenue_setcol; [in_columns|]. unfold numeric in *. by peel. }
  erewrite bind_lift; cycle 1.
  { apply add_product_categories_setcol. in_columns. }
  erewrite bind_lift; cycle 1.
  { apply add_customer_segments_setcol; try in_columns; unfold numeric in *; by peel. }
  erewrite bind_lift; cycle 1.
  { apply add_price_indicators_setcol; try in_columns; unfold numeric in *; by peel. }
  erewrite bind_lift; cycle 1.
  { apply add_quantity_indicators_setcol; try in_columns; unfold numeric in *; by peel. }
  erewrite bind_lift; cycle 1.
  { apply add_regional_indicators_setcol; try in_columns; unfold numeric in *; by peel. }
  rewrite !bind_set_metric. unfold ret. cbn [metrics s3].
  f_equal. f_equal. f_equal.
  unfold len. f_equal. f_equal.
  unfold enriched. peel. unfold with_revenue.
  by rewrite !length_rows_setcol.
Qed.

End TransformData.

(** ** The transformer only adds columns *)

Lemma Forall2_setcol (Q R : gmap string scalar -> gmap string scalar -> Prop)
    df0 df c f :
  (forall r r1, Q r r1 -> R r (<[c := f r1]> r1)) ->
  Forall2 Q (rows df0) (rows df) ->
  Forall2 R (rows df0) (rows (setcol df c f)).
Proof.
  intros H HQ. unfold setcol. cbn [rows]. apply Forall2_fmap_r.
  eapply Forall2_impl; [exact HQ|]. intros r r1. apply H.
Qed.

Lemma agree_setcol cs df0 df c f :
  c ∈ cs ->
  Forall2 (agree_except cs) (rows df0) (rows df) ->
  Forall2 (agree_except cs) (rows df0) (rows (setcol df c f)).
Proof.
  intros Hc. apply Forall2_setcol. intros r r1 H c' Hc'.
  rewrite lookup_insert_ne; [by apply H | by intros ->].
Qed.

Lemma mid_date_setcol df0 df c f :
  c ∈ DERIVED_COLUMNS -> c ≠ "date" ->
  Forall2 mid_date (rows df0) (rows df) ->
  Forall2 mid_date (rows df0) (rows (setcol df c f)).
Proof.
  intros Hc Hne. apply Forall2_setcol. intros r r1 [H (d & Hd & Hr)]. split.
  - intros c' Hc' Hne'. rewrite lookup_insert_ne; [by apply H | by intros ->].
  - exists d. by rewrite cell_insert_ne.
Qed.

Lemma agree_with_date_components df0 df :
  Forall2 (fun r r1 => agree_except DERIVED_COLUMNS r r1
                       /\ exists d, valid_date d = true
                                    /\ r !! "date" = Some (SStr (strftime_ymd d)))
    (rows df0) (rows df) ->
  Forall2 (agree_except DERIVED_COLUMNS) (rows df0) (rows (with_date_components df)).
Proof.
  intros H. unfold with_date_components.
  apply (Forall2_setcol mid_date).
  { intros r r1 [Hc (d & Hd & Hr)] c Hn.
    destruct (decide (c = "date")) as [->|Hne].
    - rewrite lookup_insert_eq, Hr. unfold date_cell, date_of. by rewrite Hd.
    - rewrite lookup_insert_ne by done. by apply Hc. }
  do 8 (apply mid_date_setcol; [in_columns | done |]).
  revert H. apply Forall2_setcol. intros r r1 [Ha (d & Hv & Hr)]. split.
  - intros c Hc Hne. rewrite lookup_insert_ne by done. by apply Ha.
  - exists d. rewrite cell_insert_eq. split; [|done].
    unfold date_cell, date_of, cell. rewrite Ha by in_columns.
    rewrite Hr. simpl. by rewrite parse_strftime.
Qed.

Section OnlyAddsColumns.

Variable flex_datetime : scalar -> option date.
Variable quantile : list float -> float -> float.
Variable median : list float -> float.

Lemma enriched_agrees df :
  Forall valid_record (rows df) ->
  Forall2 (agree_except DERIVED_COLUMNS) (rows df) (rows (enriched quantile median df)).
Proof.
  intros Hv. unfold enriched, with_regional_indicators, with_quantity_indicators,
    with_price_indicators, with_customer_segment, with_product_category,
    with_revenue_category.
  do 9 (apply agree_setcol; [in_columns|]).
  apply agree_with_date_components. unfold with_revenue.
  apply (Forall2_setcol (fun r r1 => r1 = r /\ valid_record r)).
  - intros r r1 [-> Hr]. split.
    + intros c Hc. rewrite lookup_insert_ne; [done|]. intros <-. apply Hc. in_columns.
    + destruct Hr as (_ & Hd & _). exact Hd.
  - apply Forall_Forall2_diag. eapply Forall_impl; [exact Hv|]. by intros r Hr.
Qed.

(** C10. On a validated batch the transformer returns a batch with the
    same records in the same order, the eighteen derived columns appended
    to the header, every cell outside the derived columns as it was on
    input (so the seven input columns are unchanged, the date included),
    and [records_processed] is the input length. *)
Theorem transform_only_adds_columns (df : DataFrame) (s : state) :
  validated df ->
  exists s' out,
    transform_data flex_datetime quantile median df s = (s', Ok out)
    /\ columns out = (columns df ++ DERIVED_COLUMNS)%list
    /\ Forall2 (agree_except DERIVED_COLUMNS) (rows df) (rows out)
    /\ Forall2 (fun r r' => forall c, c ∈ REQUIRED_COLUMNS -> r' !! c = r !! c)
         (rows df) (rows out)
    /\ metrics s' !! "records_processed" = Some (SInt (len df)).
Proof.
  intros Hv. eexists _, _. split; [by apply transform_data_validated|].
  destruct Hv as [Hcols Hrows].
  pose proof (enriched_agrees df Hrows) as Ha.
  split; [|split; [done|split]].
  - destruct df as [cols rws]. simpl in Hcols. subst cols. by vm_compute.
  - eapply Forall2_impl; [exact Ha|]. intros r r' H c Hc. apply H.
    intros Hd. revert Hc Hd. clear.
    unfold REQUIRED_COLUMNS, DERIVED_COLUMNS. rewrite !elem_of_cons.
    rewrite !elem_of_nil. intros Hc Hd.
    repeat (destruct Hc as [->|Hc]; [repeat (destruct Hd as [Hd|Hd]; [discriminate|]); done|]).
    done.
  - cbn [metrics]. by rewrite lookup_insert_eq.
Qed.

End OnlyAddsColumns.

(** ** Derived columns of the enriched batch *)

Lemma Forall_setcol_stable (P : gmap string scalar -> Prop) df c f :
  (forall r v, P r -> P (<[c := v]> r)) ->
  Forall P (rows df) -> Forall P (rows (setcol df c f)).
Proof.
  intros H HP. apply Forall_rows_setcol. eapply Forall_impl; [exact HP|].
  intros r. apply H.
Qed.

Lemma Forall_setcol_dep (Q : DataFrame -> gmap string scalar -> Prop) df c f :
  (forall r v, Q df r -> Q (setcol df c f) (<[c := v]> r)) ->
  Forall (Q df) (rows df) -> Forall (Q (setcol df c f)) (rows (setcol df c f)).
Proof.
  intros H HQ. apply Forall_rows_setcol. eapply Forall_impl; [exact HQ|].
  intros r. apply H.
Qed.

Lemma revenue_rule_insert r c v :
  c ≠ "quantity" -> c ≠ "price" -> c ≠ "revenue" ->
  revenue_rule r -> revenue_rule (<[c := v]> r).
Proof.
  intros H1 H2 H3 (q & p & Hq & Hp & Hr). exists q, p. by cell_simpl.
Qed.

Lemma customer_total_setcol df c f k :
  c ≠ "customer_id" -> c ≠ "revenue" ->
  customer_total (setcol df c f) k = customer_total df k.
Proof. intros H1 H2. unfold customer_total. by rewrite !col_setcol_ne. Qed.

Lemma regional_mean_setcol df c f k :
  c ≠ "region" -> c ≠ "revenue" ->
  regional_mean (setcol df c f) k = regional_mean df k.
Proof. intros H1 H2. unfold regional_mean. by rewrite !col_setcol_ne. Qed.

Lemma product_rank_setcol df c' f c r :
  c' ≠ "product" -> c' ≠ c ->
  product_rank (setcol df c' f) c r = product_rank df c r.
Proof. intros H1 H2. unfold product_rank. by rewrite !col_setcol_ne. Qed.

Lemma segment_rule_setcol df c f :
  c ≠ "customer_id" -> c ≠ "revenue" -> c ≠ "customer_segment" ->
  Forall (segment_rule df) (rows df) ->
  Forall (segment_rule (setcol df c f)) (rows (setcol df c f)).
Proof.
  intros H1 H2 H3. apply Forall_setcol_dep. intros r v Hr.
  unfold segment_rule in *. rewrite customer_total_setcol by done. by cell_simpl.
Qed.

Lemma rank_rule_setcol c pc df c' f :
  c' ≠ "product" -> c' ≠ c -> c' ≠ pc ->
  Forall (rank_rule c pc df) (rows df) ->
  Forall (rank_rule c pc (setcol df c' f)) (rows (setcol df c' f)).
Proof.
  intros H1 H2 H3. apply Forall_setcol_dep. intros r v Hr.
  unfold rank_rule in *.
  rewrite product_rank_setcol, product_rank_insert by done. by cell_simpl.
Qed.

Lemma rank_rule_base c pc df0 df :
  pc ≠ "product" -> pc ≠ c ->
  col df "product" = col df0 "product" -> col df c = col df0 c ->
  Forall (rank_rule c pc (setcol df pc (product_rank df0 c)))
    (rows (setcol df pc (product_rank df0 c))).
Proof.
  intros H1 H2 Hp Hc. apply Forall_rows_setcol, Forall_true. intros r.
  unfold rank_rule. rewrite cell_insert_eq, product_rank_insert by done.
  unfold product_rank. by rewrite !col_setcol_ne, Hp, Hc by done.
Qed.

Section EnrichedRules.

Variable quantile : list float -> float -> float.
Variable median : list float -> float.

Lemma enriched_revenue df :
  Forall valid_record (rows df) ->
  Forall revenue_rule (rows (enriched quantile median df)).
Proof.
  intros Hv. unfold enriched, with_regional_indicators, with_quantity_indicators,
    with_price_indicators, with_customer_segment, with_product_category,
    with_revenue_category, with_date_components.
  do 19 (apply Forall_setcol_stable;
         [intros r v; by apply revenue_rule_insert|]).
  apply Forall_rows_setcol. eapply Forall_impl; [exact Hv|].
  intros r (_ & _ & _ & _ & Hq & (p & Hp) & _).
  unfold quantity_in_bounds in Hq.
  destruct (cell r "quantity") as [| q | | | | |] eqn:Eq; try done.
  exists q, p. cell_simpl. unfold revenue_of. by rewrite Eq, Hp.
Qed.

Lemma enriched_revenue_col df :
  numf <$> col (enriched quantile median df) "revenue" = revenue_of <$> rows df.
Proof.
  unfold enriched, with_regional_indicators, with_quantity_indicators,
    with_price_indicators, with_customer_segment, with_product_category,
    with_revenue_category, with_date_components.
  rewrite !col_setcol_ne by done. unfold with_revenue.
  by rewrite col_setcol_eq, <- list_fmap_compose.
Qed.

Lemma enriched_segment df :
  Forall (segment_rule (enriched quantile median df))
    (rows (enriched quantile median df)).
Proof.
  unfold enriched, with_regional_indicators, with_quantity_indicators,
    with_price_indicators.
  do 6 (apply segment_rule_setcol; [done..|]).
  unfold with_customer_segment. apply Forall_rows_setcol, Forall_true. intros r.
  unfold segment_rule. rewrite customer_total_setcol by done. by cell_simpl.
Qed.

Lemma enriched_price_rank df :
  Forall (rank_rule "price" "price_percentile" (enriched quantile median df))
    (rows (enriched quantile median df)).
Proof.
  unfold enriched, with_regional_indicators, with_quantity_indicators,
    with_price_indicators.
  do 5 (apply rank_rule_setcol; [done..|]).
  by apply rank_rule_base.
Qed.

Lemma enriched_quantity_rank df :
  Forall (rank_rule "quantity" "quantity_percentile" (enriched quantile median df))
    (rows (enriched quantile median df)).
Proof.
  unfold enriched, with_regional_indicators, with_quantity_indicators.
  do 2 (apply rank_rule_setcol; [done..|]).
  apply rank_rule_base; [done | done | |]; by rewrite col_setcol_ne.
Qed.

Lemma enriched_regional df :
  Forall valid_record (rows df) ->
  Forall (regional_rule (enriched quantile median df))
    (rows (enriched quantile median df)).
Proof.
  intros Hv. unfold enriched.
  set (df7 := with_quantity_indicators _ _).
  assert (Forall (fun r => has_cell "region" is_SStr r /\ numeric "revenue" r)
            (rows df7)) as H7.
  { apply Forall_and. split.
    - unfold df7. peel.
      eapply Forall_impl; [exact Hv|]. intros r (_ & _ & Hg & _).
      unfold region_valid in Hg. unfold has_cell.
      destruct (cell r "region"); try done. by eexists.
    - unfold df7, numeric. peel. apply numeric_revenue_with_revenue. }
  clearbody df7. unfold with_regional_indicators.
  do 2 apply Forall_rows_setcol. eapply Forall_impl; [exact H7|].
  intros r [[g Hg] [x Hx]]. unfold regional_rule. cbv zeta.
  rewrite !regional_mean_setcol by done. cell_simpl.
  unfold regional_avg_cell. rewrite Hg. cbn [isna]. split; [done|].
  f_equal. rewrite (num_ltb_float_l _ _ _ Hx). by rewrite (num_numf _ _ Hx).
Qed.

End EnrichedRules.

(** ** Counting *)

Lemma count_if_nonneg {A} (p : A -> bool) l : 0 <= count_if p l.
Proof. unfold count_if. lia. Qed.

Lemma count_if_cons {A} (p : A -> bool) a l :
  count_if p (a :: l) = (if p a then 1 else 0) + count_if p l.
Proof.
  unfold count_if. rewrite filter_cons. destruct (p a).
  - rewrite decide_True by done. simpl length. lia.
  - rewrite decide_False by done. lia.
Qed.

Lemma count_if_mono {A} (p q : A -> bool) l :
  Forall (fun a => p a = true -> q a = true) l -> count_if p l <= count_if q l.
Proof.
  induction 1 as [|a l H _ IH]; [done|]. rewrite !count_if_cons.
  destruct (p a), (q a); lia.
Qed.

Lemma count_if_split {A} (p q r : A -> bool) l :
  Forall (fun a => r a = p a || q a /\ p a && q a = false) l ->
  count_if r l = count_if p l + count_if q l.
Proof.
  induction 1 as [|a l [H1 H2] _ IH]; [done|]. rewrite !count_if_cons, H1, IH.
  destruct (p a), (q a); simpl in *; lia.
Qed.

Lemma count_if_le_length {A} (p : A -> bool) l :
  count_if p l <= Z.of_nat (length l).
Proof. unfold count_if. pose proof (length_filter (fun a => p a = true) l). lia. Qed.

Lemma count_if_pos {A} (p : A -> bool) l a :
  a ∈ l -> p a = true -> 1 <= count_if p l.
Proof.
  intros Hin Hp. induction Hin as [a l|a b l Hin IH].
  - rewrite count_if_cons, Hp. pose proof (count_if_nonneg p l). lia.
  - specialize (IH Hp). rewrite count_if_cons. destruct (p b); lia.
Qed.

(** ** Fractional ranks *)

Lemma pct_rank_rank_num grp v :
  pct_rank grp v = Q2Qc (Qmake (rank_num grp v) (Z.to_pos (2 * Z.of_nat (length grp)))).
Proof. reflexivity. Qed.

Section Ranks.

Variable key : scalar -> key3.
Variable grp : list scalar.
Variable S : scalar -> Prop.
Hypothesis Hkey : forall v w, S v -> S w -> keyed key v w.
Hypothesis Hgrp : Forall S grp.

Lemma cmp3_lt_trans a b c : cmp3 a b = Lt -> cmp3 b c <> Gt -> cmp3 a c = Lt.
Proof.
  destruct (cmp3_spec a b), (cmp3_spec b c), (cmp3_spec a c);
    try done; subst; unfold lt3 in *; intros; exfalso; lia.
Qed.

Lemma cmp3_le_trans a b c : cmp3 a b <> Gt -> cmp3 b c <> Gt -> cmp3 a c <> Gt.
Proof.
  destruct (cmp3_spec a b), (cmp3_spec b c), (cmp3_spec a c);
    try done; subst; unfold lt3 in *; intros; exfalso; lia.
Qed.

Lemma cmp3_eq a b : cmp3 a b = Eq -> a = b.
Proof. by destruct (cmp3_spec a b). Qed.

Lemma rank_num_le_count v :
  S v ->
  rank_num grp v =
    count_if (fun w => num_ltb w v) grp + count_if (fun w => num_leb w v) grp + 1.
Proof.
  intros Hv. unfold rank_num.
  rewrite (count_if_split (fun w => num_ltb w v) (fun w => num_eqb w v)
             (fun w => num_leb w v)); [lia|].
  eapply Forall_impl; [exact Hgrp|]. intros w Hw.
  destruct (Hkey w v Hw Hv) as (-> & -> & ->). by destruct (cmp3 _ _).
Qed.

Lemma rank_num_bounds v :
  S v -> v ∈ grp -> 0 < rank_num grp v <= 2 * Z.of_nat (length grp).
Proof.
  intros Hv Hin. rewrite rank_num_le_count by done.
  pose proof (count_if_nonneg (fun w => num_ltb w v) grp).
  pose proof (count_if_le_length (fun w => num_leb w v) grp).
  assert (1 <= count_if (fun w => num_eqb w v) grp) as He.
  { apply (count_if_pos _ _ v); [done|].
    destruct (Hkey v v Hv Hv) as (_ & -> & _). by rewrite cmp3_refl. }
  assert (count_if (fun w => num_ltb w v) grp + count_if (fun w => num_eqb w v) grp
          = count_if (fun w => num_leb w v) grp) as Hs.
  { symmetry. apply count_if_split.
    eapply Forall_impl; [exact Hgrp|]. intros w Hw.
    destruct (Hkey w v Hw Hv) as (-> & -> & ->). by destruct (cmp3 _ _). }
  lia.
Qed.

Lemma rank_num_tie v1 v2 :
  S v1 -> S v2 -> num_eqb v1 v2 = true -> rank_num grp v1 = rank_num grp v2.
Proof.
  intros H1 H2 He. destruct (Hkey v1 v2 H1 H2) as (_ & Heq & _).
  rewrite He in Heq. 
  assert (key v1 = key v2) as Hk.
  { apply cmp3_eq. by destruct (cmp3 (key v1) (key v2)). }
  unfold rank_num. f_equal. f_equal; [f_equal|]; apply count_if_ext_Forall;
    (eapply Forall_impl; [exact Hgrp|]); intros w Hw;
    destruct (Hkey w v1 Hw H1) as (A1 & B1 & _);
    destruct (Hkey w v2 Hw H2) as (A2 & B2 & _);
    by rewrite ?A1, ?A2, ?B1, ?B2, Hk.
Qed.

Lemma rank_num_mono v1 v2 :
  S v1 -> S v2 -> num_leb v1 v2 = true -> rank_num grp v1 <= rank_num grp v2.
Proof.
  intros H1 H2 Hle. destruct (Hkey v1 v2 H1 H2) as (_ & _ & Hl).
  rewrite Hle in Hl.
  assert (cmp3 (key v1) (key v2) <> Gt) as Hk
    by (by destruct (cmp3 (key v1) (key v2))).
  rewrite !rank_num_le_count by done.
  assert (count_if (fun w => num_ltb w v1) grp <= count_if (fun w => num_ltb w v2) grp).
  { apply count_if_mono. eapply Forall_impl; [exact Hgrp|]. intros w Hw.
    destruct (Hkey w v1 Hw H1) as (-> & _), (Hkey w v2 Hw H2) as (-> & _).
    destruct (cmp3 (key w) (key v1)) eqn:E; try done. intros _.
    by rewrite (cmp3_lt_trans _ _ _ E Hk). }
  assert (count_if (fun w => num_leb w v1) grp <= count_if (fun w => num_leb w v2) grp).
  { apply count_if_mono. eapply Forall_impl; [exact Hgrp|]. intros w Hw.
    destruct (Hkey w v1 Hw H1) as (_ & _ & ->), (Hkey w v2 Hw H2) as (_ & _ & ->).
    intros E. assert (cmp3 (key w) (key v1) <> Gt) as E'
      by (by destruct (cmp3 (key w) (key v1))).
    pose proof (cmp3_le_trans _ _ _ E' Hk). by destruct (cmp3 (key w) (key v2)). }
  lia.
Qed.

End Ranks.

Lemma Q2Qc_le n1 n2 d : n1 <= n2 -> (Q2Qc (n1 # d) <= Q2Qc (n2 # d))%Qc.
Proof.
  intros H. unfold Qcle. cbn [this Q2Qc].
  rewrite (Qred_correct (n1 # d)), (Qred_correct (n2 # d)).
  unfold Qle. simpl. nia.
Qed.

Lemma Q2Qc_pos n d : 0 < n -> (0 < Q2Qc (n # d))%Qc.
Proof.
  intros H. unfold Qclt. cbn [this Q2Qc].
  rewrite (Qred_correct (n # d)).
  unfold Qlt. simpl. lia.
Qed.

Lemma Q2Qc_le_1 n d : n <= Z.pos d -> (Q2Qc (n # d) <= 1)%Qc.
Proof.
  intros H. unfold Qcle. cbn [this Q2Qc].
  rewrite (Qred_correct (n # d)).
  unfold Qle. simpl. lia.
Qed.

Lemma keyed_int v w : is_SInt v -> is_SInt w -> keyed int_key v w.
Proof.
  intros [a ->] [b ->]. unfold keyed, cmp3. simpl.
  destruct (Z.compare_spec a b), (Z.ltb_spec a b), (Z.eqb_spec a b),
    (Z.leb_spec a b); try lia; done.
Qed.

Lemma keyed_float v w : is_number v -> is_number w -> keyed float_key v w.
Proof.
  intros (x & -> & Hx) (y & -> & Hy). unfold keyed. simpl.
  rewrite ltb_key, eqb_key, leb_key.
  apply not_nan_key in Hx as [a ->], Hy as [b ->]. done.
Qed.

Section PctRank.

Variable key : scalar -> key3.
Variable S : scalar -> Prop.
Hypothesis Hkey : forall v w, S v -> S w -> keyed key v w.

Lemma pct_rank_props grp v1 v2 :
  Forall S grp -> v1 ∈ grp -> v2 ∈ grp ->
  (0 < pct_rank grp v1 /\ pct_rank grp v1 <= 1)%Qc
  /\ (num_eqb v1 v2 = true -> pct_rank grp v1 = pct_rank grp v2)
  /\ (num_leb v1 v2 = true -> (pct_rank grp v1 <= pct_rank grp v2)%Qc).
Proof.
  intros Hgrp H1 H2.
  assert (S v1 /\ S v2) as [S1 S2].
  { rewrite Forall_forall in Hgrp. auto. }
  rewrite !pct_rank_rank_num.
  pose proof (rank_num_bounds key grp S Hkey Hgrp v1 S1 H1) as Hb.
  assert (0 < Z.of_nat (length grp)) as Hlen.
  { destruct grp; [by apply elem_of_nil in H1 | simpl; lia]. }
  repeat split.
  - apply Q2Qc_pos. lia.
  - apply Q2Qc_le_1. rewrite Z2Pos.id by lia. lia.
  - intros He. by rewrite (rank_num_tie key grp S Hkey Hgrp v1 v2).
  - intros Hl. apply Q2Qc_le. by apply (rank_num_mono key grp S Hkey Hgrp).
Qed.

End PctRank.

Lemma leb_true_not_nan a x : (a <=? x)%float = true -> is_nan x = false.
Proof.
  rewrite leb_key. intros H. destruct (is_nan x) eqn:E; [|done].
  apply is_nan_key in E. rewrite E in H. by destruct (fkey a).
Qed.

Lemma key_eqb_refl_SStr p : key_eqb (SStr p) (SStr p) = true.
Proof. by apply key_eqb_SStr. Qed.

Lemma group_member out c r p :
  r ∈ rows out -> cell r "product" = SStr p -> isna (cell r c) = false ->
  cell r c ∈ filter (fun w => isna w = false)
               (group_values (col out "product") (col out c) (SStr p)).
Proof.
  intros Hin Hp Hna. apply list_elem_of_filter. split; [done|].
  unfold group_values, col. rewrite (zip_with_fmap_same pair).
  apply list_elem_of_fmap. exists (cell r "product", cell r c). split; [done|].
  apply list_elem_of_filter. split.
  - simpl. rewrite Hp. apply key_eqb_refl_SStr.
  - apply list_elem_of_fmap. by exists r.
Qed.

Lemma group_Forall (S : scalar -> Prop) out c k :
  Forall (has_cell c S) (rows out) ->
  Forall S (filter (fun w => isna w = false)
              (group_values (col out "product") (col out c) k)).
Proof.
  intros H. apply Forall_forall. intros w [_ Hw]%list_elem_of_filter.
  unfold group_values, col in Hw. rewrite (zip_with_fmap_same pair) in Hw.
  apply list_elem_of_fmap in Hw as ([k' w'] & -> & Hw).
  apply list_elem_of_filter in Hw as [_ Hw].
  apply list_elem_of_fmap in Hw as (r & [= -> ->] & Hr).
  rewrite Forall_forall in H. by apply H.
Qed.

Lemma percentile_props_of_rank_rule (key : scalar -> key3) (S : scalar -> Prop)
    c pc out :
  (forall v w, S v -> S w -> keyed key v w) ->
  (forall v, S v -> isna v = false) ->
  Forall (rank_rule c pc out) (rows out) ->
  Forall (has_cell "product" is_SStr) (rows out) ->
  Forall (has_cell c S) (rows out) ->
  percentile_props c pc out.
Proof.
  intros Hkey Hna Hrule Hprod Hc r1 r2 Hin1 Hin2.
  rewrite Forall_forall in Hrule, Hprod, Hc.
  pose proof (Hrule r1 Hin1) as E1. pose proof (Hrule r2 Hin2) as E2.
  destruct (Hprod r1 Hin1) as [p1 P1], (Hprod r2 Hin2) as [p2 P2].
  pose proof (Hna _ (Hc r1 Hin1)) as N1. pose proof (Hna _ (Hc r2 Hin2)) as N2.
  unfold rank_rule, product_rank in E1, E2.
  rewrite P1, N1 in E1. rewrite P2, N2 in E2. cbn [isna orb] in E1, E2.
  eexists _, _. split; [exact E1|]. split; [exact E2|].
  assert (Forall (has_cell c S) (rows out)) as Hc' by (by apply Forall_forall).
  split.
  - refine (proj1 (pct_rank_props key S Hkey _ _ (cell r1 c)
                     (group_Forall S out c _ Hc') _ _)); by apply group_member.
  - rewrite P1, P2. intros [= ->].
    refine (proj2 (pct_rank_props key S Hkey _ _ _
                     (group_Forall S out c _ Hc') _ _)); by apply group_member.
Qed.

(** ** What the transformer guarantees on a validated batch *)

Lemma get_customer_segment_in_band t :
  is_nan t = false -> in_band t (get_customer_segment t).
Proof.
  intros Hn. unfold in_band, get_customer_segment.
  rewrite (leb_negb_ltb 500 t), (leb_negb_ltb 2000 t), (leb_negb_ltb 5000 t) by done.
  destruct (t <? 500)%float; [by left|].
  destruct (t <? 2000)%float; [right; by left|].
  destruct (t <? 5000)%float; [right; right; by left|].
  right. right. by right.
Qed.

Section TransformerGuarantees.

Variable flex_datetime : scalar -> option date.
Variable quantile : list float -> float -> float.
Variable median : list float -> float.





End TransformerGuarantees.

(** ** A second run over an enriched batch *)

Lemma columns_setitem df c s x : x ∈ columns df -> x ∈ columns (setitem df c s).
Proof.
  intros H. unfold setitem. simpl. case_decide; [done|].
  apply elem_of_app. by left.
Qed.

Lemma assign_columns df c a f df' x :
  assign df c a f = Ok df' -> x ∈ columns df -> x ∈ columns df'.
Proof. intros H Hx. unfold assign in H. inv_ok H. by apply columns_setitem. Qed.

Section SecondRun.

Variable flex_datetime : scalar -> option date.
Variable quantile : list float -> float -> float.
Variable median : list float -> float.

Lemma calculate_revenue_columns df s s' df' x :
  calculate_revenue df s = (s', Ok df') -> x ∈ columns df -> x ∈ columns df'.
Proof.
  intros H Hx. unfold calculate_revenue in H. inv_ok H.
  by do 2 apply columns_setitem.
Qed.

Lemma extract_date_components_columns df df' x :
  extract_date_components flex_datetime df = Ok df' ->
  x ∈ columns df -> x ∈ columns df'.
Proof.
  intros H Hx. unfold extract_date_components in H.
  repeat match type of H with
         | rbind (assign _ _ _ _) _ = Ok _ =>
             let d := fresh "d" in let E := fresh "E" in
             apply rbind_Ok in H as (d & E & H);
             apply (assign_columns _ _ _ _ _ x) in E; [|assumption]
         end.
  by eapply assign_columns.
Qed.

Lemma categorize_revenue_columns df df' x :
  categorize_revenue df = Ok df' -> x ∈ columns df -> x ∈ columns df'.
Proof. apply assign_columns. Qed.

Lemma add_product_categories_columns df df' x :
  add_product_categories df = Ok df' -> x ∈ columns df -> x ∈ columns df'.
Proof.
  intros H Hx. unfold add_product_categories in H. inv_ok H.
  destruct (0 <? _); inv_ok H; by repeat apply columns_setitem.
Qed.

Lemma add_customer_segments_Ok df df' :
  add_customer_segments df = Ok df' -> "customer_segment" ∈ columns df'.
Proof.
  intros H. unfold add_customer_segments in H. inv_ok H.
  match goal with
  | G : getitem _ "customer_segment" = Ok _ |- _ => by apply getitem_Ok in G as [? _]
  end.
Qed.

(** An existing [customer_segment] column makes the merge suffix both
    sides, so the look-up of [customer_segment] that follows fails. *)
Lemma add_customer_segments_rejects df :
  "customer_segment" ∈ columns df -> exists e, add_customer_segments df = Raise e.
Proof.
  intros Hc. destruct (add_customer_segments df) as [df'|e] eqn:E; [|eauto].
  exfalso. unfold add_customer_segments in E. inv_ok E.
  match goal with
  | G : getitem _ "customer_segment" = Ok _ |- _ =>
      apply getitem_Ok in G as [Hin _]
  end.
  match goal with
  | G : merge_left _ _ _ _ = Ok _ |- _ => rename G into Hm
  end.
  unfold merge_left in Hm. inv_ok Hm.
  rewrite bool_decide_eq_true_2 in Hm by done. cbn [andb] in Hm.
  destruct (bool_decide _); [done|]. inv_ok Hm. cbn [columns] in Hin.
  apply elem_of_app in Hin as [Hin|Hin].
  - apply list_elem_of_fmap in Hin as (n & Hn & _). by case_decide.
  - by apply list_elem_of_singleton in Hin.
Qed.

Lemma add_price_indicators_columns df df' x :
  add_price_indicators quantile df = Ok df' -> x ∈ columns df -> x ∈ columns df'.
Proof.
  intros H Hx. unfold add_price_indicators in H. inv_ok H.
  by do 2 apply columns_setitem.
Qed.

Lemma add_quantity_indicators_columns df df' x :
  add_quantity_indicators median df = Ok df' -> x ∈ columns df -> x ∈ columns df'.
Proof.
  intros H Hx. unfold add_quantity_indicators in H. inv_ok H.
  by do 2 apply columns_setitem.
Qed.

Lemma add_regional_indicators_columns df df' x :
  add_regional_indicators df = Ok df' -> x ∈ columns df -> x ∈ columns df'.
Proof.
  intros H Hx. unfold add_regional_indicators in H. inv_ok H.
  by do 2 apply columns_setitem.
Qed.

Lemma transform_data_rejects df s :
  "customer_segment" ∈ columns df ->
  exists s' e, transform_data flex_datetime quantile median df s = (s', Raise e).
Proof.
  intros Hc. unfold transform_data, bind at 1.
  destruct (calculate_revenue df s) as [s1 [d1|e]] eqn:E1; [|eauto].
  apply (calculate_revenue_columns _ _ _ _ _ E1) in Hc.
  unfold bind at 1, lift at 1.
  destruct (extract_date_components flex_datetime d1) as [d2|e] eqn:E2; [|eauto].
  apply (extract_date_components_columns _ _ _ E2) in Hc.
  unfold bind at 1, lift at 1.
  destruct (categorize_revenue d2) as [d3|e] eqn:E3; [|eauto].
  apply (categorize_revenue_columns _ _ _ E3) in Hc.
  unfold bind at 1, lift at 1.
  destruct (add_product_categories d3) as [d4|e] eqn:E4; [|eauto].
  apply (add_product_categories_columns _ _ _ E4) in Hc.
  unfold bind at 1, lift at 1.
  destruct (add_customer_segments_rejects d4 Hc) as [e ->]. eauto.
Qed.

(** C9. A batch the transformer has returned is rejected by a second run:
    it already has a [customer_segment] column, and the run ends in an
    exception. *)
Theorem transform_twice_rejected (df out : DataFrame) (s s' s0 : state) :
  transform_data flex_datetime quantile median df s = (s', Ok out) ->
  exists s1 e,
    transform_data flex_datetime quantile median out s0 = (s1, Raise e).
Proof.
  intros H. apply transform_data_rejects.
  unfold transform_data in H. inv_ok H.
  eapply add_regional_indicators_columns; [eassumption|].
  eapply add_quantity_indicators_columns; [eassumption|].
  eapply add_price_indicators_columns; [eassumption|].
  by eapply add_customer_segments_Ok.
Qed.

End SecondRun.

(** ** The scenario, the witnesses and the counterexample *)

(** C7. On the three-record scenario the validator returns its metrics
    with two valid records and one duplicate removed, and writes T1 (once)
    and T2; the transformer run on what was written gives T1 the revenue
    1000.0 and the category Computing, and T2 the revenue 10.0 and the
    category Accessories. *)
Theorem scenario_end_to_end :
  forall str_to_number flex_datetime builtin_round2 elapsed quantile median,
    let validation :=
      process_file str_to_number flex_datetime builtin_round2 elapsed
        "raw-zone/2024-01-02.csv" "processed-zone/2024-01-02.csv"
        (validator_state scenario_raw) in
    let transformation :=
      transformer_process_file flex_datetime quantile median elapsed
        "processed-zone/2024-01-02.csv" "processed-zone/2024-01-02.csv"
        (transformer_state (s3 validation.1)) in
    match validation.2 with
    | Ok m => m !! "valid_records" = Some (SInt 2)
              /\ m !! "duplicates_removed" = Some (SInt 1)
    | Raise _ => False
    end
    /\ s3 validation.1 !! "processed-zone/2024-01-02.csv" = Some scenario_valid
    /\ match transformation.2,
             rows <$> s3 transformation.1 !! "processed-zone/2024-01-02.csv" with
       | Ok _, Some [t1; t2] =>
           cell t1 "transaction_id" = SStr "T1"
           /\ cell t1 "revenue" = SFloat 1000.00
           /\ cell t1 "product_category" = SStr "Computing"
           /\ cell t2 "transaction_id" = SStr "T2"
           /\ cell t2 "revenue" = SFloat 10.00
           /\ cell t2 "product_category" = SStr "Accessories"
       | _, _ => False
       end.
Proof.
  intros. split; [|split].
  - vm_compute. split; reflexivity.
  - vm_compute. reflexivity.
  - vm_compute. repeat split.
Qed.

(** The hypotheses of the theorems hold of the example batches: a valid
    record is checked field by field, its date given. *)
Ltac by_evaluation := vm_compute; reflexivity.

Ltac valid_record_on d :=
  split; [eexists; by_evaluation|];
  split; [exists d; split; by_evaluation|];
  split; [by_evaluation|];
  split; [eexists; by_evaluation|];
  split; [by_evaluation|];
  split; [eexists; by_evaluation|];
  split; [by_evaluation|eexists; by_evaluation].

Ltac typed_record_checked :=
  split; [eexists; by_evaluation|eexists; split; by_evaluation].







Lemma transform_only_adds_columns_witness :
  validated scenario_valid
  /\ exists s' out,
       transform_data no_flex_datetime const_quantile const_median
         scenario_valid (transformer_state ∅) = (s', Ok out)
       /\ columns out = (columns scenario_valid ++ DERIVED_COLUMNS)%list
       /\ Forall2 (agree_except DERIVED_COLUMNS) (rows scenario_valid) (rows out)
       /\ Forall2 (fun r r' => forall c, c ∈ REQUIRED_COLUMNS -> r' !! c = r !! c)
            (rows scenario_valid) (rows out)
       /\ metrics s' !! "records_processed" = Some (SInt (len scenario_valid)).
Proof.
  assert (validated scenario_valid) as Hv.
  { split; [reflexivity|]. apply Forall_cons_2; [|apply Forall_cons_2; [|apply Forall_nil_2]].
    - valid_record_on {| year := 2024; month := 1; day := 1 |}.
    - valid_record_on {| year := 2024; month := 1; day := 2 |}. }
  split; [exact Hv|].
  exact (transform_only_adds_columns no_flex_datetime const_quantile
           const_median scenario_valid (transformer_state ∅) Hv).
Defined.

Lemma transform_twice_rejected_witness :
  exists s' out,
    transform_data no_flex_datetime const_quantile const_median
      scenario_valid (transformer_state ∅) = (s', Ok out)
    /\ exists s1 e,
         transform_data no_flex_datetime const_quantile const_median
           out (transformer_state ∅) = (s1, Raise e).
Proof.
  destruct (transform_data no_flex_datetime const_quantile const_median
              scenario_valid (transformer_state ∅)) as [s' [out|e]] eqn:E.
  - exists s', out. split; [reflexivity|].
    exact (transform_twice_rejected no_flex_datetime const_quantile
             const_median scenario_valid out (transformer_state ∅) s'
             (transformer_state ∅) E).
  - vm_compute in E. discriminate E.
Defined.

(** * Further properties of the two stages *)

(** ** Hash keys *)

Lemma eqb_float_sym f g : (f =? g)%float = (g =? f)%float.
Proof.
  rewrite !eqb_key. destruct (fkey f) as [a|], (fkey g) as [b|]; try done.
  destruct (cmp3_spec a b) as [E|H|H], (cmp3_spec b a) as [E'|H'|H'];
    try done; subst; unfold lt3 in *; lia.
Qed.

Lemma key_eqb_sym v w : key_eqb v w = key_eqb w v.
Proof.
  destruct v, w; simpl; try done.
  - apply String.eqb_sym.
  - apply Z.eqb_sym.
  - by rewrite eqb_float_sym, (andb_comm (is_nan f)).
  - by destruct b, b0.
  - by rewrite (Z.eqb_sym (year d)), (Z.eqb_sym (month d)), (Z.eqb_sym (day d)).
  - apply bool_decide_ext. split; congruence.
Qed.

Lemma key_eqb_refl v : key_eqb v v = true.
Proof.
  destruct v; simpl; try done.
  - apply String.eqb_refl.
  - apply Z.eqb_refl.
  - destruct (is_nan f) eqn:E; [by rewrite orb_true_r|].
    unfold is_nan in E. apply negb_false_iff in E. by rewrite E.
  - by destruct b.
  - by rewrite !Z.eqb_refl.
  - by apply bool_decide_eq_true.
Qed.

(** ** Duplicate removal *)

Lemma keep_first_sublist c seen rs : sublist (keep_first c seen rs) rs.
Proof.
  revert seen. induction rs as [|r rs IH]; intros seen; simpl; [done|].
  destruct (existsb _ seen).
  - by apply sublist_cons.
  - by apply sublist_skip.
Qed.

Lemma keep_first_unseen c seen rs r :
  r ∈ keep_first c seen rs -> existsb (key_eqb (cell r c)) seen = false.
Proof.
  revert seen. induction rs as [|r0 rs IH]; intros seen; simpl.
  - by intros ?%elem_of_nil.
  - destruct (existsb _ seen) eqn:E; [by apply IH|].
    intros [->|H]%elem_of_cons; [done|].
    apply IH in H. simpl in H. by apply orb_false_elim in H as [_ H].
Qed.

Lemma keep_first_distinct c seen rs : distinct_on c (keep_first c seen rs).
Proof.
  revert seen. induction rs as [|r rs IH]; intros seen; simpl; [constructor|].
  destruct (existsb _ seen) eqn:E; [by apply IH|].
  constructor; [|by apply IH].
  apply Forall_forall. intros r' H%keep_first_unseen. simpl in H.
  apply orb_false_elim in H as [H _]. by rewrite key_eqb_sym.
Qed.

(** Two records at different places differ on [c]. *)
Lemma distinct_on_lookup c rs i j r1 r2 :
  distinct_on c rs -> rs !! i = Some r1 -> rs !! j = Some r2 ->
  key_eqb (cell r1 c) (cell r2 c) = true -> i = j.
Proof.
  intros H. revert i j. induction H as [|r rs Hr _ IH]; intros [|i] [|j]; simpl;
    try done.
  - intros [= <-] H2%list_elem_of_lookup_2 Hk.
    rewrite Forall_forall in Hr. apply Hr in H2. congruence.
  - intros H1%list_elem_of_lookup_2 [= <-] Hk.
    rewrite Forall_forall in Hr. apply Hr in H1.
    rewrite key_eqb_sym in Hk. congruence.
  - intros H1 H2 Hk. f_equal. by eapply IH.
Qed.

Lemma keep_first_covers c seen rs r :
  r ∈ rs ->
  existsb (key_eqb (cell r c)) seen = true
  \/ exists r', r' ∈ keep_first c seen rs
                /\ key_eqb (cell r c) (cell r' c) = true.
Proof.
  revert seen. induction rs as [|r0 rs IH]; intros seen.
  - by intros ?%elem_of_nil.
  - simpl. intros [->|H]%elem_of_cons.
    + destruct (existsb _ seen) eqn:E; [by left|]. right.
      exists r0. split; [by left | apply key_eqb_refl].
    + destruct (existsb (key_eqb (cell r0 c)) seen) eqn:E; [by apply IH|].
      destruct (IH (cell r0 c :: seen) H) as [Hs|(r' & Hr' & Hk)].
      * simpl in Hs. apply orb_prop in Hs as [Hs|Hs]; [|by left].
        right. exists r0. split; [by left | done].
      * right. exists r'. split; [by right | done].
Qed.

Lemma keep_first_idem c seen rs :
  keep_first c seen (keep_first c seen rs) = keep_first c seen rs.
Proof.
  revert seen. induction rs as [|r rs IH]; intros seen; simpl; [done|].
  destruct (existsb _ seen) eqn:E; [by apply IH|].
  simpl. by rewrite E, IH.
Qed.

Lemma sublist_len {A} (l1 l2 : list A) :
  sublist l1 l2 -> Z.of_nat (length l1) <= Z.of_nat (length l2).
Proof. intros H%sublist_length. lia. Qed.

(** X1. Duplicate removal. On a batch that has a [transaction_id] column
    the step keeps a sub-sequence of the records in which no two records
    share a transaction id, every incoming id is still present, and the
    counter is set to the number of records dropped. On a batch without
    that column it raises [KeyError] and leaves the metrics alone. *)
Theorem remove_duplicates_spec (df : DataFrame) (s : state) :
  ("transaction_id" ∈ columns df ->
   exists out,
     remove_duplicates df s =
       ({| metrics := <["duplicates_removed" := SInt (len df - len out)]> (metrics s);
           s3 := s3 s |}, Ok out)
     /\ columns out = columns df
     /\ sublist (rows out) (rows df)
     /\ (forall i j r1 r2,
           rows out !! i = Some r1 -> rows out !! j = Some r2 ->
           key_eqb (cell r1 "transaction_id") (cell r2 "transaction_id") = true ->
           i = j)
     /\ (forall r, r ∈ rows df ->
           exists r', r' ∈ rows out
             /\ key_eqb (cell r "transaction_id") (cell r' "transaction_id") = true)
     /\ 0 <= len df - len out)
  /\ ("transaction_id" ∉ columns df ->
      remove_duplicates df s = (s, Raise (KeyError "transaction_id"))).
Proof.
  split.
  - intros Hc. eexists. unfold remove_duplicates, drop_duplicates.
    rewrite (getitem_present _ _ Hc). split; [reflexivity|].
    cbn [columns rows]. split; [done|].
    split; [apply keep_first_sublist|]. split; [|split].
    + intros i j r1 r2. apply distinct_on_lookup, keep_first_distinct.
    + intros r Hr. by destruct (keep_first_covers "transaction_id" [] _ _ Hr).
    + unfold len. cbn [rows].
      pose proof (sublist_len _ _ (keep_first_sublist "transaction_id" [] (rows df))).
      lia.
  - intros H. unfold remove_duplicates, drop_duplicates, getitem.
    by rewrite decide_False.
Qed.

(** X2. Duplicate removal is idempotent: run on its own result it keeps
    every record and reports zero duplicates. *)
Theorem remove_duplicates_idempotent (df out : DataFrame) (s s1 s2 : state) :
  remove_duplicates df s = (s1, Ok out) ->
  remove_duplicates out s2 =
    ({| metrics := <["duplicates_removed" := SInt 0]> (metrics s2); s3 := s3 s2 |},
     Ok out).
Proof.
  unfold remove_duplicates, drop_duplicates. intros H.
  destruct (getitem df "transaction_id") as [ids|e] eqn:Hg; [|done].
  apply getitem_Ok in Hg as [Hc _]. cbn in H. injection H as _ <-.
  rewrite getitem_present by done.
  cbn. unfold len. cbn [rows]. rewrite keep_first_idem.
  by rewrite Z.sub_diag.
Qed.

(** ** Integers as binary64 values are numbers *)

Lemma shr_1_nonneg mrs : 0 <= shr_m mrs -> 0 <= shr_m (shr_1 mrs).
Proof. destruct mrs as [[|[p|p|]|p] r s]; simpl; lia. Qed.

Lemma iter_shr_1_nonneg p mrs :
  0 <= shr_m mrs -> 0 <= shr_m (SpecFloat.iter_pos shr_1 p mrs).
Proof.
  revert mrs. induction p as [p IH|p IH|]; intros mrs H; simpl.
  - apply IH, IH. by apply shr_1_nonneg.
  - by apply IH, IH.
  - by apply shr_1_nonneg.
Qed.

Lemma shr_fexp_nonneg prec emax m e l :
  0 <= m -> 0 <= shr_m (shr_fexp prec emax m e l).1.
Proof.
  intros H. unfold shr_fexp, shr.
  assert (0 <= shr_m (shr_record_of_loc m l)) as H0
    by (by destruct l as [|[]]).
  destruct (_ - e); simpl; [done| |done]. by apply iter_shr_1_nonneg.
Qed.

Lemma round_nearest_even_nonneg m l : 0 <= m -> 0 <= round_nearest_even m l.
Proof. intros H. destruct l as [|[]]; simpl; [done| |done|lia]. destruct (Z.even m); lia. Qed.

Lemma binary_round_aux_not_nan prec emax sx mx ex lx :
  0 <= mx -> binary_round_aux prec emax sx mx ex lx <> S754_nan.
Proof.
  intros H. unfold binary_round_aux.
  pose proof (shr_fexp_nonneg prec emax mx ex lx H) as H1.
  destruct (shr_fexp prec emax mx ex lx) as [mrs' e']. simpl in H1.
  pose proof (shr_fexp_nonneg prec emax _ e' loc_Exact
                (round_nearest_even_nonneg _ (loc_of_shr_record mrs') H1)) as H2.
  destruct (shr_fexp prec emax (round_nearest_even _ _) e' loc_Exact) as [mrs'' e''].
  simpl in H2. destruct (shr_m mrs''); [done| |lia].
  by destruct (_ <=? _).
Qed.

Lemma binary_normalize_not_nan prec emax m e sz :
  binary_normalize prec emax m e sz <> S754_nan.
Proof.
  destruct m; simpl; [done|..]; unfold binary_round;
    destruct (shl_align _ _ _); by apply binary_round_aux_not_nan.
Qed.

Lemma is_nan_Prim2SF f : is_nan f = true <-> Prim2SF f = S754_nan.
Proof.
  rewrite is_nan_key. unfold fkey.
  destruct (Prim2SF f) as [| | |[]]; simpl; split; done.
Qed.

Lemma Z_to_float_not_nan z : is_nan (Z_to_float z) = false.
Proof.
  apply not_true_is_false. rewrite is_nan_Prim2SF. unfold Z_to_float.
  destruct (z <? 0).
  - rewrite FloatAxioms.opp_spec, FloatAxioms.of_uint63_spec.
    pose proof (binary_normalize_not_nan prec emax (Uint63.to_Z (of_Z (- z))) 0 false).
    by destruct (binary_normalize _ _ _ _ _).
  - rewrite FloatAxioms.of_uint63_spec. apply binary_normalize_not_nan.
Qed.

(** ** Missing values *)

Lemma dropna_present df cs :
  Forall (fun c => c ∈ columns df) cs ->
  dropna df cs =
    Ok {| columns := columns df;
          rows := filter (fun r => complete cs r = true) (rows df) |}.
Proof.
  intros H. unfold dropna.
  replace (filter (fun c => c ∉ columns df) cs) with (@nil string); [done|].
  symmetry. induction H as [|c cs Hc _ IH]; [done|].
  rewrite filter_cons_False; [done | by intros ?].
Qed.

Lemma dropna_Ok df cs out :
  dropna df cs = Ok out ->
  Forall (fun c => c ∈ columns df) cs
  /\ out = {| columns := columns df;
              rows := filter (fun r => complete cs r = true) (rows df) |}.
Proof.
  intros H. assert (Forall (fun c => c ∈ columns df) cs) as Hcs.
  { unfold dropna in H. apply Forall_forall. intros c Hc.
    destruct (decide (c ∈ columns df)) as [|Hn]; [done|]. exfalso.
    assert (c ∈ filter (fun c => c ∉ columns df) cs) as Hf
      by (by apply list_elem_of_filter).
    destruct (filter _ cs); [by apply elem_of_nil in Hf | done]. }
  split; [done|]. rewrite dropna_present in H by done. by injection H.
Qed.

Lemma complete_spec cs r :
  complete cs r = true <-> forall c, c ∈ cs -> isna (cell r c) = false.
Proof.
  unfold complete. rewrite forallb_forall. split.
  - intros H c Hc. apply negb_true_iff, H. by apply list_elem_of_In.
  - intros H c Hc. apply negb_true_iff, H. by apply list_elem_of_In.
Qed.

Lemma length_filter_le {A} (P : A -> Prop) `{!forall a, Decision (P a)} (l : list A) :
  Z.of_nat (length (filter P l)) <= Z.of_nat (length l).
Proof. apply sublist_len, sublist_filter. Qed.

Lemma Forall_filter_keep {A} (Q P : A -> Prop) `{!forall a, Decision (P a)}
    (l : list A) :
  Forall Q l -> Forall Q (filter P l).
Proof.
  rewrite !Forall_forall. intros HQ a [_ Ha]%list_elem_of_filter. by apply HQ.
Qed.

Lemma filter_idem {A} (P : A -> Prop) `{!forall a, Decision (P a)} (l : list A) :
  filter P (filter P l) = filter P l.
Proof.
  rewrite list_filter_filter. apply list_filter_iff. tauto.
Qed.

(** X3. Null removal never raises. It keeps, in order, exactly the records
    that have no missing cell in any column of the batch, sets the counter
    to the number of records dropped, and run again on its result drops
    nothing. *)
Theorem remove_nulls_spec (df : DataFrame) (s s2 : state) :
  exists out,
    remove_nulls df s =
      ({| metrics := <["null_values_removed" := SInt (len df - len out)]> (metrics s);
          s3 := s3 s |}, Ok out)
    /\ columns out = columns df
    /\ sublist (rows out) (rows df)
    /\ (forall r, r ∈ rows out <->
          r ∈ rows df /\ forall c, c ∈ columns df -> isna (cell r c) = false)
    /\ 0 <= len df - len out
    /\ remove_nulls out s2 =
         ({| metrics := <["null_values_removed" := SInt 0]> (metrics s2);
             s3 := s3 s2 |}, Ok out).
Proof.
  assert (forall d, dropna d (columns d) =
            Ok {| columns := columns d;
                  rows := filter (fun r => complete (columns d) r = true) (rows d) |})
    as Hd.
  { intros d. apply dropna_present. by apply Forall_forall. }
  eexists. unfold remove_nulls. rewrite (bind_lift _ _ _ _ (Hd df)).
  split; [reflexivity|]. cbn [columns rows]. split; [done|].
  split; [apply sublist_filter|]. split; [|split].
  - intros r. rewrite list_elem_of_filter, complete_spec. tauto.
  - unfold len. cbn [rows].
    pose proof (length_filter_le (fun r => complete (columns df) r = true) (rows df)).
    lia.
  - erewrite bind_lift; cycle 1.
    { apply dropna_present. cbn [columns]. by apply Forall_forall. }
    cbn [columns rows]. rewrite bind_set_metric. unfold ret, len. cbn [rows].
    by rewrite filter_idem, Z.sub_diag.
Qed.

(** ** Types *)

Lemma Forall2_elem_of_r {A B} (P : A -> B -> Prop) l k y :
  Forall2 P l k -> y ∈ k -> exists x, x ∈ l /\ P x y.
Proof.
  intros H [i Hi]%list_elem_of_lookup.
  destruct (Forall2_lookup_r _ _ _ _ _ H Hi) as (x & Hx & HP).
  exists x. split; [by eapply list_elem_of_lookup_2 | done].
Qed.

Lemma traverse_Raise {A B} (f : A -> result B) (l : list A) (a : A) (e : exn) :
  a ∈ l -> f a = Raise e ->
  (forall a' e', f a' = Raise e' -> e' = e) ->
  traverse f l = Raise e.
Proof.
  intros Ha Hf Hall. induction l as [|a0 l IH]; [by apply elem_of_nil in Ha|].
  simpl. destruct (f a0) as [b|e0] eqn:E0; simpl.
  - apply elem_of_cons in Ha as [->|Ha]; [congruence|].
    by rewrite IH.
  - by rewrite (Hall _ _ E0).
Qed.

Lemma astype_Int64_Raise v e : astype_Int64 v = Raise e -> e = TypeError.
Proof.
  destruct v; simpl; try congruence.
  destruct (is_nan f); [done|]. destruct (float_to_Z f); [|congruence].
  destruct (_ && _); congruence.
Qed.

Lemma astype_Int64_Ok v w :
  astype_Int64 v = Ok w -> (exists z, w = SInt z) \/ w = SNA.
Proof.
  destruct v; simpl; try congruence.
  - intros [= <-]. eauto.
  - destruct (is_nan f); [intros [= <-]; by right|].
    destruct (float_to_Z f); [|done].
    destruct (_ && _); [|done]. intros [= <-]. eauto.
  - intros [= <-]. by right.
Qed.

Lemma to_numeric_number f v :
  isna (to_numeric f v) = false ->
  exists p, num (to_numeric f v) = Ok p /\ is_nan p = false.
Proof.
  destruct v as [t|z|x|b| | |]; simpl; try done.
  - destruct (f t) as [[z|x]|]; simpl; [| |done].
    + intros _. eexists. split; [done | apply Z_to_float_not_nan].
    + eauto.
  - intros _. eexists. split; [done | apply Z_to_float_not_nan].
  - eauto.
  - intros _. eexists. split; [done | apply Z_to_float_not_nan].
Qed.

Section Types.

Variable str_to_number : string -> option (Z + float).

Lemma retype_rows (rs : list (gmap string scalar)) qs :
  traverse astype_Int64
    (to_numeric str_to_number <$> ((fun r => cell r "quantity") <$> rs)) = Ok qs ->
  traverse (retyped str_to_number) rs =
    Ok ((fun r => <["price" := to_numeric str_to_number (cell r "price")]> r)
          <$> zip_with (fun r v => <["quantity" := v]> r) rs qs).
Proof.
  revert qs. induction rs as [|r rs IH]; intros qs; csimpl.
  - by intros [= <-].
  - intros H. inv_ok H. unfold retyped at 1. rewrite Hstep. cbn [rbind].
    rewrite (IH _ Hstep0). csimpl. by rewrite cell_insert_ne.
Qed.

Lemma validate_data_types_Ok df s s' out :
  validate_data_types str_to_number df s = (s', Ok out) ->
  s' = s /\ "quantity" ∈ columns df /\ "price" ∈ columns df
  /\ exists rs,
       traverse (retyped str_to_number) (rows df) = Ok rs
       /\ out = {| columns := columns df;
                   rows := filter (fun r => complete ["quantity"; "price"] r = true) rs |}.
Proof.
  unfold validate_data_types. intros H. inv_ok H.
  apply getitem_Ok in Hstep as [Hq ->].
  apply getitem_Ok in Hstep1 as [Hp ->].
  apply dropna_Ok in H as [_ ->].
  assert ("price" ∈ columns df) as Hp'.
  { unfold setitem in Hp. cbn [columns] in Hp. by rewrite decide_True in Hp. }
  split; [done|]. split; [done|]. split; [done|].
  eexists. split; [by apply retype_rows|].
  unfold setitem. cbn [columns rows]. rewrite !decide_True by done.
  f_equal. f_equal.
  by rewrite <- list_fmap_compose, zip_with_fmap_r, zip_with_diag.
Qed.

Lemma retyped_Ok r r' :
  retyped str_to_number r = Ok r' ->
  astype_Int64 (to_numeric str_to_number (cell r "quantity")) = Ok (cell r' "quantity")
  /\ cell r' "price" = to_numeric str_to_number (cell r "price")
  /\ forall c, c ≠ "quantity" -> c ≠ "price" -> r' !! c = r !! c.
Proof.
  unfold retyped. intros H. inv_ok H.
  rewrite cell_insert_eq, cell_insert_ne, cell_insert_eq by done.
  split; [done|]. split; [done|]. intros c H1 H2.
  by rewrite !lookup_insert_ne.
Qed.

Lemma retyped_typed r r' :
  retyped str_to_number r = Ok r' ->
  complete ["quantity"; "price"] r' = true -> typed_record r'.
Proof.
  intros (Hq & Hp & _)%retyped_Ok Hc. rewrite complete_spec in Hc.
  split.
  - destruct (astype_Int64_Ok _ _ Hq) as [[z Hz]|Hna]; [eauto|].
    assert (isna (cell r' "quantity") = false) as Hn
      by (apply Hc; by left).
    by rewrite Hna in Hn.
  - rewrite Hp. apply to_numeric_number. rewrite <- Hp. apply Hc.
    right. by left.
Qed.

(** X4. When the type step returns, it has left the metrics and the bucket
    alone and kept the columns; its records are the incoming ones with the
    quantity cast to an integer and the price read as a number, other cells
    untouched, less those where either came out missing; so every record it
    returns has an integer quantity and a price that is a number. *)
Theorem validate_data_types_spec (df out : DataFrame) (s s' : state) :
  validate_data_types str_to_number df s = (s', Ok out) ->
  s' = s /\ columns out = columns df
  /\ (exists rs,
        Forall2 (fun r r' =>
                   astype_Int64 (to_numeric str_to_number (cell r "quantity"))
                     = Ok (cell r' "quantity")
                   /\ cell r' "price" = to_numeric str_to_number (cell r "price")
                   /\ forall c, c ≠ "quantity" -> c ≠ "price" -> r' !! c = r !! c)
          (rows df) rs
        /\ rows out = filter (fun r => complete ["quantity"; "price"] r = true) rs)
  /\ Forall typed_record (rows out).
Proof.
  intros (-> & _ & _ & rs & Hrs & ->)%validate_data_types_Ok.
  split; [done|]. split; [done|]. apply traverse_Forall2 in Hrs.
  split.
  - exists rs. split; [|done].
    eapply Forall2_impl; [exact Hrs|]. intros r r'. apply retyped_Ok.
  - cbn [rows]. apply Forall_forall. intros r' [Hc Hin]%list_elem_of_filter.
    destruct (Forall2_elem_of_r _ _ _ _ Hrs Hin) as (r & _ & Hr).
    by eapply retyped_typed.
Qed.

(** X5. A quantity that is a number but not a whole one cannot be cast:
    the type step raises [TypeError] and the whole batch is refused. *)
Theorem validate_data_types_fractional_quantity (df : DataFrame) (s : state)
    (r : gmap string scalar) (x : float) :
  "quantity" ∈ columns df ->
  r ∈ rows df -> cell r "quantity" = SFloat x ->
  is_nan x = false -> float_to_Z x = None ->
  validate_data_types str_to_number df s = (s, Raise TypeError).
Proof.
  intros Hq Hr Hx Hn Hz. unfold validate_data_types.
  rewrite (bind_lift _ _ _ _ (getitem_present _ _ Hq)).
  rewrite (traverse_Raise astype_Int64 _ (SFloat x) TypeError); [done| | |].
  - apply list_elem_of_fmap. exists (SFloat x). split; [done|].
    apply list_elem_of_fmap. by exists r.
  - simpl. by rewrite Hn, Hz.
  - apply astype_Int64_Raise.
Qed.

End Types.

(** ** Dates *)

Lemma parse_iso_date_valid s d : parse_iso_date s = Some d -> valid_date d = true.
Proof.
  unfold parse_iso_date. intros H.
  repeat case_match; try done.
  repeat match type of H with
  | context [digit ?a] => destruct (digit a); simpl in H; [|done]
  end.
  match type of H with
  | context [valid_date ?D] => destruct (valid_date D) eqn:E; [|done]
  end.
  by injection H as <-.
Qed.

Section Dates.

Variable flex_datetime : scalar -> option date.

Lemma to_datetime_cases v :
  (exists d, to_datetime flex_datetime v = SDate d)
  \/ to_datetime flex_datetime v = SNA.
Proof.
  destruct v as [t| | | |d| |]; simpl; eauto.
  - destruct (parse_iso_date t); [eauto|].
    destruct (flex_datetime (SStr t)); simpl; eauto.
  - destruct (flex_datetime (SInt z)); simpl; eauto.
  - destruct (flex_datetime (SFloat f)); simpl; eauto.
  - destruct (flex_datetime (SBool b)); simpl; eauto.
  - destruct (flex_datetime (SRank q)); simpl; eauto.
Qed.

Lemma redate_rows (rs : list (gmap string scalar)) :
  exists strs,
    traverse dt_strftime
      ((fun r => cell r "date") <$>
         filter (fun r => complete ["date"] r = true)
           ((fun r => <["date" := to_datetime flex_datetime (cell r "date")]> r)
              <$> rs)) = Ok strs
    /\ zip_with (fun r v => <["date" := v]> r)
         (filter (fun r => complete ["date"] r = true)
            ((fun r => <["date" := to_datetime flex_datetime (cell r "date")]> r)
               <$> rs)) strs
       = omap (redated flex_datetime) rs.
Proof.
  induction rs as [|r rs (strs & IH1 & IH2)]; csimpl; [by exists []|].
  unfold redated at 1.
  destruct (to_datetime_cases (cell r "date")) as [[d Hd]|Hd]; rewrite Hd.
  - rewrite filter_cons_True
      by (unfold complete; simpl; by rewrite cell_insert_eq).
    csimpl. rewrite cell_insert_eq. simpl. rewrite IH1. simpl.
    eexists. split; [done|]. csimpl. by rewrite insert_insert_eq, IH2.
  - rewrite filter_cons_False
      by (unfold complete; simpl; by rewrite cell_insert_eq).
    by exists strs.
Qed.

Lemma validate_dates_run df s :
  "date" ∈ columns df ->
  validate_dates flex_datetime df s =
    (s, Ok {| columns := columns df;
              rows := omap (redated flex_datetime) (rows df) |}).
Proof.
  intros Hd. unfold validate_dates.
  rewrite (bind_lift _ _ _ _ (getitem_present _ _ Hd)).
  rewrite <- list_fmap_compose, setitem_fmap.
  assert ("date" ∈ columns (setcol df "date"
            (to_datetime flex_datetime ∘ (fun r => cell r "date")))) as Hd'
    by (apply elem_of_columns_setcol; by left).
  erewrite bind_lift; cycle 1.
  { apply dropna_present. by repeat constructor. }
  erewrite bind_lift; cycle 1.
  { apply getitem_present. by cbn [columns]. }
  destruct (redate_rows (rows df)) as (strs & H1 & H2).
  cbn [rows]. unfold setcol at 1. cbn [rows]. unfold compose.
  rewrite (bind_lift _ _ _ _ H1). unfold ret, setitem. cbn [columns rows].
  unfold setcol. cbn [columns rows]. rewrite !decide_True by done.
  by rewrite H2.
Qed.

Lemma redated_Some r r' :
  redated flex_datetime r = Some r' ->
  exists d, to_datetime flex_datetime (cell r "date") = SDate d
            /\ r' = <["date" := SStr (strftime_ymd d)]> r.
Proof.
  unfold redated. destruct (to_datetime _ _); try done. intros [= <-]. eauto.
Qed.

(** X6. The date step never raises on a batch that has a [date] column and
    leaves the metrics and the bucket alone. It drops the records whose date
    does not read as one and keeps the others in order, each with its date
    rewritten as [YYYY-MM-DD] and every other cell untouched. *)
Theorem validate_dates_spec (df : DataFrame) (s : state) :
  "date" ∈ columns df ->
  exists out,
    validate_dates flex_datetime df s = (s, Ok out)
    /\ columns out = columns df
    /\ rows out = omap (redated flex_datetime) (rows df)
    /\ Forall (fun r' => exists r d,
                 r ∈ rows df
                 /\ to_datetime flex_datetime (cell r "date") = SDate d
                 /\ r' !! "date" = Some (SStr (strftime_ymd d))
                 /\ forall c, c ≠ "date" -> r' !! c = r !! c) (rows out)
    /\ len out = count_if (fun r => negb (isna (to_datetime flex_datetime (cell r "date"))))
                   (rows df).
Proof.
  intros Hd. eexists. split; [by apply validate_dates_run|].
  cbn [columns rows]. split; [done|]. split; [done|]. split.
  - apply Forall_forall. intros r' (r & Hr & Hrr)%list_elem_of_omap.
    apply redated_Some in Hrr as (d & Hdt & ->).
    exists r, d. split; [done|]. split; [done|].
    split; [by rewrite lookup_insert_eq|].
    intros c Hc. by rewrite lookup_insert_ne.
  - unfold len, count_if. cbn [rows]. f_equal.
    induction (rows df) as [|r rs IH]; [done|]. csimpl. unfold redated at 1.
    destruct (to_datetime_cases (cell r "date")) as [[d E]|E]; rewrite E; simpl.
    + rewrite filter_cons_True by (by rewrite E). simpl. by rewrite IH.
    + rewrite filter_cons_False by (by rewrite E). done.
Qed.

(** X7. The date step is idempotent on dates a [Timestamp] can hold: run
    on its own result it returns that result. *)
Theorem validate_dates_idempotent (df out : DataFrame) (s s1 s2 : state) :
  Forall (fun r => forall d, to_datetime flex_datetime (cell r "date") = SDate d ->
                             valid_date d = true) (rows df) ->
  validate_dates flex_datetime df s = (s1, Ok out) ->
  validate_dates flex_datetime out s2 = (s2, Ok out).
Proof.
  intros Hvalid H.
  assert ("date" ∈ columns df) as Hd.
  { unfold validate_dates in H. inv_ok H. by apply getitem_Ok in Hstep as [? _]. }
  rewrite validate_dates_run in H by done. injection H as _ <-.
  rewrite validate_dates_run by done. cbn [columns rows]. do 3 f_equal.
  induction Hvalid as [|r rs Hr _ IH]; [done|]. csimpl.
  destruct (redated flex_datetime r) as [r'|] eqn:E; [|done]. csimpl.
  rewrite IH. apply redated_Some in E as (d & Hdt & ->).
  unfold redated. rewrite cell_insert_eq. simpl.
  rewrite (parse_strftime d (Hr d Hdt)). by rewrite insert_insert_eq.
Qed.

End Dates.

(** ** Business rules: the counters against the records dropped *)

Lemma typed_record_numeric r :
  typed_record r -> numeric "quantity" r /\ numeric "price" r.
Proof.
  intros [[q Hq] [p [Hp _]]]. unfold numeric, has_cell, is_num.
  rewrite Hq. simpl. eauto.
Qed.

(** The masks the step computes, on a typed record. *)
Lemma business_rule_masks r :
  typed_record r ->
  num_ltb (cell r "quantity") (SInt MIN_QUANTITY)
    || num_ltb (SInt MAX_QUANTITY) (cell r "quantity") = negb (quantity_in_bounds r)
  /\ num_ltb (cell r "price") (SFloat MIN_PRICE)
     || num_ltb (SFloat MAX_PRICE) (cell r "price") = negb (price_in_bounds r)
  /\ isin (SStr <$> VALID_REGIONS) (cell r "region") = region_valid r
  /\ num_leb (SInt MIN_QUANTITY) (cell r "quantity")
     && num_leb (cell r "quantity") (SInt MAX_QUANTITY)
     && num_leb (SFloat MIN_PRICE) (cell r "price")
     && num_leb (cell r "price") (SFloat MAX_PRICE)
     && isin (SStr <$> VALID_REGIONS) (cell r "region")
     = quantity_in_bounds r && price_in_bounds r && region_valid r.
Proof.
  intros [[q Hq] [p [Hp Hnan]]].
  unfold quantity_in_bounds, price_in_bounds, region_valid.
  rewrite Hq, Hp, isin_strings.
  rewrite (num_ltb_float_r _ _ _ Hp), (num_ltb_float_l _ _ _ Hp),
    (num_leb_float_r _ _ _ Hp), (num_leb_float_l _ _ _ Hp).
  rewrite (leb_negb_ltb MIN_PRICE p), (leb_negb_ltb p MAX_PRICE) by done.
  simpl. repeat split.
  - destruct (Z.ltb_spec q MIN_QUANTITY), (Z.ltb_spec MAX_QUANTITY q),
      (Z.leb_spec MIN_QUANTITY q), (Z.leb_spec q MAX_QUANTITY); simpl; lia.
  - by rewrite negb_andb, !negb_involutive.
  - by rewrite !andb_assoc.
Qed.

Lemma scalar_test_col (f : scalar -> result bool) (g : gmap string scalar -> bool)
    (rs : list (gmap string scalar)) c :
  Forall (fun r => f (cell r c) = Ok (g r)) rs ->
  traverse f ((fun r => cell r c) <$> rs) = Ok (g <$> rs).
Proof. apply traverse_fmap_fmap. Qed.

Lemma lt_scalar_numeric v w :
  is_num v -> is_num w -> lt_scalar v w = Ok (num_ltb v w).
Proof. intros [x Hx] [y Hy]. unfold lt_scalar. by rewrite Hx, Hy. Qed.

Lemma le_scalar_numeric v w :
  is_num v -> is_num w -> le_scalar v w = Ok (num_leb v w).
Proof. intros [x Hx] [y Hy]. unfold le_scalar. by rewrite Hx, Hy. Qed.

Lemma validate_business_rules_typed (df : DataFrame) (s : state) :
  "quantity" ∈ columns df -> "price" ∈ columns df -> "region" ∈ columns df ->
  Forall typed_record (rows df) ->
  validate_business_rules df s =
    ({| metrics :=
          <["invalid_region" :=
              SInt (count_if (fun r => negb (region_valid r)) (rows df))]>
          (<["invalid_price" :=
              SInt (count_if (fun r => negb (price_in_bounds r)) (rows df))]>
          (<["invalid_quantity" :=
              SInt (count_if (fun r => negb (quantity_in_bounds r)) (rows df))]>
           (metrics s)));
        s3 := s3 s |},
     Ok {| columns := columns df;
           rows := filter (fun r => quantity_in_bounds r && price_in_bounds r
                                    && region_valid r = true) (rows df) |}).
Proof.
  intros Hq Hp Hr Hty. unfold validate_business_rules.
  assert (Forall (numeric "quantity") (rows df)) as Hnq
    by (eapply Forall_impl; [exact Hty|]; by intros r [? _]%typed_record_numeric).
  assert (Forall (numeric "price") (rows df)) as Hnp
    by (eapply Forall_impl; [exact Hty|]; by intros r [_ ?]%typed_record_numeric).
  assert (forall z, is_num (SInt z)) as Hint by (intros z; by eexists).
  assert (forall x, is_num (SFloat x)) as Hfl by (intros x; by eexists).
  rewrite (bind_lift _ _ _ _ (getitem_present _ _ Hq)).
  erewrite bind_lift; cycle 1.
  { apply (scalar_test_col _ (fun r => num_ltb (cell r "quantity") (SInt MIN_QUANTITY))).
    eapply Forall_impl; [exact Hnq|]. intros r Hn. by apply lt_scalar_numeric. }
  erewrite bind_lift; cycle 1.
  { apply (scalar_test_col _ (fun r => num_ltb (SInt MAX_QUANTITY) (cell r "quantity"))).
    eapply Forall_impl; [exact Hnq|]. intros r Hn. by apply lt_scalar_numeric. }
  rewrite bind_set_metric.
  rewrite (bind_lift _ _ _ _ (getitem_present _ _ Hp)).
  erewrite bind_lift; cycle 1.
  { apply (scalar_test_col _ (fun r => num_ltb (cell r "price") (SFloat MIN_PRICE))).
    eapply Forall_impl; [exact Hnp|]. intros r Hn. by apply lt_scalar_numeric. }
  erewrite bind_lift; cycle 1.
  { apply (scalar_test_col _ (fun r => num_ltb (SFloat MAX_PRICE) (cell r "price"))).
    eapply Forall_impl; [exact Hnp|]. intros r Hn. by apply lt_scalar_numeric. }
  rewrite bind_set_metric.
  rewrite (bind_lift _ _ _ _ (getitem_present _ _ Hr)).
  rewrite bind_set_metric.
  erewrite bind_lift; cycle 1.
  { apply (scalar_test_col _ (fun r => num_leb (SInt MIN_QUANTITY) (cell r "quantity"))).
    eapply Forall_impl; [exact Hnq|]. intros r Hn. by apply le_scalar_numeric. }
  erewrite bind_lift; cycle 1.
  { apply (scalar_test_col _ (fun r => num_leb (cell r "quantity") (SInt MAX_QUANTITY))).
    eapply Forall_impl; [exact Hnq|]. intros r Hn. by apply le_scalar_numeric. }
  erewrite bind_lift; cycle 1.
  { apply (scalar_test_col _ (fun r => num_leb (SFloat MIN_PRICE) (cell r "price"))).
    eapply Forall_impl; [exact Hnp|]. intros r Hn. by apply le_scalar_numeric. }
  erewrite bind_lift; cycle 1.
  { apply (scalar_test_col _ (fun r => num_leb (cell r "price") (SFloat MAX_PRICE))).
    eapply Forall_impl; [exact Hnp|]. intros r Hn. by apply le_scalar_numeric. }
  unfold ret. rewrite <- !list_fmap_compose, !zip_with_fmap_same, !len_loc_fmap.
  unfold loc. rewrite boolean_index_fmap. cbn [metrics s3]. unfold compose.
  assert (Forall (fun r => _) (rows df)) as Hm
    by (eapply Forall_impl; [exact Hty | exact business_rule_masks]).
  rewrite (count_if_ext_Forall (fun r => negb (isin _ _)) (fun r => negb (region_valid r)));
    cycle 1.
  { eapply Forall_impl; [exact Hm|]. cbv beta. by intros r (_ & _ & -> & _). }
  rewrite (count_if_ext_Forall (fun r => num_ltb (cell r "price") _ || _)
             (fun r => negb (price_in_bounds r))); cycle 1.
  { eapply Forall_impl; [exact Hm|]. by intros r (_ & H & _). }
  rewrite (count_if_ext_Forall (fun r => num_ltb (cell r "quantity") _ || _)
             (fun r => negb (quantity_in_bounds r))); cycle 1.
  { eapply Forall_impl; [exact Hm|]. by intros r (H & _). }
  rewrite (filter_ext_Forall _
             (fun r => quantity_in_bounds r && price_in_bounds r && region_valid r));
    [done|].
  eapply Forall_impl; [exact Hm|]. by intros r (_ & _ & _ & H).
Qed.

Lemma count_if_negb {A} (p : A -> bool) l :
  count_if p l + count_if (fun a => negb (p a)) l = Z.of_nat (length l).
Proof.
  induction l as [|a l IH]; [done|]. rewrite !count_if_cons. simpl length.
  destruct (p a); simpl; lia.
Qed.

Lemma count_if_union3 {A} (p q r : A -> bool) l :
  count_if (fun a => negb (p a && q a && r a)) l
  <= count_if (fun a => negb (p a)) l + count_if (fun a => negb (q a)) l
     + count_if (fun a => negb (r a)) l.
Proof.
  induction l as [|a l IH]; [done|]. rewrite !count_if_cons.
  destruct (p a), (q a), (r a); simpl; lia.
Qed.

Lemma len_filter (p : gmap string scalar -> bool) df :
  Z.of_nat (length (filter (fun r => p r = true) (rows df))) = count_if p (rows df).
Proof. done. Qed.

(** X8. On typed records, the three counters bound the number of records
    the business-rule step drops: each counter is at most that number, and
    that number is at most their sum (a record that breaks two rules is
    counted twice and dropped once). *)
Theorem validate_business_rules_counters (df : DataFrame) (s : state) :
  "quantity" ∈ columns df -> "price" ∈ columns df -> "region" ∈ columns df ->
  Forall typed_record (rows df) ->
  exists s' out nq np nr,
    validate_business_rules df s = (s', Ok out)
    /\ metrics s' !! "invalid_quantity" = Some (SInt nq)
    /\ metrics s' !! "invalid_price" = Some (SInt np)
    /\ metrics s' !! "invalid_region" = Some (SInt nr)
    /\ sublist (rows out) (rows df)
    /\ nq <= len df - len out /\ np <= len df - len out /\ nr <= len df - len out
    /\ len df - len out <= nq + np + nr.
Proof.
  intros Hq Hp Hr Hty. eexists _, _, _, _, _.
  split; [by apply validate_business_rules_typed|]. cbn [metrics rows].
  split; [by rewrite !lookup_insert_ne, lookup_insert_eq by done|].
  split; [by rewrite !lookup_insert_ne, lookup_insert_eq by done|].
  split; [by rewrite lookup_insert_eq|].
  split; [apply sublist_filter|].
  unfold len. cbn [rows]. rewrite len_filter.
  pose proof (count_if_negb
    (fun r => quantity_in_bounds r && price_in_bounds r && region_valid r) (rows df)) as Hn.
  pose proof (count_if_union3 quantity_in_bounds price_in_bounds region_valid (rows df)) as Hu.
  assert (forall (p : gmap string scalar -> bool),
            (forall r, quantity_in_bounds r && price_in_bounds r && region_valid r = true ->
                       p r = true) ->
            count_if (fun r => negb (p r)) (rows df)
            <= count_if (fun r => negb (quantity_in_bounds r && price_in_bounds r
                                        && region_valid r)) (rows df)) as Hmono.
  { intros p Hp'. apply count_if_mono, Forall_forall. intros r _.
    specialize (Hp' r).
    destruct (quantity_in_bounds r && price_in_bounds r && region_valid r); simpl.
    - by rewrite Hp'.
    - done. }
  assert (count_if (fun r => negb (quantity_in_bounds r)) (rows df) <= _) as H1
    by (apply (Hmono quantity_in_bounds); by intros r [[? _]%andb_prop _]%andb_prop).
  assert (count_if (fun r => negb (price_in_bounds r)) (rows df) <= _) as H2
    by (apply (Hmono price_in_bounds); by intros r [[_ ?]%andb_prop _]%andb_prop).
  assert (count_if (fun r => negb (region_valid r)) (rows df) <= _) as H3
    by (apply (Hmono region_valid); by intros r [_ ?]%andb_prop).
  repeat split; lia.
Qed.

Lemma count_if_none {A} (p : A -> bool) l :
  Forall (fun a => p a = false) l -> count_if p l = 0.
Proof.
  induction 1 as [|a l H _ IH]; [done|]. rewrite count_if_cons, H, IH. done.
Qed.

(** X9. The business-rule step is idempotent on typed records: run on its
    own result it keeps every record and sets the three counters to zero. *)
Theorem validate_business_rules_idempotent (df out : DataFrame) (s s1 s2 : state) :
  "quantity" ∈ columns df -> "price" ∈ columns df -> "region" ∈ columns df ->
  Forall typed_record (rows df) ->
  validate_business_rules df s = (s1, Ok out) ->
  validate_business_rules out s2 =
    ({| metrics := <["invalid_region" := SInt 0]>
                     (<["invalid_price" := SInt 0]>
                        (<["invalid_quantity" := SInt 0]> (metrics s2)));
        s3 := s3 s2 |}, Ok out).
Proof.
  intros Hq Hp Hr Hty H.
  rewrite validate_business_rules_typed in H by done. injection H as _ <-.
  rewrite validate_business_rules_typed; cbn [columns rows]; try done; cycle 1.
  { by apply Forall_filter_keep. }
  rewrite filter_idem.
  rewrite !count_if_none; [done|..]; apply Forall_forall;
    intros r [Hk _]%list_elem_of_filter;
    apply andb_prop in Hk as [[H1 H2]%andb_prop H3]; by rewrite ?H1, ?H2, ?H3.
Qed.

(** ** The validator run, taken apart *)

Lemma get_metric_Ok k s s' v :
  get_metric k s = (s', Ok v) -> s' = s /\ metrics s !! k = Some v.
Proof.
  unfold get_metric. destruct (metrics s !! k); [|done]. by intros [= <- <-].
Qed.

Lemma read_from_s3_Ok k s s' df :
  read_from_s3 k s = (s', Ok df) -> s' = s /\ s3 s !! k = Some df.
Proof.
  unfold read_from_s3. destruct (s3 s !! k); [|done]. by intros [= <- <-].
Qed.

Lemma validate_schema_Ok df s s' out :
  validate_schema df s = (s', Ok out) ->
  s' = s /\ Forall (fun c => c ∈ columns df) REQUIRED_COLUMNS
  /\ out = {| columns := REQUIRED_COLUMNS; rows := project <$> rows df |}.
Proof.
  unfold validate_schema. case_decide as Hm.
  - apply missing_cols_empty in Hm. rewrite getitems_present by done.
    intros [-> [= <-]]%lift_Ok. done.
  - unfold bind, get_metric, lift, set_metric, raise.
    destruct (metrics s !! "schema_errors") as [n|]; [|done].
    by destruct (py_add n (SInt 1)).
Qed.

Lemma remove_duplicates_Ok df s s' out :
  remove_duplicates df s = (s', Ok out) ->
  out = {| columns := columns df;
           rows := keep_first "transaction_id" [] (rows df) |}
  /\ s' = {| metrics := <["duplicates_removed" := SInt (len df - len out)]> (metrics s);
             s3 := s3 s |}.
Proof.
  unfold remove_duplicates, drop_duplicates.
  destruct (getitem df "transaction_id"); [|done]. cbn. by intros [= <- <-].
Qed.

Lemma remove_nulls_Ok df s s' out :
  remove_nulls df s = (s', Ok out) ->
  out = {| columns := columns df;
           rows := filter (fun r => complete (columns df) r = true) (rows df) |}
  /\ s' = {| metrics := <["null_values_removed" := SInt (len df - len out)]> (metrics s);
             s3 := s3 s |}.
Proof.
  unfold remove_nulls. rewrite (bind_lift _ _ _ _ (dropna_present df (columns df)
    ltac:(by apply Forall_forall))).
  rewrite bind_set_metric. unfold ret. by intros [= <- <-].
Qed.

Lemma cell_project r c : c ∈ REQUIRED_COLUMNS -> cell (project r) c = cell r c.
Proof.
  intros Hc. unfold cell, project. rewrite project_lookup. by rewrite decide_True.
Qed.

Section Run.

Variable str_to_number : string -> option (Z + float).
Variable flex_datetime : scalar -> option date.
Variable builtin_round2 : float -> float.
Variable elapsed : float.

Lemma redated_cell r r' c :
  redated flex_datetime r = Some r' -> c <> "date" -> r' !! c = r !! c.
Proof.
  intros (d & _ & ->)%redated_Some Hc. by rewrite lookup_insert_ne.
Qed.

Lemma redated_typed r r' :
  redated flex_datetime r = Some r' -> typed_record r -> typed_record r'.
Proof.
  intros H. unfold typed_record, cell.
  by rewrite !(redated_cell _ _ _ H).
Qed.

Lemma retyped_rows_typed rs0 rs :
  traverse (retyped str_to_number) rs0 = Ok rs ->
  Forall typed_record
    (omap (redated flex_datetime)
       (filter (fun r => complete ["quantity"; "price"] r = true) rs)).
Proof.
  intros Hrs%traverse_Forall2. apply Forall_forall.
  intros r' (r1 & [Hc Hin]%list_elem_of_filter & Hr)%list_elem_of_omap.
  apply (redated_typed _ _ Hr).
  destruct (Forall2_elem_of_r _ _ _ _ Hrs Hin) as (r0 & _ & H0).
  by eapply retyped_typed.
Qed.

Lemma bind_run {A B} (m : M A) (k : A -> M B) s s1 a :
  m s = (s1, Ok a) -> bind m k s = k a s1.
Proof. intros H. unfold bind. by rewrite H. Qed.

Lemma bind_write_to_s3 {B} df k (f : unit -> M B) s :
  bind (write_to_s3 df k) f s =
    f tt {| metrics := metrics s; s3 := <[k := df]> (s3 s) |}.
Proof. reflexivity. Qed.

Lemma bind_get_metric {B} k v (f : scalar -> M B) s :
  metrics s !! k = Some v -> bind (get_metric k) f s = f v s.
Proof. intros H. unfold bind, get_metric. by rewrite H. Qed.

(** A successful run, step by step. *)
Lemma process_file_Ok_inv input_key output_key s s' m :
  process_file str_to_number flex_datetime builtin_round2 elapsed
    input_key output_key s = (s', Ok m) ->
  exists raw clean,
    s3 s !! input_key = Some raw
    /\ Forall (fun c => c ∈ columns raw) REQUIRED_COLUMNS
    /\ cleaned str_to_number flex_datetime raw = Ok clean
    /\ len raw <> 0
    /\ m = metrics s'
    /\ s3 s' = <[output_key := clean]> (s3 s)
    /\ m !! "total_records" = Some (SInt (len raw))
    /\ m !! "valid_records" = Some (SInt (len clean))
    /\ m !! "duplicates_removed"
       = Some (SInt (len raw - Z.of_nat (length (without_duplicates raw))))
    /\ m !! "null_values_removed"
       = Some (SInt (Z.of_nat (length (without_duplicates raw))
                     - Z.of_nat (length (without_nulls raw))))
    /\ m !! "rejection_rate_percent"
       = Some (SFloat (builtin_round2
                 (Z_to_float (len raw - len clean) / Z_to_float (len raw) * 100)))
    /\ m !! "processing_time_seconds" = Some (SFloat elapsed)
    /\ (exists nq np nr,
          m !! "invalid_quantity" = Some (SInt nq)
          /\ m !! "invalid_price" = Some (SInt np)
          /\ m !! "invalid_region" = Some (SInt nr)).
Proof.
  intros H. unfold process_file in H.
  apply bind_Ok in H as (s1 & raw & Hread & H).
  apply read_from_s3_Ok in Hread as [-> Hraw].
  rewrite bind_set_metric in H.
  apply bind_Ok in H as (s1 & df1 & H1 & H).
  apply validate_schema_Ok in H1 as (-> & Hcols & ->).
  apply bind_Ok in H as (s1 & df2 & H2 & H).
  apply remove_duplicates_Ok in H2 as [-> ->].
  apply bind_Ok in H as (s1 & df3 & H3 & H).
  apply remove_nulls_Ok in H3 as [-> ->].
  apply bind_Ok in H as (s1 & df4 & H4 & H).
  apply validate_data_types_Ok in H4 as (-> & _ & _ & rs & Hrs & ->).
  cbn [columns rows metrics s3] in *.
  apply bind_Ok in H as (s1 & df5 & H5 & H).
  rewrite validate_dates_run in H5 by in_columns. injection H5 as <- <-.
  cbn [columns rows metrics s3] in *.
  apply bind_Ok in H as (s1 & df6 & H6 & H).
  rewrite validate_business_rules_typed in H6;
    [|in_columns..|by eapply retyped_rows_typed].
  injection H6 as <- <-. cbn [columns rows metrics s3] in *.
  rewrite bind_set_metric, bind_write_to_s3 in H. cbn [metrics s3] in H.
  rewrite (bind_get_metric "total_records" (SInt (len raw))) in H
    by (cbn [metrics]; by rewrite !lookup_insert_ne, lookup_insert_eq by done).
  erewrite (bind_get_metric "valid_records") in H
    by (cbn [metrics]; by rewrite lookup_insert_eq).
  erewrite bind_lift in H by reflexivity.
  rewrite (bind_get_metric "total_records" (SInt (len raw))) in H
    by (cbn [metrics]; by rewrite !lookup_insert_ne, lookup_insert_eq by done).
  unfold py_truediv in H. destruct (Z.eqb_spec (len raw) 0) as [|Hne]; [done|].
  erewrite bind_lift in H by reflexivity.
  rewrite !bind_set_metric in H. cbn [metrics s3] in H. injection H as <- <-.
  exists raw. eexists. split; [done|]. split; [done|].
  split; [unfold cleaned, without_nulls, without_duplicates; by rewrite Hrs|].
  split; [done|]. split; [done|]. cbn [metrics s3]. split; [done|].
  unfold without_nulls, without_duplicates, len. cbn [rows].
  rewrite length_fmap.
  repeat split;
    try (eexists _, _, _; repeat split);
    by rewrite ?lookup_insert_eq, ?lookup_insert_ne, ?lookup_insert_eq by done.
Qed.

(** ** What the validator writes *)

Lemma Forall_sublist_of {A} (P : A -> Prop) (l1 l2 : list A) :
  sublist l1 l2 -> Forall P l2 -> Forall P l1.
Proof.
  induction 1 as [|x l1 l2 _ IH|x l1 l2 _ IH]; [done|..];
    inversion 1; subst; [constructor|]; auto.
Qed.

Lemma distinct_on_sublist c l1 l2 :
  sublist l1 l2 -> distinct_on c l2 -> distinct_on c l1.
Proof.
  induction 1 as [|x l1 l2 Hs IH|x l1 l2 Hs IH]; [done|..];
    inversion 1; subst; [|by auto].
  constructor; [by eapply Forall_sublist_of | by auto].
Qed.

Lemma distinct_on_Forall2 c l k :
  Forall2 (fun r r' => cell r' c = cell r c) l k ->
  distinct_on c l -> distinct_on c k.
Proof.
  induction 1 as [|r r' l k Hr Hlk IH]; [done|].
  inversion 1 as [|? ? Hfresh Hd]; subst. constructor; [|by auto].
  rewrite Hr. clear -Hlk Hfresh.
  induction Hlk as [|x y l k Hxy _ IH]; [done|].
  inversion Hfresh; subst. constructor; [by rewrite Hxy | by auto].
Qed.

Lemma omap_sublist_Forall2 {A B} (f : A -> option B) (l : list A) :
  exists l', sublist l' l /\ Forall2 (fun a b => f a = Some b) l' (omap f l).
Proof.
  induction l as [|a l (l' & Hs & Hf)]; csimpl; [by exists []|].
  destruct (f a) as [b|] eqn:E.
  - exists (a :: l'). split; [by apply sublist_skip | by constructor].
  - exists l'. split; [by apply sublist_cons | done].
Qed.

Lemma length_omap_le {A B} (f : A -> option B) (l : list A) :
  Z.of_nat (length (omap f l)) <= Z.of_nat (length l).
Proof.
  destruct (omap_sublist_Forall2 f l) as (l' & Hs%sublist_len & Hf%Forall2_length).
  lia.
Qed.

Lemma cleaned_quality raw clean :
  cleaned str_to_number flex_datetime raw = Ok clean ->
  columns clean = REQUIRED_COLUMNS
  /\ distinct_on "transaction_id" (rows clean)
  /\ Forall clean_record (rows clean)
  /\ len clean <= Z.of_nat (length (without_nulls raw)).
Proof.
  unfold cleaned. intros H. inv_ok H. rename a into rs.
  cbn [columns rows]. split; [done|].
  pose proof Hstep as Hlen%traverse_length.
  apply traverse_Forall2 in Hstep.
  destruct (omap_sublist_Forall2 (redated flex_datetime)
              (filter (fun r => complete ["quantity"; "price"] r = true) rs))
    as (l' & Hsub & Hred).
  assert (sublist l' rs) as Hsub'
    by (etrans; [exact Hsub | apply sublist_filter]).
  split; [|split].
  - eapply distinct_on_sublist; [apply sublist_filter|].
    eapply (distinct_on_Forall2 _ l').
    { eapply Forall2_impl; [exact Hred|]. intros r r' Hr. unfold cell.
      by rewrite (redated_cell _ _ _ Hr). }
    eapply distinct_on_sublist; [exact Hsub'|].
    eapply (distinct_on_Forall2 _ (without_nulls raw)).
    { eapply Forall2_impl; [exact Hstep|]. intros r r' (_ & _ & Hr)%retyped_Ok.
      unfold cell. by rewrite Hr. }
    eapply distinct_on_sublist; [apply sublist_filter|].
    apply keep_first_distinct.
  - apply Forall_forall. intros r' [Hrule Hin]%list_elem_of_filter.
    apply list_elem_of_omap in Hin as (r1 & [Hc Hin]%list_elem_of_filter & Hr).
    destruct (Forall2_elem_of_r _ _ _ _ Hstep Hin) as (r0 & Hin0 & H0).
    apply list_elem_of_filter in Hin0 as [Hc0 _].
    pose proof (retyped_typed _ _ _ H0 Hc) as Hty.
    apply retyped_Ok in H0 as (_ & _ & Hsame).
    pose proof (redated_Some _ _ _ Hr) as (d & _ & ->).
    split; [|split; [by eapply redated_typed | split; [done|]]].
    + rewrite complete_spec in Hc0, Hc |- *. intros c Hreq.
      destruct (decide (c = "date")) as [->|Hd]; [by rewrite cell_insert_eq|].
      rewrite cell_insert_ne by done.
      destruct (decide (c = "quantity")) as [->|Hq]; [apply Hc; by left|].
      destruct (decide (c = "price")) as [->|Hp]; [apply Hc; right; by left|].
      unfold cell. rewrite Hsame by done. by apply Hc0.
    + exists d. by rewrite lookup_insert_eq.
  - unfold len. cbn [rows]. rewrite <- Hlen.
    etrans; [apply length_filter_le|]. etrans; [apply length_omap_le|].
    apply length_filter_le.
Qed.

(** X10. When the validator returns, the batch it read was not empty and
    the metrics it returns add up: the record count of the batch read, the
    record count of the batch written, the duplicates and the nulls
    removed, with valid + duplicates + nulls at most the total; the
    rejection rate is the rounded percentage of the records not written. *)
Theorem process_file_accounting input_key output_key (s s' : state)
    (m : gmap string scalar) :
  process_file str_to_number flex_datetime builtin_round2 elapsed
    input_key output_key s = (s', Ok m) ->
  exists raw clean dup nulls,
    s3 s !! input_key = Some raw
    /\ s3 s' = <[output_key := clean]> (s3 s)
    /\ m = metrics s'
    /\ m !! "total_records" = Some (SInt (len raw))
    /\ m !! "valid_records" = Some (SInt (len clean))
    /\ m !! "duplicates_removed" = Some (SInt dup)
    /\ m !! "null_values_removed" = Some (SInt nulls)
    /\ m !! "rejection_rate_percent"
       = Some (SFloat (builtin_round2
                 (Z_to_float (len raw - len clean) / Z_to_float (len raw) * 100)))
    /\ m !! "processing_time_seconds" = Some (SFloat elapsed)
    /\ 0 < len raw /\ 0 <= len clean /\ 0 <= dup /\ 0 <= nulls
    /\ len clean + dup + nulls <= len raw.
Proof.
  intros (raw & clean & Hraw & _ & Hclean & Hne & Hm & Hs3 & Ht & Hv & Hd & Hn
          & Hr & Hp & _)%process_file_Ok_inv.
  exists raw, clean. eexists _, _. repeat (split; [eassumption|]).
  apply cleaned_quality in Hclean as (_ & _ & _ & Hlen).
  pose proof (length_filter_le (fun r => complete REQUIRED_COLUMNS r = true)
                (without_duplicates raw)) as H1.
  fold (without_nulls raw) in H1.
  pose proof (sublist_len _ _
                (keep_first_sublist "transaction_id" [] (project <$> rows raw))) as H2.
  fold (without_duplicates raw) in H2. rewrite length_fmap in H2.
  unfold len in *. lia.
Qed.

(** X11. What the validator writes is clean: the batch stored under the
    output key has exactly the required columns, no two of its records
    share a transaction id, and every record has no missing cell, an
    integer quantity and a numeric price within the bounds, a valid region
    and a date in the form [YYYY-MM-DD]; no other object of the bucket is
    touched. *)
Theorem process_file_writes_clean_batch input_key output_key (s s' : state)
    (m : gmap string scalar) :
  process_file str_to_number flex_datetime builtin_round2 elapsed
    input_key output_key s = (s', Ok m) ->
  exists clean,
    s3 s' !! output_key = Some clean
    /\ (forall k, k <> output_key -> s3 s' !! k = s3 s !! k)
    /\ columns clean = REQUIRED_COLUMNS
    /\ (forall i j r1 r2,
          rows clean !! i = Some r1 -> rows clean !! j = Some r2 ->
          key_eqb (cell r1 "transaction_id") (cell r2 "transaction_id") = true ->
          i = j)
    /\ Forall clean_record (rows clean).
Proof.
  intros (raw & clean & _ & _ & Hclean & _ & _ & Hs3 & _)%process_file_Ok_inv.
  exists clean. rewrite Hs3. split; [by rewrite lookup_insert_eq|].
  split; [intros k Hk; by rewrite lookup_insert_ne|].
  apply cleaned_quality in Hclean as (Hc & Hd & Hq & _).
  split; [done|]. split; [|done].
  intros i j r1 r2. by apply distinct_on_lookup.
Qed.

(** ** When the validator returns *)

Lemma retyped_quantities rs0 rs :
  traverse (retyped str_to_number) rs0 = Ok rs ->
  exists qs,
    traverse astype_Int64
      (to_numeric str_to_number <$> ((fun r => cell r "quantity") <$> rs0)) = Ok qs.
Proof.
  revert rs. induction rs0 as [|r rs0 IH]; intros rs; csimpl; [by eexists|].
  intros H. inv_ok H. unfold retyped in Hstep. inv_ok Hstep.
  destruct (IH _ Hstep0) as (qs & ->). rewrite Hstep1. by eexists.
Qed.

Lemma validate_data_types_run df s rs :
  "quantity" ∈ columns df -> "price" ∈ columns df ->
  traverse (retyped str_to_number) (rows df) = Ok rs ->
  validate_data_types str_to_number df s =
    (s, Ok {| columns := columns df;
              rows := filter (fun r => complete ["quantity"; "price"] r = true) rs |}).
Proof.
  intros Hq Hp Hrs. destruct (retyped_quantities _ _ Hrs) as (qs & Hqs).
  pose proof (retype_rows _ _ _ Hqs) as Hrs'. rewrite Hrs in Hrs'.
  injection Hrs' as ->.
  unfold validate_data_types.
  rewrite (bind_lift _ _ _ _ (getitem_present _ _ Hq)).
  rewrite (bind_lift _ _ _ _ Hqs).
  erewrite bind_lift; cycle 1.
  { apply getitem_present. by apply columns_setitem. }
  unfold lift. rewrite dropna_present
    by (repeat constructor; by do 2 apply columns_setitem).
  unfold setitem. cbn [columns rows].
  rewrite (decide_True _ _ Hq), (decide_True _ _ Hp).
  do 3 f_equal.
  by rewrite <- list_fmap_compose, zip_with_fmap_r, zip_with_diag.
Qed.

Lemma process_file_run input_key output_key s raw clean :
  s3 s !! input_key = Some raw ->
  Forall (fun c => c ∈ columns raw) REQUIRED_COLUMNS ->
  cleaned str_to_number flex_datetime raw = Ok clean ->
  exists s',
    process_file str_to_number flex_datetime builtin_round2 elapsed
      input_key output_key s =
    (s', if len raw =? 0 then Raise ZeroDivisionError else Ok (metrics s'))
    /\ s3 s' = <[output_key := clean]> (s3 s).
Proof.
  intros Hraw Hcols Hclean. unfold cleaned in Hclean. inv_ok Hclean.
  rename a into rs. unfold process_file.
  erewrite bind_run; cycle 1.
  { unfold read_from_s3. by rewrite Hraw. }
  rewrite bind_set_metric.
  erewrite bind_run; cycle 1.
  { unfold validate_schema. rewrite decide_True by (by apply missing_cols_empty).
    by rewrite getitems_present by done. }
  erewrite bind_run; cycle 1.
  { unfold remove_duplicates, drop_duplicates.
    by rewrite getitem_present by in_columns. }
  erewrite bind_run; cycle 1.
  { unfold remove_nulls. erewrite bind_lift; cycle 1.
    { apply dropna_present. cbn [columns]. by apply Forall_forall. }
    by rewrite bind_set_metric. }
  cbn [columns rows].
  erewrite bind_run; cycle 1.
  { apply validate_data_types_run; [in_columns..|exact Hstep]. }
  erewrite bind_run; cycle 1.
  { apply validate_dates_run. in_columns. }
  erewrite bind_run; cycle 1.
  { apply validate_business_rules_typed; [in_columns..|].
    by eapply retyped_rows_typed. }
  cbn [columns rows metrics s3].
  rewrite bind_set_metric, bind_write_to_s3. cbn [metrics s3].
  rewrite (bind_get_metric "total_records" (SInt (len raw)))
    by (cbn [metrics]; by rewrite !lookup_insert_ne, lookup_insert_eq by done).
  erewrite (bind_get_metric "valid_records")
    by (cbn [metrics]; by rewrite lookup_insert_eq).
  erewrite bind_lift by reflexivity.
  rewrite (bind_get_metric "total_records" (SInt (len raw)))
    by (cbn [metrics]; by rewrite !lookup_insert_ne, lookup_insert_eq by done).
  unfold py_truediv. destruct (len raw =? 0).
  - eexists. split; [reflexivity|done].
  - erewrite bind_lift by reflexivity. rewrite !bind_set_metric.
    eexists. split; [reflexivity|done].
Qed.

Lemma traverse_total {A B} (f : A -> result B) (l : list A) :
  Forall (fun a => exists b, f a = Ok b) l -> exists l', traverse f l = Ok l'.
Proof.
  induction 1 as [|a l [b Hb] _ [l' IH]]; simpl; [by eexists|].
  rewrite Hb, IH. by eexists.
Qed.

(** X12. When the validator returns. A run returns its metrics exactly
    when the input object exists, it has every required column and at
    least one record, and the quantity of every record that survives the
    removal of duplicates and nulls casts to an integer; in every other
    case the run ends in an exception. *)
Theorem process_file_returns_iff input_key output_key (s : state) :
  (exists s' m,
     process_file str_to_number flex_datetime builtin_round2 elapsed
       input_key output_key s = (s', Ok m))
  <-> exists raw,
        s3 s !! input_key = Some raw
        /\ Forall (fun c => c ∈ columns raw) REQUIRED_COLUMNS
        /\ rows raw <> []
        /\ Forall (fun r => exists q,
                     astype_Int64 (to_numeric str_to_number (cell r "quantity")) = Ok q)
             (without_nulls raw).
Proof.
  split.
  - intros (s' & m & (raw & clean & Hraw & Hcols & Hclean & Hne & _)%process_file_Ok_inv).
    exists raw. split; [done|]. split; [done|]. split.
    + intros E. apply Hne. unfold len. by rewrite E.
    + unfold cleaned in Hclean. inv_ok Hclean. apply traverse_Forall2 in Hstep.
      apply Forall_forall. intros r Hr.
      apply list_elem_of_lookup in Hr as [i Hi].
      destruct (Forall2_lookup_l _ _ _ _ _ Hstep Hi) as (r' & _ & Hr').
      apply retyped_Ok in Hr' as [Hq _]. eauto.
  - intros (raw & Hraw & Hcols & Hne & Hq).
    destruct (traverse_total (retyped str_to_number) (without_nulls raw)) as [rs Hrs].
    { eapply Forall_impl; [exact Hq|]. intros r [q Hr]. unfold retyped.
      rewrite Hr. by eexists. }
    destruct (process_file_run input_key output_key s raw _ Hraw Hcols
                ltac:(unfold cleaned; by rewrite Hrs)) as (s' & Hrun & _).
    exists s', (metrics s'). rewrite Hrun.
    destruct (Z.eqb_spec (len raw) 0) as [E|]; [|done].
    exfalso. apply Hne. unfold len in E. destruct (rows raw); [done|]. simpl in E. lia.
Qed.

End Run.

Section Pipeline.

Variable str_to_number : string -> option (Z + float).
Variable flex_datetime : scalar -> option date.
Variable builtin_round2 : float -> float.
Variable quantile : list float -> float -> float.
Variable median : list float -> float.
Variable elapsed elapsed' : float.

(** Where a written record comes from. *)
Lemma cleaned_provenance raw clean :
  cleaned str_to_number flex_datetime raw = Ok clean ->
  Forall (fun r' => exists r d,
            r ∈ rows raw
            /\ (forall c, c ∈ REQUIRED_COLUMNS ->
                  c <> "quantity" -> c <> "price" -> c <> "date" ->
                  r' !! c = r !! c)
            /\ astype_Int64 (to_numeric str_to_number (cell r "quantity"))
               = Ok (cell r' "quantity")
            /\ cell r' "price" = to_numeric str_to_number (cell r "price")
            /\ to_datetime flex_datetime (cell r "date") = SDate d
            /\ r' !! "date" = Some (SStr (strftime_ymd d)))
    (rows clean).
Proof.
  unfold cleaned. intros H. inv_ok H. rename a into rs. cbn [rows].
  apply traverse_Forall2 in Hstep.
  apply Forall_forall. intros r' [_ Hin]%list_elem_of_filter.
  apply list_elem_of_omap in Hin as (r1 & [_ Hin]%list_elem_of_filter & Hr).
  destruct (Forall2_elem_of_r _ _ _ _ Hstep Hin) as (r0 & Hin0 & H0).
  apply list_elem_of_filter in Hin0 as [_ Hin0].
  apply (fun H => elem_of_sublist _ _ _ H (keep_first_sublist _ _ _)) in Hin0.
  apply list_elem_of_fmap in Hin0 as (r & -> & Hraw).
  apply retyped_Ok in H0 as (Hq & Hp & Hsame).
  apply redated_Some in Hr as (d & Hd & ->).
  exists r, d. split; [done|].
  assert (cell r1 "date" = cell r "date") as Hdate.
  { unfold cell at 1. rewrite Hsame by done. apply cell_project. in_columns. }
  split; [|split; [|split; [|split]]].
  - intros c Hc Hcq Hcp Hcd. rewrite lookup_insert_ne by done.
    rewrite Hsame by done. unfold project. rewrite project_lookup.
    by rewrite decide_True.
  - rewrite cell_insert_ne by done. rewrite <- Hq.
    by rewrite cell_project by in_columns.
  - rewrite cell_insert_ne by done. rewrite Hp.
    by rewrite cell_project by in_columns.
  - by rewrite <- Hdate.
  - by rewrite lookup_insert_eq.
Qed.

Lemma cleaned_validated raw clean :
  Forall (as_read flex_datetime) (rows raw) ->
  cleaned str_to_number flex_datetime raw = Ok clean ->
  validated clean.
Proof.
  intros Hshape Hclean.
  pose proof (cleaned_provenance _ _ Hclean) as Hprov.
  pose proof (cleaned_quality _ _ _ _ Hclean) as (Hcols & _ & Hq & _).
  split; [done|]. apply Forall_forall. intros r' Hin.
  rewrite Forall_forall in Hshape, Hprov, Hq.
  destruct (Hprov r' Hin) as (r & d & Hr & Hsame & _ & Hprice & Hdt & Hdate).
  destruct (Hq r' Hin) as (Hcomp & _ & Hrules & _).
  destruct (Hshape r Hr) as (Htext & Hfloat & Hvalid).
  rewrite complete_spec in Hcomp.
  apply andb_prop in Hrules as [[Hqb Hpb]%andb_prop Hrv].
  assert (forall c, c ∈ ["transaction_id"; "product"; "customer_id"] ->
                    exists t, cell r' c = SStr t) as Htxt.
  { intros c Hc.
    assert (cell r' c = cell r c) as E.
    { unfold cell. rewrite Hsame; [done|..];
        repeat (apply elem_of_cons in Hc as [->|Hc]; [by (done || in_columns)|]);
        by apply elem_of_nil in Hc. }
    destruct (Htext c Hc) as [Hna|[t Ht]].
    - rewrite <- E, Hcomp in Hna; [done|].
      repeat (apply elem_of_cons in Hc as [->|Hc]; [in_columns|]);
        by apply elem_of_nil in Hc.
    - exists t. by rewrite E. }
  repeat split.
  - apply Htxt. by left.
  - exists d. split; [by apply Hvalid | done].
  - done.
  - apply Htxt. right. by left.
  - done.
  - rewrite Hprice. destruct Hfloat as [Hna|[x Hx]].
    + destruct (cell r "price"); simpl in *; try done; by eexists.
    + rewrite Hx. by exists x.
  - done.
  - apply Htxt. right. right. by left.
Qed.

Lemma transformer_process_file_validated input_key output_key df s :
  s3 s !! input_key = Some df -> validated df ->
  transformer_process_file flex_datetime quantile median elapsed'
    input_key output_key s =
  (let s' :=
     {| metrics :=
          <["transformation_time" := SFloat elapsed']>
          (<["records_processed" := SInt (len df)]>
          (<["columns_added" := SInt 18]>
          (<["avg_revenue" := SFloat (nanmean (revenue_of <$> rows df))]>
          (<["total_revenue" := SFloat (nansum (revenue_of <$> rows df))]>
           (metrics s)))));
        s3 := <[output_key := enriched quantile median df]> (s3 s) |} in
   (s', Ok (metrics s'))).
Proof.
  intros Hdf Hv. unfold transformer_process_file.
  erewrite bind_run; cycle 1.
  { unfold read_from_s3. by rewrite Hdf. }
  erewrite bind_run; cycle 1.
  { by apply transform_data_validated. }
  by rewrite bind_write_to_s3, bind_set_metric.
Qed.

Lemma length_rows_enriched df :
  length (rows (enriched quantile median df)) = length (rows df).
Proof.
  unfold enriched, with_regional_indicators, with_quantity_indicators,
    with_price_indicators, with_customer_segment, with_product_category,
    with_revenue_category, with_date_components, with_revenue.
  cbv zeta. by rewrite !length_rows_setcol.
Qed.

Lemma columns_enriched df :
  columns df = REQUIRED_COLUMNS ->
  columns (enriched quantile median df) = (REQUIRED_COLUMNS ++ DERIVED_COLUMNS)%list.
Proof.
  intros H. destruct df as [cols rws]. cbn [columns] in H. subst cols.
  by vm_compute.
Qed.

(** X13. The transformer run on a stored validated batch: it returns its
    metrics and stores the enriched batch under the output key, leaving
    every other object alone; the enriched batch has the records of the
    input, one for one, under the 7 required and the 18 derived columns;
    the metrics hold the record count, 18 columns added and the duration. *)
Theorem transformer_process_file_spec input_key output_key (df : DataFrame)
    (s : state) :
  s3 s !! input_key = Some df -> validated df ->
  exists s' out,
    transformer_process_file flex_datetime quantile median elapsed'
      input_key output_key s = (s', Ok (metrics s'))
    /\ s3 s' = <[output_key := out]> (s3 s)
    /\ columns out = (REQUIRED_COLUMNS ++ DERIVED_COLUMNS)%list
    /\ len out = len df
    /\ metrics s' !! "records_processed" = Some (SInt (len df))
    /\ metrics s' !! "columns_added" = Some (SInt 18)
    /\ metrics s' !! "transformation_time" = Some (SFloat elapsed').
Proof.
  intros Hdf Hv. eexists _, _.
  split; [by apply transformer_process_file_validated|]. cbn [metrics s3].
  split; [done|]. split; [apply columns_enriched, Hv|].
  split; [unfold len; by rewrite length_rows_enriched|].
  repeat split; by rewrite ?lookup_insert_eq, ?lookup_insert_ne, ?lookup_insert_eq by done.
Qed.

(** X14. Every record the validator writes comes from a record it read:
    the identifiers, the region and the product are those of that record,
    the quantity is its quantity cast to an integer, the price its price
    read as a number, and the date its date rewritten as [YYYY-MM-DD]. *)
Theorem process_file_provenance input_key output_key (s s' : state)
    (m : gmap string scalar) :
  process_file str_to_number flex_datetime builtin_round2 elapsed
    input_key output_key s = (s', Ok m) ->
  exists raw clean,
    s3 s !! input_key = Some raw
    /\ s3 s' !! output_key = Some clean
    /\ Forall (fun r' => exists r d,
                 r ∈ rows raw
                 /\ (forall c, c ∈ ["transaction_id"; "region"; "product"; "customer_id"] ->
                       r' !! c = r !! c)
                 /\ astype_Int64 (to_numeric str_to_number (cell r "quantity"))
                    = Ok (cell r' "quantity")
                 /\ cell r' "price" = to_numeric str_to_number (cell r "price")
                 /\ to_datetime flex_datetime (cell r "date") = SDate d
                 /\ r' !! "date" = Some (SStr (strftime_ymd d)))
         (rows clean).
Proof.
  intros (raw & clean & Hraw & _ & Hclean & _ & _ & Hs3 & _)%process_file_Ok_inv.
  exists raw, clean. split; [done|]. rewrite Hs3, lookup_insert_eq. split; [done|].
  eapply Forall_impl; [by apply cleaned_provenance|]. cbv beta.
  intros r' (r & d & Hr & Hsame & Hrest). exists r, d. split; [done|].
  split; [|done]. intros c Hc. apply Hsame;
    repeat (apply elem_of_cons in Hc as [->|Hc]; [by (done || in_columns)|]);
    by apply elem_of_nil in Hc.
Qed.

(** X15. The two stages compose. On records as [read_csv] delivers them,
    whenever the validator returns, the batch it has written is one the
    transformer accepts: the transformer, run on the validator's output
    key, returns its metrics, stores the enriched batch, and has processed
    as many records as the validator reported valid. *)
Theorem validator_output_feeds_transformer input_key mid_key output_key
    (raw : DataFrame) (s s1 : state) (m1 : gmap string scalar) :
  s3 s !! input_key = Some raw ->
  Forall (as_read flex_datetime) (rows raw) ->
  process_file str_to_number flex_datetime builtin_round2 elapsed
    input_key mid_key s = (s1, Ok m1) ->
  exists clean s2 n,
    s3 s1 !! mid_key = Some clean
    /\ validated clean
    /\ transformer_process_file flex_datetime quantile median elapsed'
         mid_key output_key {| metrics := transformer_init; s3 := s3 s1 |}
       = (s2, Ok (metrics s2))
    /\ s3 s2 !! output_key = Some (enriched quantile median clean)
    /\ m1 !! "valid_records" = Some (SInt n)
    /\ metrics s2 !! "records_processed" = Some (SInt n).
Proof.
  intros Hraw Hshape
    (raw' & clean & Hraw' & _ & Hclean & _ & _ & Hs3 & _ & Hvalid & _)%process_file_Ok_inv.
  rewrite Hraw in Hraw'. injection Hraw' as <-.
  pose proof (cleaned_validated _ _ Hshape Hclean) as Hv.
  assert (s3 s1 !! mid_key = Some clean) as Hmid
    by (by rewrite Hs3, lookup_insert_eq).
  exists clean. eexists _, _. split; [done|]. split; [done|].
  split; [by apply transformer_process_file_validated|]. cbn [metrics s3].
  split; [by rewrite lookup_insert_eq|]. split; [exact Hvalid|].
  by rewrite lookup_insert_ne, lookup_insert_eq.
Qed.

End Pipeline.

(** ** Order of binary64 values, continued *)

Lemma float_le_lt_false a x : (a <=? x)%float = true -> (x <? a)%float = false.
Proof.
  rewrite leb_key, ltb_key.
  destruct (fkey a) as [ka|], (fkey x) as [kx|]; try done.
  destruct (cmp3_spec ka kx) as [E|H|H], (cmp3_spec kx ka) as [E'|H'|H'];
    try done; subst; unfold lt3 in *; lia.
Qed.

Lemma float_lt_le_false a x : (x <? a)%float = true -> (a <=? x)%float = false.
Proof.
  intros H. destruct (a <=? x)%float eqn:E; [|done].
  apply float_le_lt_false in E. congruence.
Qed.

Lemma float_le_trans a b x :
  (a <=? b)%float = true -> (b <=? x)%float = true -> (a <=? x)%float = true.
Proof.
  rewrite !leb_key.
  destruct (fkey a) as [ka|], (fkey b) as [kb|], (fkey x) as [kx|]; try done.
  intros H1 H2.
  pose proof (cmp3_le_trans ka kb kx) as H.
  destruct (cmp3 ka kb), (cmp3 kb kx), (cmp3 ka kx); try done;
    exfalso; by apply H.
Qed.

Lemma float_lt_le_trans x a b :
  (x <? a)%float = true -> (a <=? b)%float = true -> (x <? b)%float = true.
Proof.
  rewrite !ltb_key, leb_key.
  destruct (fkey x) as [kx|], (fkey a) as [ka|], (fkey b) as [kb|]; try done.
  intros H1 H2.
  pose proof (cmp3_lt_trans kx ka kb) as H.
  destruct (cmp3 kx ka) eqn:E1; try done.
  rewrite H; [done|done|]. by destruct (cmp3 ka kb).
Qed.

Lemma is_nan_compare_false x a :
  is_nan x = true ->
  (a <=? x)%float = false /\ (x <? a)%float = false /\ (x <=? a)%float = false.
Proof.
  intros H%is_nan_key. rewrite !leb_key, ltb_key, H.
  by destruct (fkey a).
Qed.

(** ** Revenue tiers *)

(** X16. The revenue tiers are the half-open bands [0,100), [100,500),
    [500,2000) and, for everything from 2000 up (infinity included),
    Premium; a negative revenue and a revenue that is not a number are in
    no band and fall back to Premium as well. *)
Theorem get_revenue_category_bands (x : float) :
  ((0 <=? x)%float = true -> (x <? 100)%float = true ->
     get_revenue_category x = "Low")
  /\ ((100 <=? x)%float = true -> (x <? 500)%float = true ->
        get_revenue_category x = "Medium")
  /\ ((500 <=? x)%float = true -> (x <? 2000)%float = true ->
        get_revenue_category x = "High")
  /\ ((2000 <=? x)%float = true -> get_revenue_category x = "Premium")
  /\ ((x <? 0)%float = true -> get_revenue_category x = "Premium")
  /\ (is_nan x = true -> get_revenue_category x = "Premium").
Proof.
  unfold get_revenue_category, REVENUE_TIERS, first_tier.
  assert (forall a b, (a <=? b)%float = true -> (b <=? x)%float = true ->
                      (x <? a)%float = false) as Hup.
  { intros a b Hab Hb. apply float_le_lt_false. by eapply float_le_trans. }
  assert (forall a b, (x <? a)%float = true -> (a <=? b)%float = true ->
                      (b <=? x)%float = false) as Hdown.
  { intros a b Ha Hab. apply float_lt_le_false. by eapply float_lt_le_trans. }
  repeat split.
  - by intros -> ->.
  - intros H1 H2. rewrite (float_le_lt_false _ _ H1), andb_false_r.
    by rewrite H1, H2.
  - intros H1 H2. rewrite (Hup 100 500 eq_refl H1)%float, andb_false_r.
    rewrite (float_le_lt_false _ _ H1), andb_false_r. by rewrite H1, H2.
  - intros H1. rewrite (Hup 100 2000 eq_refl H1)%float, andb_false_r.
    rewrite (Hup 500 2000 eq_refl H1)%float, andb_false_r.
    rewrite (float_le_lt_false _ _ H1), andb_false_r.
    by destruct (_ && _).
  - intros H1. rewrite (float_lt_le_false _ _ H1).
    rewrite (Hdown 0 100 H1 eq_refl)%float, (Hdown 0 500 H1 eq_refl)%float,
      (Hdown 0 2000 H1 eq_refl)%float. done.
  - intros H. destruct (is_nan_compare_false x 0 H) as (-> & _).
    destruct (is_nan_compare_false x 100 H) as (-> & _).
    destruct (is_nan_compare_false x 500 H) as (-> & _).
    destruct (is_nan_compare_false x 2000 H) as (-> & _). done.
Qed.

(** ** Product categories *)

Lemma fillna_map_dict v :
  fillna (SStr "Other") (map_dict PRODUCT_CATEGORIES v) = SStr (category_of v).
Proof.
  unfold fillna, map_dict, category_of. destruct v as [p| | | | | |]; try done.
  by destruct (PRODUCT_CATEGORIES !! p).
Qed.

(** X17. Product categories: on a batch with a [product] column the step
    never raises; every record gets a category that is text, the
    catalogue's for a catalogued product and [Other] for anything else (a
    missing product included), and no other cell changes. Without a
    [product] column the step raises [KeyError]. *)
Theorem add_product_categories_spec (df : DataFrame) :
  ("product" ∈ columns df ->
   exists out,
     add_product_categories df = Ok out
     /\ (forall c, c ∈ columns out <-> c = "product_category" \/ c ∈ columns df)
     /\ Forall2 (fun r r' =>
                   cell r' "product_category" = SStr (category_of (cell r "product"))
                   /\ forall c, c <> "product_category" -> r' !! c = r !! c)
          (rows df) (rows out))
  /\ ("product" ∉ columns df ->
      add_product_categories df = Raise (KeyError "product")).
Proof.
  split.
  - intros Hc. eexists. split; [by apply add_product_categories_setcol|].
    unfold with_product_category. split.
    + intros c. apply elem_of_columns_setcol.
    + unfold setcol. cbn [rows]. apply Forall2_fmap_r, Forall_Forall2_diag.
      apply Forall_forall. intros r _. split.
      * by rewrite cell_insert_eq, fillna_map_dict.
      * intros c Hne. by rewrite lookup_insert_ne.
  - intros Hc. unfold add_product_categories, getitem. by rewrite decide_False.
Qed.

(** ** Dates in the transformer *)

Lemma to_datetime_raise_Raise flex v e :
  to_datetime_raise flex v = Raise e -> e = DateParseError.
Proof.
  unfold to_datetime_raise. destruct (isna v); [done|].
  destruct v as [t| | | | | |]; try done;
    try (destruct (flex _); simpl; congruence).
  destruct (parse_iso_date t); [done|]. destruct (flex _); simpl; congruence.
Qed.

(** X18. A date the transformer cannot read stops it: where the validator
    drops such a record, the transformer's date step raises and the whole
    batch is refused. *)
Theorem extract_date_components_unreadable flex (df : DataFrame)
    (r : gmap string scalar) (t : string) :
  "date" ∈ columns df ->
  r ∈ rows df -> cell r "date" = SStr t ->
  parse_iso_date t = None -> flex (SStr t) = None ->
  extract_date_components flex df = Raise DateParseError.
Proof.
  intros Hc Hr Ht Hp Hf. unfold extract_date_components, assign at 1.
  rewrite getitem_present by done. cbn [rbind].
  rewrite (traverse_Raise (to_datetime_raise flex) _ (SStr t) DateParseError);
    [done| | |].
  - apply list_elem_of_fmap. exists r. by rewrite Ht.
  - unfold to_datetime_raise. simpl. by rewrite Hp, Hf.
  - apply to_datetime_raise_Raise.
Qed.

Lemma date_rule_insert r c v :
  c ∉ ["date"; "year"; "month"; "month_name"; "quarter"; "day_of_week";
       "day_name"; "week_of_year"; "is_business_day"] ->
  date_rule r -> date_rule (<[c := v]> r).
Proof.
  intros Hc (d & Hv & Hd & H). exists d. split; [done|].
  assert (forall c', c' ∈ ["date"; "year"; "month"; "month_name"; "quarter";
                           "day_of_week"; "day_name"; "week_of_year";
                           "is_business_day"] -> c <> c') as Hne
    by (intros c' Hc' ->; done).
  rewrite lookup_insert_ne by (apply Hne; in_columns).
  rewrite !cell_insert_ne by (apply Hne; in_columns). done.
Qed.

Lemma quarter_bounds d : 1 <= month d <= 12 -> 1 <= quarter d <= 4.
Proof. unfold quarter. intros H. split; Z.div_mod_to_equations; lia. Qed.

Lemma iso_weeks_in_year_cases y :
  iso_weeks_in_year y = 52 \/ iso_weeks_in_year y = 53.
Proof. unfold iso_weeks_in_year. destruct (_ || _); auto. Qed.

Lemma isoweek_bounds d : 1 <= isoweek d <= 53.
Proof.
  unfold isoweek.
  destruct (iso_weeks_in_year_cases (year d - 1)),
    (iso_weeks_in_year_cases (year d)).
  all: destruct (Z.ltb_spec ((dayofyear d - (dayofweek d + 1) + 10) / 7) 1); [lia|].
  all: destruct (Z.ltb_spec (iso_weeks_in_year (year d))
                   ((dayofyear d - (dayofweek d + 1) + 10) / 7)); lia.
Qed.

Lemma dayofweek_bounds d : 0 <= dayofweek d <= 6.
Proof. unfold dayofweek. Z.div_mod_to_equations. lia. Qed.

Lemma day_name_weekend d :
  (dayofweek d <? 5) = negb (bool_decide (day_name d ∈ ["Saturday"; "Sunday"])).
Proof.
  pose proof (dayofweek_bounds d) as H. unfold day_name.
  assert (dayofweek d = 0 \/ dayofweek d = 1 \/ dayofweek d = 2 \/ dayofweek d = 3
          \/ dayofweek d = 4 \/ dayofweek d = 5 \/ dayofweek d = 6) as Hd by lia.
  repeat (destruct Hd as [->|Hd]; [by vm_compute|]). rewrite Hd. by vm_compute.
Qed.

Section DateColumns.

Variable flex_datetime : scalar -> option date.
Variable quantile : list float -> float -> float.
Variable median : list float -> float.

Lemma enriched_dates df :
  Forall valid_record (rows df) ->
  Forall date_rule (rows (enriched quantile median df)).
Proof.
  intros Hv. unfold enriched, with_regional_indicators, with_quantity_indicators,
    with_price_indicators, with_customer_segment, with_product_category,
    with_revenue_category.
  do 9 (apply Forall_setcol_stable;
          [intros r v; apply date_rule_insert; in_columns|]).
  unfold with_date_components, with_revenue. rewrite !Forall_rows_setcol.
  eapply Forall_impl; [exact Hv|]. cbv beta.
  intros r (_ & (d & Hd & Hr) & _).
  assert (cell r "date" = SStr (strftime_ymd d)) as Hc
    by (unfold cell; by rewrite Hr).
  exists d. split; [done|].
  unfold date_cell, date_of. cell_simpl. rewrite Hc.
  rewrite parse_strftime by done. simpl. cell_simpl.
  rewrite lookup_insert_eq. done.
Qed.

(** X19. The date columns of every record the transformer returns are
    those of the record's own date: year, month, quarter, ISO week, day of
    the week and the two names; the business-day flag is set exactly on
    Monday to Friday, that is, when the day name is neither Saturday nor
    Sunday; the quarter lies in 1..4, the day of the week in 0..6 and the
    week in 1..53. *)
Theorem transform_date_components (df : DataFrame) (s : state) :
  validated df ->
  exists s' out,
    transform_data flex_datetime quantile median df s = (s', Ok out)
    /\ Forall date_rule (rows out)
    /\ (forall d, valid_date d = true ->
          1 <= quarter d <= 4 /\ 0 <= dayofweek d <= 6 /\ 1 <= isoweek d <= 53
          /\ (dayofweek d <? 5)
             = negb (bool_decide (day_name d ∈ ["Saturday"; "Sunday"]))).
Proof.
  intros Hv. eexists _, _. split; [by apply transform_data_validated|].
  split; [apply enriched_dates, Hv|].
  intros d (_ & Hm & _)%valid_date_bounds.
  split; [by apply quarter_bounds|]. split; [apply dayofweek_bounds|].
  split; [apply isoweek_bounds | apply day_name_weekend].
Qed.

End DateColumns.

(** ** The scripts *)

Lemma show_number_run k v s :
  metrics s !! k = Some v -> format_number v = Ok tt ->
  show_number k s = (s, Ok tt).
Proof.
  intros Hk Hv. unfold show_number. rewrite (bind_get_metric _ _ _ _ Hk).
  unfold lift. by rewrite Hv.
Qed.

Lemma show_value_run k v s :
  metrics s !! k = Some v -> show_value k s = (s, Ok tt).
Proof. intros Hk. unfold show_value. by rewrite (bind_get_metric _ _ _ _ Hk). Qed.

Lemma print_metrics_summary_run s :
  (forall k, k ∈ ["total_records"; "valid_records"; "duplicates_removed";
                  "null_values_removed"; "invalid_quantity"; "invalid_price";
                  "invalid_region"; "rejection_rate_percent";
                  "processing_time_seconds"] ->
     exists v, metrics s !! k = Some v /\ format_number v = Ok tt) ->
  print_metrics_summary s = (s, Ok tt).
Proof.
  intros H. unfold print_metrics_summary.
  destruct (H "total_records" ltac:(in_columns)) as (v1 & K1 & F1).
  destruct (H "valid_records" ltac:(in_columns)) as (v2 & K2 & F2).
  destruct (H "duplicates_removed" ltac:(in_columns)) as (v3 & K3 & F3).
  destruct (H "null_values_removed" ltac:(in_columns)) as (v4 & K4 & F4).
  destruct (H "invalid_quantity" ltac:(in_columns)) as (v5 & K5 & F5).
  destruct (H "invalid_price" ltac:(in_columns)) as (v6 & K6 & F6).
  destruct (H "invalid_region" ltac:(in_columns)) as (v7 & K7 & F7).
  destruct (H "rejection_rate_percent" ltac:(in_columns)) as (v8 & K8 & _).
  destruct (H "processing_time_seconds" ltac:(in_columns)) as (v9 & K9 & F9).
  rewrite (bind_run _ _ _ _ _ (show_number_run _ _ _ K1 F1)).
  rewrite (bind_run _ _ _ _ _ (show_number_run _ _ _ K2 F2)).
  rewrite (bind_run _ _ _ _ _ (show_number_run _ _ _ K3 F3)).
  rewrite (bind_run _ _ _ _ _ (show_number_run _ _ _ K4 F4)).
  rewrite (bind_run _ _ _ _ _ (show_number_run _ _ _ K5 F5)).
  rewrite (bind_run _ _ _ _ _ (show_number_run _ _ _ K6 F6)).
  rewrite (bind_run _ _ _ _ _ (show_number_run _ _ _ K7 F7)).
  rewrite (bind_run _ _ _ _ _ (show_value_run _ _ _ K8)).
  by apply show_number_run with v9.
Qed.

Lemma transformer_print_metrics_summary_run s :
  (forall k, k ∈ ["records_processed"; "columns_added"; "total_revenue";
                  "avg_revenue"; "transformation_time"] ->
     exists v, metrics s !! k = Some v /\ format_number v = Ok tt) ->
  transformer_print_metrics_summary s = (s, Ok tt).
Proof.
  intros H. unfold transformer_print_metrics_summary.
  destruct (H "records_processed" ltac:(in_columns)) as (v1 & K1 & F1).
  destruct (H "columns_added" ltac:(in_columns)) as (v2 & K2 & _).
  destruct (H "total_revenue" ltac:(in_columns)) as (v3 & K3 & F3).
  destruct (H "avg_revenue" ltac:(in_columns)) as (v4 & K4 & F4).
  destruct (H "transformation_time" ltac:(in_columns)) as (v5 & K5 & F5).
  rewrite (bind_run _ _ _ _ _ (show_number_run _ _ _ K1 F1)).
  rewrite (bind_run _ _ _ _ _ (show_value_run _ _ _ K2)).
  rewrite (bind_run _ _ _ _ _ (show_number_run _ _ _ K3 F3)).
  rewrite (bind_run _ _ _ _ _ (show_number_run _ _ _ K4 F4)).
  by apply show_number_run with v5.
Qed.

Lemma bind_Raise {A B} (m : M A) (k : A -> M B) s s1 e :
  m s = (s1, Raise e) -> bind m k s = (s1, Raise e).
Proof. intros H. unfold bind. by rewrite H. Qed.

Lemma keeps_bucket_bind {A B} (m : M A) (k : A -> M B) :
  keeps_bucket m -> (forall a, keeps_bucket (k a)) -> keeps_bucket (bind m k).
Proof.
  intros Hm Hk s. unfold bind. specialize (Hm s).
  destruct (m s) as [s1 [a|e]]; simpl in *; [|done].
  by rewrite Hk.
Qed.

Lemma keeps_bucket_lift {A} (r : result A) : keeps_bucket (lift r).
Proof. by intros s. Qed.

Lemma keeps_bucket_ret {A} (a : A) : keeps_bucket (ret a).
Proof. by intros s. Qed.

Lemma keeps_bucket_set_metric k v : keeps_bucket (set_metric k v).
Proof. by intros s. Qed.

Ltac keeps_bucket :=
  repeat first
    [ apply keeps_bucket_lift | apply keeps_bucket_ret
    | apply keeps_bucket_set_metric
    | apply keeps_bucket_bind; [|intros ?] ].

Lemma transform_data_keeps_bucket flex quantile median df :
  keeps_bucket (transform_data flex quantile median df).
Proof. unfold transform_data, calculate_revenue. keeps_bucket. Qed.

Section ScriptProperties.

Variable str_to_number : string -> option (Z + float).
Variable flex_datetime : scalar -> option date.
Variable builtin_round2 : float -> float.
Variable quantile : list float -> float -> float.
Variable median : list float -> float.
Variable elapsed : float.
Variable today : string.

(** X20. The exit code of the validator script tells whether the run
    returned: the summary it prints afterwards reads only metrics a
    returned run has set, so it cannot fail then; the bucket is left as the
    run left it. Printed on a validator that has not run, the same summary
    raises [KeyError], the rejection rate not being there yet. *)
Theorem validator_main_exit_code (argv : list string)
    (bucket : gmap string DataFrame) :
  let run :=
    process_file str_to_number flex_datetime builtin_round2 elapsed
      (RAW_ZONE +:+ "/" +:+ date_str today argv +:+ ".csv")
      (PROCESSED_ZONE +:+ "/" +:+ date_str today argv +:+ ".csv")
      {| metrics := validator_init; s3 := bucket |} in
  validator_main str_to_number flex_datetime builtin_round2 elapsed today
    argv bucket
  = (s3 run.1, match run.2 with Ok _ => 0 | Raise _ => 1 end)
  /\ (print_metrics_summary {| metrics := validator_init; s3 := bucket |}).2
     = Raise (KeyError "rejection_rate_percent").
Proof.
  intros run. split; [|done]. unfold validator_main. fold run.
  destruct run as [s1 [m|e]] eqn:E.
  - erewrite bind_run by exact E.
    rewrite print_metrics_summary_run; [done|].
    apply process_file_Ok_inv in E
      as (raw & clean & _ & _ & _ & _ & -> & _ & Ht & Hv & Hd & Hn & Hr & Hp
          & nq & np & nr & Hq & Hpr & Hre).
    intros k Hk.
    repeat (apply elem_of_cons in Hk as [->|Hk]; [by eexists|]).
    by apply elem_of_nil in Hk.
  - by erewrite bind_Raise by exact E.
Qed.

Lemma transform_data_Ok_segment df s s' out :
  transform_data flex_datetime quantile median df s = (s', Ok out) ->
  "customer_segment" ∈ columns out.
Proof.
  intros H. unfold transform_data in H. inv_ok H.
  eapply add_regional_indicators_columns; [eassumption|].
  eapply add_quantity_indicators_columns; [eassumption|].
  eapply add_price_indicators_columns; [eassumption|].
  by eapply add_customer_segments_Ok.
Qed.

Lemma transformer_process_file_rejects key output_key df s :
  s3 s !! key = Some df -> "customer_segment" ∈ columns df ->
  exists s' e,
    transformer_process_file flex_datetime quantile median elapsed
      key output_key s = (s', Raise e)
    /\ s3 s' = s3 s.
Proof.
  intros Hdf Hc. unfold transformer_process_file.
  erewrite bind_run; cycle 1.
  { unfold read_from_s3. by rewrite Hdf. }
  destruct (transform_data_rejects flex_datetime quantile median df s Hc)
    as (s' & e & Hrun).
  exists s', e. split; [by apply bind_Raise|].
  pose proof (transform_data_keeps_bucket flex_datetime quantile median df s) as Hk.
  by rewrite Hrun in Hk.
Qed.

(** X21. The transformer cannot be run twice on the same key. Once a run
    that overwrites its input has returned, a second run on that key, by a
    fresh transformer or not, ends in an exception and leaves the bucket as
    it is. *)
Theorem transformer_process_file_rerun (key : string) (s s1 s2 : state)
    (m : gmap string scalar) :
  transformer_process_file flex_datetime quantile median elapsed key key s
    = (s1, Ok m) ->
  s3 s2 = s3 s1 ->
  exists s3' e,
    transformer_process_file flex_datetime quantile median elapsed key key s2
      = (s3', Raise e)
    /\ s3 s3' = s3 s1.
Proof.
  intros H Hs. unfold transformer_process_file in H.
  apply bind_Ok in H as (s0 & df & [-> Hdf]%read_from_s3_Ok & H).
  apply bind_Ok in H as (s0 & out & Hrun & H).
  rewrite bind_write_to_s3, bind_set_metric in H. injection H as <- _.
  cbn [s3] in Hs.
  destruct (transformer_process_file_rejects key key out s2) as (s' & e & Hr & Hb).
  - by rewrite Hs, lookup_insert_eq.
  - by eapply transform_data_Ok_segment.
  - exists s', e. split; [done|]. cbn [s3]. by rewrite Hb, Hs.
Qed.

(** X22. The two scripts, run for the same date on records as [read_csv]
    delivers them: when the validator script exits with 0, the transformer
    script exits with 0 too and replaces the validated batch by the
    enriched one; run once more for that date it exits with 1 and changes
    nothing. *)
Theorem scripts_compose (argv : list string) (bucket b1 : gmap string DataFrame)
    (raw : DataFrame) :
  bucket !! (RAW_ZONE +:+ "/" +:+ date_str today argv +:+ ".csv") = Some raw ->
  Forall (as_read flex_datetime) (rows raw) ->
  validator_main str_to_number flex_datetime builtin_round2 elapsed today
    argv bucket = (b1, 0) ->
  exists clean,
    let key := PROCESSED_ZONE +:+ "/" +:+ date_str today argv +:+ ".csv" in
    let b2 := <[key := enriched quantile median clean]> b1 in
    b1 = <[key := clean]> bucket
    /\ validated clean
    /\ transformer_main flex_datetime quantile median elapsed today argv b1
       = (b2, 0)
    /\ transformer_main flex_datetime quantile median elapsed today argv b2
       = (b2, 1).
Proof.
  intros Hraw Hshape Hmain. unfold validator_main in Hmain.
  set (key := PROCESSED_ZONE +:+ "/" +:+ date_str today argv +:+ ".csv") in *.
  destruct (process_file str_to_number flex_datetime builtin_round2 elapsed
              (RAW_ZONE +:+ "/" +:+ date_str today argv +:+ ".csv") key
              {| metrics := validator_init; s3 := bucket |})
    as [s1 [m|e]] eqn:E; cycle 1.
  { by erewrite bind_Raise in Hmain by exact E. }
  erewrite bind_run in Hmain by exact E.
  pose proof E as (raw' & clean & Hraw' & _ & Hclean & _ & -> & Hs3 & Ht & Hvr & Hd
                   & Hn & Hr & Hp & nq & np & nr & Hq & Hpr & Hre)%process_file_Ok_inv.
  cbn [s3] in Hraw', Hs3. rewrite Hraw in Hraw'. injection Hraw' as <-.
  pose proof (cleaned_validated _ _ _ _ Hshape Hclean) as Hv.
  rewrite print_metrics_summary_run in Hmain; cycle 1.
  { intros k Hk.
    repeat (apply elem_of_cons in Hk as [->|Hk]; [by eexists|]).
    by apply elem_of_nil in Hk. }
  injection Hmain as <-.
  exists clean. cbv zeta. split; [done|]. split; [done|].
  assert (s3 s1 !! key = Some clean) as Hkey by (by rewrite Hs3, lookup_insert_eq).
  split.
  - unfold transformer_main. fold key.
    erewrite bind_run; cycle 1.
    { apply (transformer_process_file_validated); [exact Hkey | exact Hv]. }
    rewrite transformer_print_metrics_summary_run; [done|].
    cbn [metrics]. intros k Hk.
    repeat (apply elem_of_cons in Hk as [->|Hk];
            [eexists; split;
               [by rewrite ?lookup_insert_eq, ?lookup_insert_ne, ?lookup_insert_eq by done
               |done]|]).
    by apply elem_of_nil in Hk.
  - unfold transformer_main. fold key.
    destruct (transformer_process_file_rejects key key
                (enriched quantile median clean)
                {| metrics := transformer_init;
                   s3 := <[key := enriched quantile median clean]> (s3 s1) |})
      as (s' & e & Hrej & Hb).
    + cbn [s3]. by rewrite lookup_insert_eq.
    + rewrite columns_enriched by apply Hv. in_columns.
    + erewrite bind_Raise by exact Hrej. by rewrite Hb.
Qed.

End ScriptProperties.

(** ** How the validator fails *)

Lemma traverse_Raise_inv {A B} (f : A -> result B) (l : list A) e :
  traverse f l = Raise e -> exists a, a ∈ l /\ f a = Raise e.
Proof.
  induction l as [|a l IH]; simpl; [done|].
  destruct (f a) as [b|e0] eqn:E; simpl.
  - destruct (traverse f l) as [bs|e1]; simpl; [done|].
    intros [= ->]. destruct IH as (a' & Ha & Hf); [done|].
    exists a'. split; [by right | done].
  - intros [= ->]. exists a. split; [by left | done].
Qed.

Section Failures.

Variable str_to_number : string -> option (Z + float).
Variable flex_datetime : scalar -> option date.
Variable builtin_round2 : float -> float.
Variable elapsed : float.

Lemma retyped_Raise r e :
  retyped str_to_number r = Raise e ->
  e = TypeError
  /\ astype_Int64 (to_numeric str_to_number (cell r "quantity")) = Raise TypeError.
Proof.
  unfold retyped.
  destruct (astype_Int64 _) as [q|e0] eqn:E; simpl; [done|].
  intros [= <-]. apply astype_Int64_Raise in E as ?. by subst.
Qed.

Lemma validate_data_types_Raise df s e :
  "quantity" ∈ columns df ->
  traverse (retyped str_to_number) (rows df) = Raise e ->
  validate_data_types str_to_number df s = (s, Raise TypeError).
Proof.
  intros Hq Hrs. unfold validate_data_types.
  rewrite (bind_lift _ _ _ _ (getitem_present _ _ Hq)).
  destruct (traverse astype_Int64 _) as [qs|e'] eqn:E.
  - apply retype_rows in E. congruence.
  - apply traverse_Raise_inv in E as (v & _ & Hv%astype_Int64_Raise). by subst.
Qed.

(** X23. How the validator fails. A run of an initialised validator that
    ends in an exception ended
    in one of four ways: the input object was not there; a required column
    was missing; a quantity that survived the removal of duplicates and
    nulls could not be cast to an integer; or the batch read had no record.
    In the first three the bucket is as it was; in the last the (empty)
    cleaned batch has already been written when the division fails. *)
Theorem process_file_failures input_key output_key (s s' : state) (e : exn)
    (k : Z) :
  metrics s !! "schema_errors" = Some (SInt k) ->
  process_file str_to_number flex_datetime builtin_round2 elapsed
    input_key output_key s = (s', Raise e) ->
  (s3 s !! input_key = None /\ e = ClientError input_key /\ s' = s)
  \/ exists raw,
       s3 s !! input_key = Some raw
       /\ ((~ Forall (fun c => c ∈ columns raw) REQUIRED_COLUMNS
            /\ (exists missing, e = ValueError missing) /\ s3 s' = s3 s)
           \/ (Forall (fun c => c ∈ columns raw) REQUIRED_COLUMNS
               /\ (exists r, r ∈ without_nulls raw
                     /\ astype_Int64 (to_numeric str_to_number (cell r "quantity"))
                        = Raise TypeError)
               /\ e = TypeError /\ s3 s' = s3 s)
           \/ (Forall (fun c => c ∈ columns raw) REQUIRED_COLUMNS
               /\ rows raw = [] /\ e = ZeroDivisionError
               /\ s3 s' = <[output_key := empty_batch]> (s3 s))).
Proof.
  intros Hk H.
  destruct (s3 s !! input_key) as [raw|] eqn:Hraw; cycle 1.
  { left. unfold process_file, bind at 1, read_from_s3 in H. rewrite Hraw in H.
    by injection H as <- <-. }
  right. exists raw. split; [done|].
  destruct (decide (Forall (fun c => c ∈ columns raw) REQUIRED_COLUMNS))
    as [Hcols|Hcols]; cycle 1.
  { left. split; [done|].
    unfold process_file in H. erewrite bind_run in H; cycle 1.
    { unfold read_from_s3. by rewrite Hraw. }
    rewrite bind_set_metric in H. unfold bind at 1, validate_schema in H.
    rewrite decide_False in H by (by rewrite missing_cols_empty).
    rewrite (bind_get_metric "schema_errors" (SInt k)) in H
      by (cbn [metrics]; by rewrite lookup_insert_ne).
    erewrite bind_lift in H by reflexivity. rewrite bind_set_metric in H.
    unfold raise in H. injection H as <- <-. eauto. }
  right.
  destruct (traverse (retyped str_to_number) (without_nulls raw)) as [rs|e0] eqn:Hrs.
  - right. split; [done|].
    destruct (process_file_run str_to_number flex_datetime builtin_round2 elapsed
                input_key output_key s raw _ Hraw Hcols
                ltac:(unfold cleaned; by rewrite Hrs)) as (s1 & Hrun & Hs3).
    rewrite Hrun in H. destruct (Z.eqb_spec (len raw) 0) as [E|]; [|done].
    injection H as <- <-.
    assert (rows raw = []) as Hnil.
    { unfold len in E. destruct (rows raw); [done|]. simpl in E. lia. }
    split; [done|]. split; [done|]. rewrite Hs3. f_equal.
    unfold without_nulls, without_duplicates in Hrs. rewrite Hnil in Hrs.
    cbn in Hrs. injection Hrs as <-. done.
  - left. split; [done|].
    apply traverse_Raise_inv in Hrs as Hr. destruct Hr as (r & Hr & [-> Hq]%retyped_Raise).
    split; [by exists r|].
    unfold process_file in H. erewrite bind_run in H; cycle 1.
    { unfold read_from_s3. by rewrite Hraw. }
    rewrite bind_set_metric in H.
    erewrite bind_run in H; cycle 1.
    { unfold validate_schema. rewrite decide_True by (by apply missing_cols_empty).
      by rewrite getitems_present by done. }
    erewrite bind_run in H; cycle 1.
    { unfold remove_duplicates, drop_duplicates.
      by rewrite getitem_present by in_columns. }
    erewrite bind_run in H; cycle 1.
    { unfold remove_nulls. erewrite bind_lift; cycle 1.
      { apply dropna_present. cbn [columns]. by apply Forall_forall. }
      by rewrite bind_set_metric. }
    cbn [columns rows] in H.
    erewrite bind_Raise in H; cycle 1.
    { eapply validate_data_types_Raise; [in_columns|exact Hrs]. }
    by injection H as <- <-.
Qed.

End Failures.

(** ** Customer segments *)

Lemma float_le_lt_trans a b c :
  (a <=? b)%float = true -> (b <? c)%float = true -> (a <? c)%float = true.
Proof.
  rewrite leb_key, !ltb_key.
  destruct (fkey a) as [ka|], (fkey b) as [kb|], (fkey c) as [kc|]; try done.
  intros H1 H2.
  destruct (cmp3_spec ka kb) as [E|H|H], (cmp3_spec kb kc) as [E'|H'|H'],
    (cmp3_spec ka kc) as [E''|H''|H'']; try done; subst; unfold lt3 in *; lia.
Qed.

(** X24. The segment never goes down when the revenue total goes up:
    Bronze, Silver, Gold, Platinum in that order; a total that is not a
    number is put in Platinum. *)
Theorem get_customer_segment_monotone (t1 t2 : float) :
  ((t1 <=? t2)%float = true ->
   segment_rank (get_customer_segment t1) <= segment_rank (get_customer_segment t2))
  /\ (is_nan t1 = true -> get_customer_segment t1 = "Platinum").
Proof.
  split.
  - intros H. unfold get_customer_segment.
    destruct (t2 <? 500)%float eqn:E1.
    { by rewrite (float_le_lt_trans _ _ _ H E1). }
    destruct (t2 <? 2000)%float eqn:E2.
    { rewrite (float_le_lt_trans _ _ _ H E2). by destruct (t1 <? 500)%float. }
    destruct (t2 <? 5000)%float eqn:E3.
    { rewrite (float_le_lt_trans _ _ _ H E3).
      by destruct (t1 <? 500)%float, (t1 <? 2000)%float. }
    by destruct (t1 <? 500)%float, (t1 <? 2000)%float, (t1 <? 5000)%float.
  - intros H. unfold get_customer_segment.
    destruct (is_nan_compare_false t1 500 H) as (_ & -> & _).
    destruct (is_nan_compare_false t1 2000 H) as (_ & -> & _).
    by destruct (is_nan_compare_false t1 5000 H) as (_ & -> & _).
Qed.

(** ** The transformer keeps the record count *)

Lemma fkey_eqb f g :
  (f =? g)%float || (is_nan f && is_nan g) = true <-> fkey f = fkey g.
Proof.
  rewrite eqb_key.
  destruct (is_nan f) eqn:N1, (is_nan g) eqn:N2.
  - apply is_nan_key in N1, N2. rewrite N1, N2. done.
  - apply is_nan_key in N1. apply not_nan_key in N2 as [k2 K2].
    rewrite N1, K2. done.
  - apply is_nan_key in N2. apply not_nan_key in N1 as [k1 K1].
    rewrite N2, K1. done.
  - apply not_nan_key in N1 as [k1 K1], N2 as [k2 K2]. rewrite K1, K2.
    rewrite orb_false_r. split.
    + destruct (cmp3 k1 k2) eqn:E; [|done..]. apply cmp3_eq in E. by subst.
    + intros [= ->]. by rewrite cmp3_refl.
Qed.

Lemma key_eqb_class a b : key_eqb a b = true <-> key_class a = key_class b.
Proof.
  destruct a as [s1|z1|f1|b1|d1|q1|], b as [s2|z2|f2|b2|d2|q2|]; simpl;
    try (split; [done | intros [=]]).
  - rewrite String.eqb_eq. split; congruence.
  - rewrite Z.eqb_eq. split; congruence.
  - rewrite fkey_eqb. split; congruence.
  - rewrite is_nan_key. split; [by intros -> | by intros [= ->]].
  - destruct b1, b2; split; done.
  - destruct d1, d2. simpl. rewrite !andb_true_iff, !Z.eqb_eq.
    split; [by intros [[-> ->] ->] | by intros [= -> -> ->]].
  - rewrite bool_decide_eq_true. split; congruence.
  - rewrite is_nan_key. split; [by intros -> | by intros [= ->]].
  - done.
Qed.

Lemma key_eqb_trans a b c :
  key_eqb a b = true -> key_eqb b c = true -> key_eqb a c = true.
Proof. rewrite !key_eqb_class. congruence. Qed.

Ltac lengths :=
  repeat match goal with
  | G : getitem _ _ = Ok _ |- _ => apply getitem_length in G
  | T : traverse _ _ = Ok _ |- _ => apply traverse_length in T
  end;
  unfold setitem, group_rank_pct, group_transform in *; cbn [rows] in *;
  rewrite ?length_zip_with, ?length_zip, ?length_fmap in *;
  repeat match goal with
  | H : context [length (zip_with _ _ _)] |- _ => rewrite length_zip_with in H
  | H : context [length (zip _ _)] |- _ => rewrite length_zip in H
  | H : context [length (_ <$> _)] |- _ => rewrite length_fmap in H
  end;
  lia.

Lemma length_setitem df c s :
  length s = length (rows df) -> length (rows (setitem df c s)) = length (rows df).
Proof. intros H. unfold setitem. cbn [rows]. rewrite length_zip_with. lia. Qed.

Lemma assign_length df c a f out :
  assign df c a f = Ok out -> length (rows out) = length (rows df).
Proof. unfold assign. intros H. inv_ok H. lengths. Qed.

Lemma unique_keys_unseen seen ks k :
  k ∈ unique_keys seen ks -> existsb (key_eqb k) seen = false.
Proof.
  revert seen. induction ks as [|k0 ks IH]; intros seen; simpl.
  - by intros ?%elem_of_nil.
  - destruct (isna k0 || existsb (key_eqb k0) seen) eqn:E; [by apply IH|].
    apply orb_false_elim in E as [_ E].
    intros [->|H]%elem_of_cons; [done|].
    apply IH in H. simpl in H. by apply orb_false_elim in H as [_ H].
Qed.

Lemma filter_none {A} (P : A -> Prop) `{!forall a, Decision (P a)} (l : list A) :
  Forall (fun a => ~ P a) l -> filter P l = [].
Proof.
  induction 1 as [|a l Ha _ IH]; [done|]. by rewrite filter_cons_False.
Qed.

Lemma unique_keys_at_most_one seen ks x :
  (length (filter (fun k => key_eqb x k = true) (unique_keys seen ks)) <= 1)%nat.
Proof.
  revert seen. induction ks as [|k0 ks IH]; intros seen; simpl; [lia|].
  destruct (isna k0 || existsb (key_eqb k0) seen); [by apply IH|].
  rewrite filter_cons. destruct (decide (key_eqb x k0 = true)) as [Hx|Hx];
    [|by apply IH].
  simpl. replace (filter _ (unique_keys (k0 :: seen) ks)) with (@nil scalar); [done|].
  symmetry. apply filter_none, Forall_forall. intros k Hk Hxk.
  apply unique_keys_unseen in Hk. simpl in Hk.
  apply orb_false_elim in Hk as [Hk _].
  rewrite key_eqb_sym in Hxk.
  by rewrite (key_eqb_trans _ _ _ Hxk Hx) in Hk.
Qed.

Lemma length_bind_singletons {A B} (f : A -> list B) (l : list A) :
  Forall (fun a => length (f a) = 1%nat) l -> length (l ≫= f) = length l.
Proof.
  induction 1 as [|a l Ha _ IH]; [done|]. csimpl.
  rewrite length_app, Ha, IH. done.
Qed.

Lemma length_filter_fmap {A B} (f : A -> B) (p : B -> bool) (l : list A) :
  length (filter (fun b => p b = true) (f <$> l))
  = length (filter (fun a => p (f a) = true) l).
Proof.
  induction l as [|a l IH]; [done|]. csimpl. rewrite !filter_cons.
  destruct (decide (p (f a) = true)); simpl; by rewrite IH.
Qed.

Lemma merge_left_length df k c (right : list (scalar * scalar)) out :
  (forall x, (length (filter (fun kv => key_eqb x kv.1 = true) right) <= 1)%nat) ->
  merge_left df k c right = Ok out ->
  length (rows out) = length (rows df).
Proof.
  intros Hone H. unfold merge_left in H. inv_ok H.
  destruct (_ && _); [done|]. injection H as <-. cbn [rows].
  apply length_bind_singletons, Forall_forall. intros r _.
  specialize (Hone (cell r k)).
  destruct (filter _ right) as [|m [|m' ms]]; simpl in *; [done|done|lia].
Qed.

Lemma length_group_rank_pct ks vs :
  length ks = length vs -> length (group_rank_pct ks vs) = length ks.
Proof. intros H. unfold group_rank_pct. rewrite length_zip_with. lia. Qed.

Lemma length_group_transform agg ks vs :
  length (group_transform agg ks vs) = length ks.
Proof. unfold group_transform. by rewrite length_fmap. Qed.

Section RecordCount.

Variable flex_datetime : scalar -> option date.
Variable quantile : list float -> float -> float.
Variable median : list float -> float.

Lemma calculate_revenue_length df s s' out :
  calculate_revenue df s = (s', Ok out) -> length (rows out) = length (rows df).
Proof. unfold calculate_revenue. intros H. inv_ok H. lengths. Qed.

Lemma extract_date_components_length df out :
  extract_date_components flex_datetime df = Ok out ->
  length (rows out) = length (rows df).
Proof.
  unfold extract_date_components. intros H. inv_ok H.
  repeat match goal with
  | H : assign _ _ _ _ = Ok _ |- _ => apply assign_length in H
  end.
  congruence.
Qed.

Lemma add_product_categories_length df out :
  add_product_categories df = Ok out -> length (rows out) = length (rows df).
Proof.
  unfold add_product_categories. intros H. inv_ok H.
  destruct (0 <? _); injection H as <-; lengths.
Qed.

Lemma add_customer_segments_length df out :
  add_customer_segments df = Ok out -> length (rows out) = length (rows df).
Proof.
  unfold add_customer_segments. intros H. inv_ok H.
  match goal with
  | M : merge_left _ _ _ _ = Ok _ |- _ => apply merge_left_length in M; [done|]
  end.
  intros x. unfold customer_stats. rewrite <- list_fmap_compose.
  rewrite length_filter_fmap. apply unique_keys_at_most_one.
Qed.

Lemma add_price_indicators_length df out :
  add_price_indicators quantile df = Ok out ->
  length (rows out) = length (rows df).
Proof. unfold add_price_indicators. intros H. inv_ok H. lengths. Qed.

Lemma add_quantity_indicators_length df out :
  add_quantity_indicators median df = Ok out ->
  length (rows out) = length (rows df).
Proof. unfold add_quantity_indicators. intros H. inv_ok H. lengths. Qed.

Lemma add_regional_indicators_length df out :
  add_regional_indicators df = Ok out ->
  length (rows out) = length (rows df).
Proof. unfold add_regional_indicators. intros H. inv_ok H. lengths. Qed.

(** X25. The transformer neither drops nor duplicates a record, whatever
    batch it is given: whenever it returns, the batch it returns has as
    many records as the one it was given, and [records_processed] is that
    number. *)
Theorem transform_data_record_count (df out : DataFrame) (s s' : state) :
  transform_data flex_datetime quantile median df s = (s', Ok out) ->
  len out = len df
  /\ metrics s' !! "records_processed" = Some (SInt (len df)).
Proof.
  unfold transform_data. intros H.
  apply bind_Ok in H as (s1 & d1 & H1%calculate_revenue_length & H).
  apply bind_Ok in H as (s2 & d2 & [-> H2%extract_date_components_length]%lift_Ok & H).
  apply bind_Ok in H as (s3 & d3 & [-> H3%assign_length]%lift_Ok & H).
  apply bind_Ok in H as (s4 & d4 & [-> H4%add_product_categories_length]%lift_Ok & H).
  apply bind_Ok in H as (s5 & d5 & [-> H5%add_customer_segments_length]%lift_Ok & H).
  apply bind_Ok in H as (s6 & d6 & [-> H6%add_price_indicators_length]%lift_Ok & H).
  apply bind_Ok in H as (s7 & d7 & [-> H7%add_quantity_indicators_length]%lift_Ok & H).
  apply bind_Ok in H as (s8 & d8 & [-> H8%add_regional_indicators_length]%lift_Ok & H).
  rewrite !bind_set_metric in H. unfold ret in H. injection H as <- <-.
  assert (len d8 = len df) as E by (unfold len; congruence).
  split; [done|]. cbn [metrics]. by rewrite lookup_insert_eq, E.
Qed.

End RecordCount.

Section TransformerScript.

Variable flex_datetime : scalar -> option date.
Variable quantile : list float -> float -> float.
Variable median : list float -> float.
Variable elapsed : float.
Variable today : string.

Lemma calculate_revenue_Ok_metrics df s s' out :
  calculate_revenue df s = (s', Ok out) ->
  exists t a,
    s' = {| metrics := <["avg_revenue" := SFloat a]>
                         (<["total_revenue" := SFloat t]> (metrics s));
            s3 := s3 s |}.
Proof.
  unfold calculate_revenue. intros H.
  do 7 (apply bind_Ok in H as (? & ? & [-> _]%lift_Ok & H)).
  rewrite !bind_set_metric in H. unfold ret in H. injection H as <- _. eauto.
Qed.

Lemma transform_data_Ok_metrics df s s' out :
  transform_data flex_datetime quantile median df s = (s', Ok out) ->
  exists t a c n,
    s' = {| metrics :=
              <["records_processed" := SInt n]>
              (<["columns_added" := SInt c]>
              (<["avg_revenue" := SFloat a]>
              (<["total_revenue" := SFloat t]> (metrics s))));
            s3 := s3 s |}.
Proof.
  unfold transform_data. intros H.
  apply bind_Ok in H as (s1 & d1 & (t & a & ->)%calculate_revenue_Ok_metrics & H).
  do 7 (apply bind_Ok in H as (? & ? & [-> _]%lift_Ok & H)).
  rewrite !bind_set_metric in H. unfold ret in H. injection H as <- _.
  by eexists _, _, _, _.
Qed.

(** X26. The exit code of the transformer script tells whether the run
    returned: the summary printed afterwards reads the five metrics the
    constructor sets and the run overwrites with numbers, so it cannot
    fail; the bucket is left as the run left it. *)
Theorem transformer_main_exit_code (argv : list string)
    (bucket : gmap string DataFrame) :
  let key := PROCESSED_ZONE +:+ "/" +:+ date_str today argv +:+ ".csv" in
  let run :=
    transformer_process_file flex_datetime quantile median elapsed key key
      {| metrics := transformer_init; s3 := bucket |} in
  transformer_main flex_datetime quantile median elapsed today argv bucket
  = (s3 run.1, match run.2 with Ok _ => 0 | Raise _ => 1 end).
Proof.
  intros key run. unfold transformer_main. fold key. fold run.
  destruct run as [s1 [m|e]] eqn:E.
  - erewrite bind_run by exact E.
    rewrite transformer_print_metrics_summary_run; [done|].
    unfold run, transformer_process_file in E.
    apply bind_Ok in E as (s0 & df & [-> _]%read_from_s3_Ok & E).
    apply bind_Ok in E as (s0 & out & (t & a & c & n & ->)%transform_data_Ok_metrics & E).
    rewrite bind_write_to_s3, bind_set_metric in E. injection E as <- _.
    cbn [metrics]. intros k Hk.
    repeat (apply elem_of_cons in Hk as [->|Hk];
            [eexists; split;
               [by rewrite ?lookup_insert_eq, ?lookup_insert_ne, ?lookup_insert_eq by done
               |done]|]).
    by apply elem_of_nil in Hk.
  - by erewrite bind_Raise by exact E.
Qed.

End TransformerScript.
